(** * ansible-coolify: the OpenAPI-driven client, the Coolify facade and the
      role's modules, embedded in Rocq.

    Source files embedded here
      - module_utils/swagger/swagger_client.py   (Module [swagger_client])
      - module_utils/swagger/coolify_api.py      (Module [facade])
      - library/coolify_*.py                     (one Module per wrapper)

    Python values are an untyped tree ([pyval]); every operation that
    Python can refuse (attribute access on the wrong kind of object, a
    missing key, ...) returns in the exception monad [Res].  Code that
    talks to the network runs in [M], a state-and-exception monad over
    an explicit world (the remote end and the log of what was sent). *)

From Stdlib Require Import ZArith List String Ascii Bool Lia DecimalString.
Import ListNotations.
Open Scope string_scope.

Set Implicit Arguments.
#[local] Set Warnings "-register-all".

(* ================================================================== *)
(** * Python values, dictionaries and exceptions *)
(* ================================================================== *)

Inductive pyval : Type :=
| PNone
| PBool (b : bool)
| PInt (z : Z)
| PStr (s : string)
| PList (l : list pyval)
| PDict (d : list (string * pyval)).

(** A Python [dict] with string keys: an association list in insertion
    order, as [dict.keys()] and [dict.items()] expose it. *)
Definition dict (V : Type) : Type := list (string * V).

Fixpoint dget {V : Type} (k : string) (d : dict V) : option V :=
  match d with
  | [] => None
  | (k', v) :: r => if k' =? k then Some v else dget k r
  end.

Definition dmem {V : Type} (k : string) (d : dict V) : bool :=
  match dget k d with Some _ => true | None => false end.

(** [d[k] = v]: an existing key keeps its position, a new one goes last. *)
Fixpoint dset {V : Type} (k : string) (v : V) (d : dict V) : dict V :=
  match d with
  | [] => [(k, v)]
  | (k', v') :: r => if k' =? k then (k', v) :: r else (k', v') :: dset k v r
  end.

Definition dkeys {V : Type} (d : dict V) : list string := map fst d.

Inductive exn : Type :=
| SwaggerClientError (msg : string)
| CoolifyError (msg : string) (api_response : option pyval)
| Exception (msg : string)
| KeyError (key : string)
| AttributeError (what : string)
| TypeError (what : string)
| ValueError (what : string)
| JSONDecodeError
| SystemExit (failed : bool) (output : dict pyval).

(** [isinstance(e, Exception)]: everything but [SystemExit]. *)
Definition is_Exception (e : exn) : bool :=
  match e with SystemExit _ _ => false | _ => true end.

(** [str(e)]. *)
Definition exn_str (e : exn) : string :=
  match e with
  | SwaggerClientError m => m
  | CoolifyError m _ => m
  | Exception m => m
  | KeyError k => "'" ++ k ++ "'"
  | AttributeError w => w
  | TypeError w => w
  | ValueError w => w
  | JSONDecodeError => "Expecting value"
  | SystemExit _ _ => ""
  end.

Inductive Res (A : Type) : Type :=
| Ok (a : A)
| Raise (e : exn).
Arguments Ok {A} a.
Arguments Raise {A} e.

Definition rbind {A B : Type} (c : Res A) (k : A -> Res B) : Res B :=
  match c with Ok a => k a | Raise e => Raise e end.

Declare Scope res_scope.
Delimit Scope res_scope with res.
Notation "x <~ c ;; k" := (rbind c (fun x => k))
  (at level 61, c at next level, right associativity) : res_scope.
Notation "' pat <~ c ;; k" := (rbind c (fun x => match x with pat => k end))
  (at level 61, pat pattern, c at next level, right associativity) : res_scope.

(** A [for] loop whose body may raise: the accumulator is the loop's
    mutable state. *)
Fixpoint for_each {A B : Type} (body : B -> A -> Res B) (l : list A) (acc : B)
  : Res B :=
  match l with
  | [] => Ok acc
  | x :: r => rbind (body acc x) (for_each body r)
  end.

(** ** Truth value testing and the comparisons the code makes *)

Definition truthy (v : pyval) : bool :=
  match v with
  | PNone => false
  | PBool b => b
  | PInt z => negb (z =? 0)%Z
  | PStr s => negb (s =? "")
  | PList l => match l with [] => false | _ => true end
  | PDict d => match d with [] => false | _ => true end
  end.

(** [v == s] for a string [s]. *)
Definition eq_str (v : pyval) (s : string) : bool :=
  match v with PStr s' => s' =? s | _ => false end.

(** [v is None] and [v is False]. *)
Definition is_None (v : pyval) : bool :=
  match v with PNone => true | _ => false end.
Definition is_False (v : pyval) : bool :=
  match v with PBool false => true | _ => false end.

(** ** String methods *)

Fixpoint replace_aux (old new : string) (skip : nat) (s : string) : string :=
  match s with
  | EmptyString => EmptyString
  | String c s' =>
      match skip with
      | S k => replace_aux old new k s'
      | O => if prefix old s
             then new ++ replace_aux old new (length old - 1) s'
             else String c (replace_aux old new 0 s')
      end
  end.

Fixpoint interleave (new s : string) : string :=
  match s with
  | EmptyString => new
  | String c s' => new ++ String c (interleave new s')
  end.

(** [s.replace(old, new)] *)
Definition replace (old new s : string) : string :=
  if old =? "" then interleave new s else replace_aux old new 0 s.

(** [s.rstrip(c)] for a single character. *)
Fixpoint rstrip (c : ascii) (s : string) : string :=
  match s with
  | EmptyString => EmptyString
  | String a s' =>
      let r := rstrip c s' in
      if (Ascii.eqb a c && (r =? ""))%bool then EmptyString else String a r
  end.

(** [sub in s] *)
Fixpoint contains (sub s : string) : bool :=
  (prefix sub s ||
   match s with EmptyString => false | String _ s' => contains sub s' end)%bool.

Definition map_string (f : ascii -> ascii) : string -> string :=
  fix go (s : string) : string :=
    match s with
    | EmptyString => EmptyString
    | String c s' => String (f c) (go s')
    end.

Definition lower_ascii (c : ascii) : ascii :=
  let n := nat_of_ascii c in
  if ((65 <=? n) && (n <=? 90))%nat then ascii_of_nat (n + 32) else c.
Definition upper_ascii (c : ascii) : ascii :=
  let n := nat_of_ascii c in
  if ((97 <=? n) && (n <=? 122))%nat then ascii_of_nat (n - 32) else c.

Definition lower : string -> string := map_string lower_ascii.
Definition upper : string -> string := map_string upper_ascii.

(** [s.split(c)] for a single-character separator. *)
Fixpoint split (c : ascii) (s : string) : list string :=
  match s with
  | EmptyString => [EmptyString]
  | String a s' =>
      let r := split c s' in
      if Ascii.eqb a c then EmptyString :: r
      else match r with
           | [] => [String a EmptyString]
           | h :: t => String a h :: t
           end
  end.

(** [s[n:]] *)
Fixpoint drop_string (n : nat) (s : string) : string :=
  match n, s with
  | O, _ => s
  | S k, EmptyString => EmptyString
  | S k, String _ s' => drop_string k s'
  end.

(** [sep.join(l)] *)
Definition join (sep : string) (l : list string) : string := concat sep l.

(** ** Operations on untyped values *)

(** [o.get(k, default)] *)
Definition py_get (o : pyval) (k : string) (default : pyval) : Res pyval :=
  match o with
  | PDict d => Ok (match dget k d with Some v => v | None => default end)
  | _ => Raise (AttributeError "object has no attribute 'get'")
  end.

(** [k in o] for a string [k]. *)
Definition py_in (k : string) (o : pyval) : Res bool :=
  match o with
  | PDict d => Ok (dmem k d)
  | PList l => Ok (existsb (fun x => eq_str x k) l)
  | PStr s => Ok (contains k s)
  | _ => Raise (TypeError "argument is not iterable")
  end.

(** [o[k]] for a string [k]. *)
Definition py_getitem (o : pyval) (k : string) : Res pyval :=
  match o with
  | PDict d => match dget k d with
               | Some v => Ok v
               | None => Raise (KeyError k)
               end
  | PList _ | PStr _ => Raise (TypeError "indices must be integers")
  | _ => Raise (TypeError "object is not subscriptable")
  end.

Fixpoint chars (s : string) : list pyval :=
  match s with
  | EmptyString => []
  | String c s' => PStr (String c EmptyString) :: chars s'
  end.

(** The items a [for x in o] loop (or [list.extend(o)]) visits. *)
Definition py_iter (o : pyval) : Res (list pyval) :=
  match o with
  | PList l => Ok l
  | PDict d => Ok (map (fun kv => PStr (fst kv)) d)
  | PStr s => Ok (chars s)
  | _ => Raise (TypeError "object is not iterable")
  end.

(** [o.items()] *)
Definition py_items (o : pyval) : Res (dict pyval) :=
  match o with
  | PDict d => Ok d
  | _ => Raise (AttributeError "object has no attribute 'items'")
  end.

(** The receiver of a [str] method such as [.replace] or [.startswith]. *)
Definition py_str_self (o : pyval) (meth : string) : Res string :=
  match o with
  | PStr s => Ok s
  | _ => Raise (AttributeError ("object has no attribute '" ++ meth ++ "'"))
  end.

(** ** The Python runtime the code relies on

    [str()], [json.dumps], [json.loads] and [urllib.parse.urlencode] are
    library code; the development is parametric in them. *)
Record PyRuntime : Type := {
  py_str : pyval -> string;
  json_dumps : pyval -> string;
  json_loads : string -> option pyval;     (* [None]: JSONDecodeError *)
  urlencode : dict pyval -> string
}.

(* ================================================================== *)
(** * The state-and-exception monad *)
(* ================================================================== *)

Definition M (S A : Type) : Type := S -> Res A * S.

Definition ret {S A : Type} (a : A) : M S A := fun s => (Ok a, s).
Definition raise {S A : Type} (e : exn) : M S A := fun s => (Raise e, s).
Definition bind {S A B : Type} (c : M S A) (k : A -> M S B) : M S B :=
  fun s => match c s with
           | (Ok a, s') => k a s'
           | (Raise e, s') => (Raise e, s')
           end.
Definition lift {S A : Type} (r : Res A) : M S A := fun s => (r, s).

(** [try: c  except <handled>: h]: the handler sees the state at the
    point of the raise. *)
Definition try_except {S A : Type} (c : M S A) (handled : exn -> bool)
  (h : exn -> M S A) : M S A :=
  fun s => match c s with
           | (Ok a, s') => (Ok a, s')
           | (Raise e, s') => if handled e then h e s' else (Raise e, s')
           end.

Definition get_state {S : Type} : M S S := fun s => (Ok s, s).
Definition modify {S : Type} (f : S -> S) : M S unit := fun s => (Ok tt, f s).

Declare Scope m_scope.
Delimit Scope m_scope with m.
Notation "x <- c ;; k" := (bind c (fun x => k))
  (at level 61, c at next level, right associativity) : m_scope.
Notation "c ;;; k" := (bind c (fun _ => k))
  (at level 61, right associativity) : m_scope.

(* ================================================================== *)
(** * The network *)
(* ================================================================== *)

Record http_request : Type := {
  req_method : string;
  req_url : string;
  req_headers : dict string;
  req_data : option string;
  req_timeout : Z;
  req_verify : bool
}.

(** What [requests.request] does: a response object (whatever its
    status), or one of the exceptions the client distinguishes. *)
Inductive requests_outcome : Type :=
| ReqResponse (status_code : Z) (text : string) (headers : dict string)
| ReqTimeout
| ReqSSLError (e : string)
| ReqConnectionError (e : string)
| ReqRequestException (e : string).

(** What [urllib.request.urlopen] does: a response, [HTTPError] (its
    [fp] and [headers] may be missing) or [URLError]. *)
Inductive urlopen_outcome : Type :=
| UrlResponse (status : Z) (body : string) (headers : dict string)
| UrlHTTPError (code : Z) (fp : option string) (headers : option (dict string))
| UrlURLError (reason : string).

(** The remote end: any state machine answering requests. *)
Record Network (St : Type) : Type := {
  requests_request : St -> http_request -> requests_outcome * St;
  urlopen : St -> http_request -> urlopen_outcome * St
}.

Inductive event : Type :=
| Sent (r : http_request)                                  (* an HTTP request *)
| Slept (d : Z)                                            (* [time.sleep(d)] *)
| Called (operation_id : string) (params : option (dict pyval)).
                                       (* [SwaggerClient.call_operation(...)] *)

Record World (St : Type) : Type := {
  remote : St;
  log : list event          (* oldest first *)
}.

Definition sent_requests (l : list event) : list http_request :=
  flat_map (fun e => match e with Sent r => [r] | _ => [] end) l.
Definition sleeps (l : list event) : list Z :=
  flat_map (fun e => match e with Slept d => [d] | _ => [] end) l.

Section NetworkOps.
  Context {St : Type} (nw : Network St).

Definition do_requests_request (r : http_request)
    : M (World St) requests_outcome :=
    fun w => let (o, s') := requests_request nw (remote w) r in
             (Ok o, {| remote := s'; log := log w ++ [Sent r] |}).

Definition do_urlopen (r : http_request) : M (World St) urlopen_outcome :=
    fun w => let (o, s') := urlopen nw (remote w) r in
             (Ok o, {| remote := s'; log := log w ++ [Sent r] |}).

  (** [time.sleep(d)] *)
Definition time_sleep (d : Z) : M (World St) unit :=
    if (d <? 0)%Z
    then raise (ValueError "sleep length must be non-negative")
    else fun w => (Ok tt, {| remote := remote w; log := log w ++ [Slept d] |}).
End NetworkOps.

Definition truthy_body (b : option string) : bool :=
  match b with Some s => negb (s =? "") | None => false end.

(* ================================================================== *)
(** * module_utils/swagger/swagger_client.py *)
(* ================================================================== *)

Module swagger_client.

  (** The value stored under an operation id by [_build_operation_map]. *)
Record operation_info : Type := {
    info_path : string;
    info_method : string;
    info_operation : pyval;
    info_parameters : list pyval;
    info_request_body : pyval
  }.

Record SwaggerClient : Type := {
    spec : pyval;
    base_url : string;
    auth_params : dict pyval;
    auth_headers : dict string;
    timeout : Z;
    verify_ssl : bool;
    max_retries : Z;
    retry_delay : Z;
    _operations : dict operation_info
  }.

  (** The uniform result of the transport. *)
Record response : Type := {
    status_code : Z;
    body : string;
    headers : dict string
  }.

Definition response_to_py (r : response) : pyval :=
    PDict [("status_code", PInt (status_code r));
           ("body", PStr (body r));
           ("headers", PDict (map (fun kv => (fst kv, PStr (snd kv))) (headers r)))].

  (** What [call_operation] hands to [_make_request]. *)
Record request : Type := {
    rq_method : string;
    rq_url : string;
    rq_headers : dict string;
    rq_body : option string;
    rq_content_type : string
  }.

Definition METHODS : list string :=
    ["get"; "post"; "put"; "patch"; "delete"; "options"; "head"].

Definition FORM : string := "application/x-www-form-urlencoded".
Definition JSON : string := "application/json".

  Open Scope res_scope.

  (** ** Operation index *)

Definition _get_operation_parameters (operation path_item : pyval)
    : Res (list pyval) :=
    let params : list pyval := [] in
    in_item <~ py_in "parameters" path_item ;;
    params <~ (if in_item : bool
               then p <~ py_getitem path_item "parameters" ;;
                    l <~ py_iter p ;;
                    Ok (params ++ l)%list
               else Ok params) ;;
    in_op <~ py_in "parameters" operation ;;
    params <~ (if in_op : bool
               then p <~ py_getitem operation "parameters" ;;
                    l <~ py_iter p ;;
                    Ok (params ++ l)%list
               else Ok params) ;;
    Ok params.

  (** The key under which [operations[operation_id] = ...] stores.  An
      OpenAPI [operationId] is a string and the index of this model is
      keyed by strings; lists and objects are unhashable in Python, and
      any other truthy scalar is outside the documents modelled here. *)
Definition hash_key (operation_id : pyval) : Res string :=
    match operation_id with
    | PStr s => Ok s
    | PList _ | PDict _ => Raise (TypeError "unhashable type")
    | _ => Raise (TypeError "operationId is not a string")
    end.

  (** Body of the inner loop of [_build_operation_map]. *)
Definition index_method (path : string) (path_item : pyval)
    (operations : dict operation_info) (method : string)
    : Res (dict operation_info) :=
    present <~ py_in method path_item ;;
    if negb present then Ok operations
    else
      operation <~ py_getitem path_item method ;;
      operation_id <~ py_get operation "operationId" PNone ;;
      if truthy operation_id then
        parameters <~ _get_operation_parameters operation path_item ;;
        request_body <~ py_get operation "requestBody" PNone ;;
        key <~ hash_key operation_id ;;
        Ok (dset key {| info_path := path;
                        info_method := upper method;
                        info_operation := operation;
                        info_parameters := parameters;
                        info_request_body := request_body |} operations)
      else Ok operations.

  (** Body of the outer loop. *)
Definition index_path (operations : dict operation_info)
    (entry : string * pyval) : Res (dict operation_info) :=
    for_each (index_method (fst entry) (snd entry)) METHODS operations.

Definition _build_operation_map (spec : pyval) : Res (dict operation_info) :=
    let operations := [] in
    paths <~ py_get spec "paths" (PDict []) ;;
    items <~ py_items paths ;;
    for_each index_path items operations.

  (** [SwaggerClient.__init__] with an explicit base URL and an
      already-parsed specification. *)
Definition __init__ (spec : pyval) (base_url : string)
    (auth_params : dict pyval) (auth_headers : dict string)
    (timeout : Z) (verify_ssl : bool) (max_retries retry_delay : Z)
    : Res SwaggerClient :=
    ops <~ _build_operation_map spec ;;
    Ok {| spec := spec; base_url := base_url; auth_params := auth_params;
          auth_headers := auth_headers; timeout := timeout;
          verify_ssl := verify_ssl; max_retries := max_retries;
          retry_delay := retry_delay; _operations := ops |}.

  (** Body of the loop of [_resolve_ref]: [None] is the early return. *)
Fixpoint resolve_parts (parts : list string) (current : pyval)
    : option pyval :=
    match parts with
    | [] => Some current
    | part :: rest =>
        match current with
        | PDict d => match dget part d with
                     | Some v => resolve_parts rest v
                     | None => None
                     end
        | _ => None
        end
    end.

  (** [_resolve_ref]; Python's [None] result is [PNone]. *)
Definition _resolve_ref (self : SwaggerClient) (ref : pyval) : Res pyval :=
    r <~ py_str_self ref "startswith" ;;
    if negb (prefix "#/" r) then Ok PNone
    else
      let parts := split "/" (drop_string 2 r) in
      Ok (match resolve_parts parts (spec self) with
          | Some v => v
          | None => PNone
          end).

Definition get_operation (self : SwaggerClient) (operation_id : string)
    : Res operation_info :=
    match dget operation_id (_operations self) with
    | None =>
        let available := dkeys (_operations self) in
        Raise (SwaggerClientError
                 ("Operation '" ++ operation_id ++ "' not found. " ++
                  "Available operations: " ++
                  join ", " (firstn 10 available) ++ "..."))
    | Some info => Ok info
    end.

Definition list_operations (self : SwaggerClient) : list string :=
    dkeys (_operations self).

  Section WithRuntime.
    Variable rt : PyRuntime.

    (** ** Request body *)

    (** Body of the loop over the form schema's properties. *)
Definition add_form_field (params : dict pyval) (form_data : dict pyval)
      (property : string * pyval) : Res (dict pyval) :=
      let param_name := fst property in
      let python_name := replace "-" "_" param_name in
      if dmem python_name params then
        value <~ py_getitem (PDict params) python_name ;;
        if (negb (is_None value) && negb (is_False value))%bool
        then Ok (dset param_name value form_data)
        else Ok form_data
      else if dmem param_name params then
        value <~ py_getitem (PDict params) param_name ;;
        if (negb (is_None value) && negb (is_False value))%bool
        then Ok (dset param_name value form_data)
        else Ok form_data
      else Ok form_data.

Definition _build_request_body (self : SwaggerClient)
      (operation_info : operation_info) (params : dict pyval)
      : Res (option string * string) :=
      let request_body := info_request_body operation_info in
      if negb (truthy request_body) then Ok (None, JSON)
      else
        content <~ py_get request_body "content" (PDict []) ;;
        is_form <~ py_in FORM content ;;
        if is_form : bool then
          media <~ py_getitem content FORM ;;
          schema <~ py_get media "schema" (PDict []) ;;
          has_ref <~ py_in "$ref" schema ;;
          schema <~ (if has_ref : bool
                     then ref <~ py_getitem schema "$ref" ;;
                          resolved <~ _resolve_ref self ref ;;
                          Ok (if truthy resolved then resolved else PDict [])
                     else Ok schema) ;;
          let form_data := [] in
          properties <~ py_get schema "properties" (PDict []) ;;
          items <~ py_items properties ;;
          form_data <~ for_each (add_form_field params) items form_data ;;
          Ok (Some (urlencode rt form_data), FORM)
        else
          is_json <~ py_in JSON content ;;
          if is_json : bool
          then Ok (Some (json_dumps rt (PDict params)), JSON)
          else Ok (None, JSON).

    (** ** Path and query parameters *)

    (** Body of the first loop of [call_operation]. *)
Definition subst_path_param (params : dict pyval) (path : string)
      (param : pyval) : Res string :=
      loc <~ py_get param "in" PNone ;;
      if eq_str loc "path" then
        name <~ py_getitem param "name" ;;
        param_name <~ py_str_self name "replace" ;;
        let python_name := replace "-" "_" param_name in
        if dmem python_name params then
          value <~ py_getitem (PDict params) python_name ;;
          Ok (replace ("{" ++ param_name ++ "}") (py_str rt value) path)
        else if dmem param_name params then
          value <~ py_getitem (PDict params) param_name ;;
          Ok (replace ("{" ++ param_name ++ "}") (py_str rt value) path)
        else Ok path
      else Ok path.

    (** Body of the second loop. *)
Definition add_query_param (params : dict pyval) (query_params : dict pyval)
      (param : pyval) : Res (dict pyval) :=
      loc <~ py_get param "in" PNone ;;
      if eq_str loc "query" then
        name <~ py_getitem param "name" ;;
        param_name <~ py_str_self name "replace" ;;
        let python_name := replace "-" "_" param_name in
        if dmem python_name params then
          value <~ py_getitem (PDict params) python_name ;;
          if negb (is_None value)
          then Ok (dset param_name value query_params)
          else Ok query_params
        else if dmem param_name params then
          value <~ py_getitem (PDict params) param_name ;;
          if negb (is_None value)
          then Ok (dset param_name value query_params)
          else Ok query_params
        else Ok query_params
      else Ok query_params.

    (** [params or {}] *)
Definition params_or_empty (params : option (dict pyval)) : dict pyval :=
      match params with
      | Some ((_ :: _) as d) => d
      | _ => []
      end.

    (** [call_operation] up to (not including) the retry loop: the
        request that every attempt sends. *)
Definition build_request (self : SwaggerClient) (operation_id : string)
      (params : option (dict pyval)) : Res request :=
      let params := params_or_empty params in
      operation_info <~ get_operation self operation_id ;;
      let path := info_path operation_info in
      let method := info_method operation_info in
      path <~ for_each (subst_path_param params)
                       (info_parameters operation_info) path ;;
      let url := rstrip "/" (base_url self) ++ path in
      let query_params := auth_params self in
      query_params <~ for_each (add_query_param params)
                               (info_parameters operation_info) query_params ;;
      let url := match query_params with
                 | [] => url
                 | _ => url ++ "?" ++ urlencode rt query_params
                 end in
      '(body, content_type) <~ _build_request_body self operation_info params ;;
      let body :=
        if ((content_type =? FORM) &&
            match auth_params self with [] => false | _ => true end)%bool
        then let auth_encoded := urlencode rt (auth_params self) in
             if truthy_body body
             then match body with
                  | Some b => Some (auth_encoded ++ "&" ++ b)
                  | None => Some auth_encoded
                  end
             else Some auth_encoded
        else body in
      let headers := auth_headers self in
      let headers := dset "Accept" "application/json" headers in
      Ok {| rq_method := method; rq_url := url; rq_headers := headers;
            rq_body := body; rq_content_type := content_type |}.

    Close Scope res_scope.
    Open Scope m_scope.

    (** ** Transport *)

    Section Transport.
      Context {St : Type} (nw : Network St).
      Variable HAS_REQUESTS : bool.

Definition wire (self : SwaggerClient) (rq : request) : http_request :=
        let headers := rq_headers rq in
        let headers :=
          if (truthy_body (rq_body rq) &&
              negb (rq_content_type rq =? ""))%bool
          then dset "Content-Type" (rq_content_type rq) headers
          else headers in
        {| req_method := rq_method rq; req_url := rq_url rq;
           req_headers := headers; req_data := rq_body rq;
           req_timeout := timeout self; req_verify := verify_ssl self |}.

Definition _make_request_with_requests (self : SwaggerClient)
        (rq : request) : M (World St) response :=
        o <- do_requests_request nw (wire self rq) ;;
        match o with
        | ReqResponse st text hs =>
            ret {| status_code := st; body := text; headers := hs |}
        | ReqTimeout => raise (SwaggerClientError "Request timed out")
        | ReqSSLError e => raise (SwaggerClientError ("SSL error: " ++ e))
        | ReqConnectionError e =>
            raise (SwaggerClientError ("Connection error: " ++ e))
        | ReqRequestException e =>
            raise (SwaggerClientError ("Request failed: " ++ e))
        end.

Definition _make_request_with_urllib (self : SwaggerClient)
        (rq : request) : M (World St) response :=
        o <- do_urlopen nw (wire self rq) ;;
        match o with
        | UrlResponse st b hs =>
            ret {| status_code := st; body := b; headers := hs |}
        | UrlHTTPError code fp hs =>
            ret {| status_code := code;
                   body := match fp with Some b => b | None => "" end;
                   headers := match hs with Some h => h | None => [] end |}
        | UrlURLError reason =>
            if contains "timed out" (lower reason)
            then raise (SwaggerClientError "Request timed out")
            else raise (SwaggerClientError ("Request failed: " ++ reason))
        end.

Definition _make_request (self : SwaggerClient) (rq : request)
        : M (World St) response :=
        if HAS_REQUESTS then _make_request_with_requests self rq
        else _make_request_with_urllib self rq.

      (** ** The call orchestrator *)

      (** [json.loads(response['body'])], falling back to
          [{'raw': response['body']}]. *)
Definition decode (r : response) : pyval :=
        match json_loads rt (body r) with
        | Some v => v
        | None => PDict [("raw", PStr (body r))]
        end.

Definition is_SwaggerClientError (e : exn) : bool :=
        match e with SwaggerClientError _ => true | _ => false end.

      (** The [for attempt in range(self.max_retries)] loop and the
          statement after it; [attempts] is what is left of the range. *)
Fixpoint retry_loop (self : SwaggerClient) (rq : request)
        (raw_response : bool) (attempts : list nat) (last_error : option exn)
        : M (World St) pyval :=
        match attempts with
        | [] => match last_error with
                | Some e => raise e
                | None => ret PNone
                end
        | attempt :: rest =>
            fun w =>
              match _make_request self rq w with
              | (Ok response, w') =>
                  if raw_response then (Ok (response_to_py response), w')
                  else (Ok (decode response), w')
              | (Raise e, w') =>
                  if is_SwaggerClientError e then
                    if (Z.of_nat attempt <? max_retries self - 1)%Z then
                      (time_sleep (retry_delay self * 2 ^ Z.of_nat attempt) ;;;
                       retry_loop self rq raw_response rest (Some e)) w'
                    else (Raise e, w')
                  else (Raise e, w')
              end
        end.

Definition call_operation (self : SwaggerClient) (operation_id : string)
        (params : option (dict pyval)) (raw_response : bool)
        : M (World St) pyval :=
        rq <- lift (build_request self operation_id params) ;;
        retry_loop self rq raw_response
                   (seq 0 (Z.to_nat (max_retries self))) None.
    End Transport.
  End WithRuntime.

  Close Scope m_scope.
End swagger_client.

(* ================================================================== *)
(** * Local variables of a function that mutates a result dictionary *)
(* ================================================================== *)

(** [ensure_*] and every [run_module] build their answer in a local
    [result] dict while they talk to the remote end; an [except] clause
    sees that dict as it is at the raise.  The state of such a function
    is the pair of [result] and the world. *)
Section Locals.
  Context {W : Type}.

Definition LM (A : Type) : Type := M (dict pyval * W) A.

  (** Run a computation on the world, leaving [result] alone. *)
Definition on_world {A : Type} (c : M W A) : LM A :=
    fun s => let (x, w') := c (snd s) in (x, (fst s, w')).

  (** [result[k] = v] *)
Definition set_result (k : string) (v : pyval) : LM unit :=
    fun s => (Ok tt, (dset k v (fst s), snd s)).

Definition get_result : LM (dict pyval) := fun s => (Ok (fst s), s).

  (** Run a function body with a fresh [result]; the local dies with it. *)
Definition with_result {A : Type} (init : dict pyval) (c : LM A) : M W A :=
    fun w => let (x, s') := c (init, w) in (x, snd s').
End Locals.

(** [AnsibleModule.exit_json(kwargs...)] and [fail_json(msg, kwargs...)]:
    both end the process ([SystemExit]). *)
Definition exit_json {S A : Type} (kwargs : dict pyval) : M S A :=
  raise (SystemExit false kwargs).

(** [module.fail_json( **kwargs)] with the message inside [kwargs]. *)
Definition fail_json {S A : Type} (kwargs : dict pyval) : M S A :=
  raise (SystemExit true kwargs).

(** [module.fail_json(msg=msg, **kwargs)]: a [msg] key in [kwargs] is a
    second value for the same keyword argument. *)
Definition fail_json_msg {S A : Type} (msg : string) (kwargs : dict pyval)
  : M S A :=
  if dmem "msg" kwargs
  then raise (TypeError "got multiple values for keyword argument 'msg'")
  else raise (SystemExit true (("msg", PStr msg) :: kwargs)).

(** The [except Exception as e] clause that ends most [run_module]s:
    [result['msg'] = str(e); module.fail_json( **result)]. *)
Definition fail_with_result {W A : Type} (e : exn) : @LM W A :=
  bind (set_result "msg" (PStr (exn_str e)))
       (fun _ => bind get_result (fun result => fail_json result)).

(** The last statement: [module.exit_json( **result)]. *)
Definition exit_with_result {W A : Type} : @LM W A :=
  bind get_result (fun result => exit_json result).

(** What a finished module run reported as [changed]; a run that died
    without output reported nothing. *)
Definition reported_changed {A : Type} (r : Res A) : bool :=
  match r with
  | Raise (SystemExit _ out) =>
      match dget "changed" out with Some (PBool true) => true | _ => false end
  | _ => false
  end.

Definition exited_ok {A : Type} (r : Res A) : bool :=
  match r with Raise (SystemExit false _) => true | _ => false end.

(** [x or y] and the truth value of an optional string argument. *)
Definition truthy_opt (o : option string) : bool :=
  match o with Some s => negb (s =? "") | None => false end.
Definition opt_to_py (o : option string) : pyval :=
  match o with Some s => PStr s | None => PNone end.
Definition or_opt (a b : option string) : option string :=
  if truthy_opt a then a else b.
(** [f"{o}"] *)
Definition fmt_opt (o : option string) : string :=
  match o with Some s => s | None => "None" end.

(* ================================================================== *)
(** * module_utils/swagger/coolify_api.py *)
(* ================================================================== *)

Module swagger_coolify_api.

  (** The [SwaggerClient] held in [self._client], as this file uses it:
      [call_operation(operation_id, params)] answers with a decoded body
      or raises, and may change the remote end. *)
Definition Api (St : Type) : Type :=
    St -> string -> option (dict pyval) -> Res pyval * St.

  Section Facade.
    Context {St : Type} (_client : Api St).

    Open Scope m_scope.

Definition call_operation (operation_id : string)
      (params : option (dict pyval)) : M (World St) pyval :=
      fun w => let (r, s') := _client (remote w) operation_id params in
               (r, {| remote := s';
                      log := log w ++ [Called operation_id params] |}).

Definition _check_response (response : pyval) (operation_name : string)
      : Res pyval :=
      match response with
      | PDict d =>
          if dmem "message" d then
            (message <~ py_get response "message" (PStr "") ;;
             text <~ py_str_self message "lower" ;;
             if contains "error" (lower text)
             then Raise (CoolifyError (operation_name ++ " failed: " ++ text)
                                      (Some response))
             else Ok response)%res
          else Ok response
      | _ => Ok response
      end.

Definition is_SwaggerClientError (e : exn) : bool :=
      match e with SwaggerClientError _ => true | _ => false end.

Definition _call (operation_id : string) (params : option (dict pyval))
      (check_response : bool) : M (World St) pyval :=
      try_except
        (response <- call_operation operation_id params ;;
         if check_response
         then lift (_check_response response operation_id)
         else ret response)
        is_SwaggerClientError
        (fun e => raise (CoolifyError (exn_str e) None)).

    (** *** Servers *)

Definition list_servers : M (World St) pyval :=
      _call "list-servers" None false.

Definition create_server (name ip private_key_uuid port user description
                              is_build_server : pyval) : M (World St) pyval :=
      let params := [("name", name); ("ip", ip);
                     ("private_key_uuid", private_key_uuid);
                     ("port", port); ("user", user)] in
      let params := if truthy description
                    then dset "description" description params else params in
      let params := if truthy is_build_server
                    then dset "is_build_server" is_build_server params
                    else params in
      _call "create-server" (Some params) true.

Definition delete_server (uuid : pyval) : M (World St) pyval :=
      _call "delete-server-by-uuid" (Some [("uuid", uuid)]) true.

    (** *** Projects *)

Definition list_projects : M (World St) pyval :=
      _call "list-projects" None false.

Definition create_project (name description : pyval) : M (World St) pyval :=
      let params := [("name", name)] in
      let params := if truthy description
                    then dset "description" description params else params in
      _call "create-project" (Some params) true.

Definition delete_project (uuid : pyval) : M (World St) pyval :=
      _call "delete-project-by-uuid" (Some [("uuid", uuid)]) true.

    (** *** Keyword calls [f(..., **kwargs)] *)

Definition kw (kwargs : dict pyval) (k : string) (default : pyval) : pyval :=
      match dget k kwargs with Some v => v | None => default end.

Definition unexpected_keyword (allowed : list string) (kwargs : dict pyval)
      : bool :=
      existsb (fun k => negb (existsb (String.eqb k) allowed)) (dkeys kwargs).

    (** [self.create_server(name=name, ip=ip,
                            private_key_uuid=private_key_uuid, **kwargs)] *)
Definition create_server_kwargs (name ip private_key_uuid : pyval)
      (kwargs : dict pyval) : M (World St) pyval :=
      if unexpected_keyword ["port"; "user"; "description"; "is_build_server"]
                            kwargs
      then raise (TypeError "create_server() got an unexpected keyword argument")
      else create_server name ip private_key_uuid
                         (kw kwargs "port" (PInt 22))
                         (kw kwargs "user" (PStr "root"))
                         (kw kwargs "description" PNone)
                         (kw kwargs "is_build_server" (PBool false)).

    (** [self.create_project(name=name, **kwargs)] *)
Definition create_project_kwargs (name : pyval) (kwargs : dict pyval)
      : M (World St) pyval :=
      if unexpected_keyword ["description"] kwargs
      then raise (TypeError "create_project() got an unexpected keyword argument")
      else create_project name (kw kwargs "description" PNone).

    (** *** Helper methods *)

Definition is_CoolifyError (e : exn) : bool :=
      match e with CoolifyError _ _ => true | _ => false end.

    (** The search loop of [ensure_server]: the first server whose [ip]
        or [name] matches, or [None]. *)
Fixpoint first_server (ip name : string) (servers : list pyval)
      : Res pyval :=
      match servers with
      | [] => Ok PNone
      | server :: rest =>
          rbind (py_get server "ip" PNone) (fun sip =>
            if eq_str sip ip then Ok server
            else rbind (py_get server "name" PNone) (fun sname =>
                   if eq_str sname name then Ok server
                   else first_server ip name rest))
      end.

    (** The [try] block of [ensure_server]. *)
Definition ensure_server_body (name ip : string) (private_key_uuid : pyval)
      (state : string) (kwargs : dict pyval) : LM unit :=
      servers <- on_world list_servers ;;
      items <- lift (py_iter servers) ;;
      existing <- lift (first_server ip name items) ;;
      if state =? "present" then
        if truthy existing then
          set_result "msg" (PStr ("Server '" ++ name ++ "' already exists")) ;;;
          set_result "data" existing
        else
          data <- on_world (create_server_kwargs (PStr name) (PStr ip)
                                                 private_key_uuid kwargs) ;;
          set_result "data" data ;;;
          set_result "changed" (PBool true) ;;;
          set_result "msg" (PStr ("Server '" ++ name ++ "' created"))
      else if state =? "absent" then
        if truthy existing then
          uuid <- lift (py_getitem existing "uuid") ;;
          _ <- on_world (delete_server uuid) ;;
          set_result "changed" (PBool true) ;;;
          set_result "msg" (PStr ("Server '" ++ name ++ "' deleted"))
        else
          set_result "msg" (PStr ("Server '" ++ name ++ "' does not exist"))
      else ret tt.

Definition ensure_init : dict pyval :=
      [("changed", PBool false); ("msg", PStr ""); ("data", PNone)].

Definition ensure_server (name ip : string) (private_key_uuid : pyval)
      (state : string) (kwargs : dict pyval) : M (World St) (dict pyval) :=
      with_result ensure_init
        (try_except
           (ensure_server_body name ip private_key_uuid state kwargs)
           is_CoolifyError
           (fun e => set_result "failed" (PBool true) ;;;
                     set_result "msg" (PStr (exn_str e))) ;;;
         get_result).

    (** The search loop of [ensure_project]. *)
Fixpoint first_project (name : string) (projects : list pyval)
      : Res pyval :=
      match projects with
      | [] => Ok PNone
      | project :: rest =>
          rbind (py_get project "name" PNone) (fun pname =>
            if eq_str pname name then Ok project
            else first_project name rest)
      end.

    (** The [try] block of [ensure_project]. *)
Definition ensure_project_body (name : string) (state : string)
      (kwargs : dict pyval) : LM unit :=
      projects <- on_world list_projects ;;
      items <- lift (py_iter projects) ;;
      existing <- lift (first_project name items) ;;
      if state =? "present" then
        if truthy existing then
          set_result "msg" (PStr ("Project '" ++ name ++ "' already exists")) ;;;
          set_result "data" existing
        else
          data <- on_world (create_project_kwargs (PStr name) kwargs) ;;
          set_result "data" data ;;;
          set_result "changed" (PBool true) ;;;
          set_result "msg" (PStr ("Project '" ++ name ++ "' created"))
      else if state =? "absent" then
        if truthy existing then
          uuid <- lift (py_getitem existing "uuid") ;;
          _ <- on_world (delete_project uuid) ;;
          set_result "changed" (PBool true) ;;;
          set_result "msg" (PStr ("Project '" ++ name ++ "' deleted"))
        else
          set_result "msg" (PStr ("Project '" ++ name ++ "' does not exist"))
      else ret tt.

Definition ensure_project (name : string) (state : string)
      (kwargs : dict pyval) : M (World St) (dict pyval) :=
      with_result ensure_init
        (try_except
           (ensure_project_body name state kwargs)
           is_CoolifyError
           (fun e => set_result "failed" (PBool true) ;;;
                     set_result "msg" (PStr (exn_str e))) ;;;
         get_result).

    Close Scope m_scope.
  End Facade.
End swagger_coolify_api.

(* ================================================================== *)
(** * library/coolify_*.py: the client class every wrapper carries *)
(* ================================================================== *)

(** [coolify_server.py], [coolify_project.py], [coolify_private_key.py],
    [coolify_application.py], [coolify_database.py] and
    [coolify_service.py] each define the same [CoolifyClient.__init__]
    and [CoolifyClient._request]; they are embedded once. *)
Module library_client.

Record CoolifyClient : Type := {
    base_url : string;
    api_token : string;
    timeout : Z;
    verify_ssl : bool
  }.

Definition __init__ (base_url api_token : string) (timeout : Z)
    (verify_ssl : bool) : CoolifyClient :=
    {| base_url := rstrip "/" base_url; api_token := api_token;
       timeout := timeout; verify_ssl := verify_ssl |}.

  Section Request.
    Variable rt : PyRuntime.
    Context {St : Type} (nw : Network St).

    Open Scope m_scope.

Definition _request (self : CoolifyClient) (method endpoint : string)
      (data : option (dict pyval)) : M (World St) pyval :=
      let url := base_url self ++ endpoint in
      let headers := [("Authorization", "Bearer " ++ api_token self);
                      ("Accept", "application/json");
                      ("Content-Type", "application/json")] in
      let body := match data with
                  | Some ((_ :: _) as d) => Some (json_dumps rt (PDict d))
                  | _ => None
                  end in
      o <- do_urlopen nw {| req_method := method; req_url := url;
                            req_headers := headers; req_data := body;
                            req_timeout := timeout self;
                            req_verify := verify_ssl self |} ;;
      match o with
      | UrlResponse _ response_body _ =>
          if response_body =? "" then ret (PDict [])
          else match json_loads rt response_body with
               | Some v => ret v
               | None => raise JSONDecodeError
               end
      | UrlHTTPError code fp _ =>
          let error_body := match fp with Some b => b | None => "" end in
          match json_loads rt error_body with
          | Some error_data =>
              message <- lift (py_get error_data "message" (PStr error_body)) ;;
              raise (Exception ("API error (" ++ py_str rt (PInt code) ++ "): "
                                ++ py_str rt message))
          | None =>
              raise (Exception ("API error (" ++ py_str rt (PInt code) ++ "): "
                                ++ error_body))
          end
      | UrlURLError reason => raise (Exception ("Connection error: " ++ reason))
      end.

    (** The loop shared by [find_project], [find_private_key],
        [find_database] and [find_service]:
        [if uuid and x.get('uuid') == uuid: return x] then
        [if name and x.get('name') == name: return x]. *)
Fixpoint find_by_uuid_or_name (name uuid : option string)
      (items : list pyval) : Res pyval :=
      match items with
      | [] => Ok PNone
      | x :: rest =>
          (by_uuid <~ (if truthy_opt uuid
                       then v <~ py_get x "uuid" PNone ;;
                            Ok (eq_str v (fmt_opt uuid))
                       else Ok false) ;;
           if by_uuid : bool then Ok x
           else
             by_name <~ (if truthy_opt name
                         then v <~ py_get x "name" PNone ;;
                              Ok (eq_str v (fmt_opt name))
                         else Ok false) ;;
             if by_name : bool then Ok x
             else find_by_uuid_or_name name uuid rest)%res
      end.

    (** [{k: v for k, v in kwargs.items() if v is not None}] *)
Definition drop_none (kwargs : dict pyval) : dict pyval :=
      filter (fun kv => negb (is_None (snd kv))) kwargs.

    (** The query string of the [delete_*] methods. *)
Definition delete_query (delete_configurations delete_volumes : bool)
      : string :=
      let params := ((if delete_configurations
                      then ["delete_configurations=true"] else []) ++
                     (if delete_volumes then ["delete_volumes=true"] else [])
                    )%list in
      match params with
      | [] => ""
      | _ => "?" ++ join "&" params
      end.

    (** A [for] loop in the monad. *)
Fixpoint mfor {S A : Type} (body : A -> M S unit) (l : list A) : M S unit :=
      match l with
      | [] => ret tt
      | x :: r => body x ;;; mfor body r
      end.

    Close Scope m_scope.
  End Request.
End library_client.

(* ================================================================== *)
(** * library/coolify_project.py *)
(* ================================================================== *)

Module coolify_project.
  Import library_client.

  (** One entry of the [environments] option, with its defaults filled
      in by the argument parser. *)
Record env_spec : Type := {
    env_name : string;
    env_description : option string;
    env_state : string
  }.

  (** [module.params] after argument parsing. *)
Record params : Type := {
    api_url : string;
    p_api_token : string;
    state : string;
    name : string;
    description : option string;
    uuid : option string;
    environments : option (list env_spec);
    p_timeout : Z;
    p_verify_ssl : bool
  }.

Definition result_init : dict pyval :=
    [("changed", PBool false); ("project", PNone); ("uuid", PNone);
     ("environments", PList []); ("environments_changed", PList []);
     ("msg", PStr "")].

  Section Module.
    Variable rt : PyRuntime.
    Context {St : Type} (nw : Network St).

    Open Scope m_scope.

Definition _request := library_client._request rt nw.

Definition list_projects (self : CoolifyClient) : M (World St) pyval :=
      _request self "GET" "/projects" None.

Definition create_project (self : CoolifyClient) (name : string)
      (description : option string) : M (World St) pyval :=
      let data := [("name", PStr name)] in
      let data := if truthy_opt description
                  then dset "description" (opt_to_py description) data
                  else data in
      _request self "POST" "/projects" (Some data).

    (** Called as [update_project(uuid=..., description=...)]: [name]
        keeps its default [None]. Python's [None] result is [PNone]. *)
Definition update_project (self : CoolifyClient) (uuid : pyval)
      (name description : option string) : M (World St) pyval :=
      let data := [] in
      let data := if truthy_opt name
                  then dset "name" (opt_to_py name) data else data in
      let data := match description with
                  | Some d => dset "description" (PStr d) data
                  | None => data
                  end in
      match data with
      | _ :: _ => _request self "PATCH" ("/projects/" ++ py_str rt uuid)
                           (Some data)
      | [] => ret PNone
      end.

Definition delete_project (self : CoolifyClient) (uuid : pyval)
      : M (World St) pyval :=
      _request self "DELETE" ("/projects/" ++ py_str rt uuid) None.

Definition list_environments (self : CoolifyClient) (project_uuid : pyval)
      : M (World St) pyval :=
      _request self "GET"
               ("/projects/" ++ py_str rt project_uuid ++ "/environments") None.

Definition create_environment (self : CoolifyClient) (project_uuid : pyval)
      (name : string) (description : option string) : M (World St) pyval :=
      let data := [("name", PStr name)] in
      let data := if truthy_opt description
                  then dset "description" (opt_to_py description) data
                  else data in
      _request self "POST"
               ("/projects/" ++ py_str rt project_uuid ++ "/environments")
               (Some data).

Definition delete_environment (self : CoolifyClient) (project_uuid : pyval)
      (env_name_or_uuid : string) : M (World St) pyval :=
      _request self "DELETE"
               ("/projects/" ++ py_str rt project_uuid ++ "/environments/"
                ++ env_name_or_uuid) None.

Definition find_project (client : CoolifyClient) (name uuid : option string)
      : M (World St) pyval :=
      projects <- list_projects client ;;
      items <- lift (py_iter projects) ;;
      lift (find_by_uuid_or_name name uuid items).

Fixpoint find_environment_loop (name : string) (environments : list pyval)
      : Res pyval :=
      match environments with
      | [] => Ok PNone
      | env :: rest =>
          rbind (py_get env "name" PNone)
                (fun n => if eq_str n name then Ok env
                          else find_environment_loop name rest)
      end.

Definition find_environment (environments : pyval) (name : string)
      : Res pyval :=
      rbind (py_iter environments) (find_environment_loop name).

Definition needs_update (existing : pyval) (p : params) : Res bool :=
      match description p with
      | Some d =>
          rbind (py_get existing "description" PNone)
                (fun cur => if negb (eq_str cur d) then Ok true else Ok false)
      | None => Ok false
      end.

    (** [result['environments_changed'].append({'name': ..., 'action': ...})] *)
Definition note_environment (env_name action : string)
      : @LM (World St) unit :=
      result <- get_result ;;
      changed <- lift (py_getitem (PDict result) "environments_changed") ;;
      match changed with
      | PList l =>
          set_result "environments_changed"
            (PList (l ++ [PDict [("name", PStr env_name);
                                 ("action", PStr action)]]))
      | _ => raise (AttributeError "object has no attribute 'append'")
      end.

    (** Body of [for env_spec in environments]. *)
Definition manage_environment (client : CoolifyClient)
      (project_uuid current_envs : pyval) (e : env_spec)
      : @LM (World St) unit :=
      let env_name := env_name e in
      let the_state := env_state e in
      let env_description := env_description e in
      existing_env <- lift (find_environment current_envs env_name) ;;
      if the_state =? "present" then
        if negb (truthy existing_env) then
          _ <- on_world (create_environment client project_uuid env_name
                                            env_description) ;;
          note_environment env_name "created" ;;;
          set_result "changed" (PBool true)
        else ret tt
      else if the_state =? "absent" then
        if truthy existing_env then
          _ <- on_world (delete_environment client project_uuid env_name) ;;
          note_environment env_name "deleted" ;;;
          set_result "changed" (PBool true)
        else ret tt
      else ret tt.

    (** The [try] block of [run_module]. *)
Definition run_module_body (p : params) (check_mode : bool)
      : @LM (World St) unit :=
      let state := state p in
      let name := name p in
      let description := description p in
      let uuid := uuid p in
      let environments := match environments p with
                          | Some l => l
                          | None => []
                          end in
      let client := __init__ (api_url p) (p_api_token p) (p_timeout p)
                             (p_verify_ssl p) in
      existing <- on_world (find_project client (Some name) uuid) ;;
      if state =? "present" then
        existing <-
          (if truthy existing then
             set_result "project" existing ;;;
             (u <- lift (py_getitem existing "uuid") ;; set_result "uuid" u) ;;;
             (upd <- lift (needs_update existing p) ;;
              if upd : bool then
                if check_mode then
                  set_result "changed" (PBool true) ;;;
                  set_result "msg" (PStr ("Would update project '" ++ name ++ "'"))
                else
                  u <- lift (py_getitem existing "uuid") ;;
                  updated <- on_world (update_project client u None description) ;;
                  (if truthy updated then set_result "project" updated
                   else ret tt) ;;;
                  set_result "changed" (PBool true) ;;;
                  set_result "msg" (PStr ("Project '" ++ name ++ "' updated"))
              else
                set_result "msg" (PStr ("Project '" ++ name ++ "' already exists"))) ;;;
             ret existing
           else
             if check_mode then
               set_result "changed" (PBool true) ;;;
               set_result "msg" (PStr ("Would create project '" ++ name ++ "'")) ;;;
               ret existing
             else
               project <- on_world (create_project client name description) ;;
               set_result "project" project ;;;
               (u <- lift (py_get project "uuid" PNone) ;; set_result "uuid" u) ;;;
               set_result "changed" (PBool true) ;;;
               set_result "msg" (PStr ("Project '" ++ name ++ "' created")) ;;;
               ret project) ;;
        if (truthy existing &&
            match environments with [] => false | _ => true end &&
            negb check_mode)%bool
        then
          eu <- lift (py_get existing "uuid" PNone) ;;
          result <- get_result ;;
          project_uuid <- (if truthy eu then ret eu
                           else lift (py_getitem (PDict result) "uuid")) ;;
          if truthy project_uuid then
            current_envs <- on_world (list_environments client project_uuid) ;;
            set_result "environments" current_envs ;;;
            mfor (manage_environment client project_uuid current_envs)
                 environments ;;;
            (envs <- on_world (list_environments client project_uuid) ;;
             set_result "environments" envs)
          else ret tt
        else ret tt
      else if state =? "absent" then
        if truthy existing then
          if check_mode then
            set_result "changed" (PBool true) ;;;
            set_result "msg" (PStr ("Would delete project '" ++ name ++ "'"))
          else
            u <- lift (py_getitem existing "uuid") ;;
            _ <- on_world (delete_project client u) ;;
            set_result "changed" (PBool true) ;;;
            set_result "msg" (PStr ("Project '" ++ name ++ "' deleted"))
        else
          set_result "msg" (PStr ("Project '" ++ name ++ "' does not exist"))
      else ret tt.

Definition run_module (p : params) (check_mode : bool)
      : M (World St) unit :=
      with_result result_init
        (try_except (run_module_body p check_mode) is_Exception
                    (fun e => fail_with_result e) ;;;
         exit_with_result).

    Close Scope m_scope.
  End Module.
End coolify_project.

(* ================================================================== *)
(** * library/coolify_server.py *)
(* ================================================================== *)

Module coolify_server.
  Import library_client.

Record params : Type := {
    api_url : string;
    p_api_token : string;
    state : string;
    name : string;
    ip : option string;
    private_key_uuid : option string;
    port : Z;
    user : string;
    description : option string;
    is_build_server : bool;
    uuid : option string;
    p_timeout : Z;
    p_verify_ssl : bool
  }.

Definition result_init : dict pyval :=
    [("changed", PBool false); ("server", PNone); ("uuid", PNone);
     ("validation_result", PNone); ("msg", PStr "")].

  Section Module.
    Variable rt : PyRuntime.
    Context {St : Type} (nw : Network St).

    Open Scope m_scope.

Definition _request := library_client._request rt nw.

Definition list_servers (self : CoolifyClient) : M (World St) pyval :=
      _request self "GET" "/servers" None.

Definition create_server (self : CoolifyClient) (name : string)
      (ip private_key_uuid : option string) (port : Z) (user : string)
      (description : option string) (is_build_server : bool)
      : M (World St) pyval :=
      let data := [("name", PStr name); ("ip", opt_to_py ip);
                   ("private_key_uuid", opt_to_py private_key_uuid);
                   ("port", PInt port); ("user", PStr user)] in
      let data := if truthy_opt description
                  then dset "description" (opt_to_py description) data
                  else data in
      let data := if is_build_server
                  then dset "is_build_server" (PBool is_build_server) data
                  else data in
      _request self "POST" "/servers" (Some data).

Definition delete_server (self : CoolifyClient) (uuid : pyval)
      : M (World St) pyval :=
      _request self "DELETE" ("/servers/" ++ py_str rt uuid) None.

Definition validate_server (self : CoolifyClient) (uuid : pyval)
      : M (World St) pyval :=
      _request self "GET" ("/servers/" ++ py_str rt uuid ++ "/validate") None.

    (** The loop of [find_server]. *)
Fixpoint find_server_loop (name ip uuid : option string)
      (servers : list pyval) : Res pyval :=
      match servers with
      | [] => Ok PNone
      | server :: rest =>
          (by_uuid <~ (if truthy_opt uuid
                       then v <~ py_get server "uuid" PNone ;;
                            Ok (eq_str v (fmt_opt uuid))
                       else Ok false) ;;
           if by_uuid : bool then Ok server
           else
             by_name <~ (if truthy_opt name
                         then v <~ py_get server "name" PNone ;;
                              Ok (eq_str v (fmt_opt name))
                         else Ok false) ;;
             if by_name : bool then Ok server
             else
               by_ip <~ (if truthy_opt ip
                         then v <~ py_get server "ip" PNone ;;
                              Ok (eq_str v (fmt_opt ip))
                         else Ok false) ;;
               if by_ip : bool then Ok server
               else find_server_loop name ip uuid rest)%res
      end.

Definition find_server (client : CoolifyClient) (name ip uuid : option string)
      : M (World St) pyval :=
      servers <- list_servers client ;;
      items <- lift (py_iter servers) ;;
      lift (find_server_loop name ip uuid items).

    (** The [try] block of [run_module]. *)
Definition run_module_body (p : params) (check_mode : bool)
      : @LM (World St) unit :=
      let state := state p in
      let name := name p in
      let client := __init__ (api_url p) (p_api_token p) (p_timeout p)
                             (p_verify_ssl p) in
      existing <- on_world (find_server client (Some name) (ip p) (uuid p)) ;;
      if state =? "present" then
        if truthy existing then
          set_result "server" existing ;;;
          (u <- lift (py_getitem existing "uuid") ;; set_result "uuid" u) ;;;
          set_result "msg" (PStr ("Server '" ++ name ++ "' already exists"))
        else
          if check_mode then
            set_result "changed" (PBool true) ;;;
            set_result "msg" (PStr ("Would create server '" ++ name ++ "'"))
          else
            server <- on_world (create_server client name (ip p)
                                  (private_key_uuid p) (port p) (user p)
                                  (description p) (is_build_server p)) ;;
            set_result "server" server ;;;
            (u <- lift (py_get server "uuid" PNone) ;; set_result "uuid" u) ;;;
            set_result "changed" (PBool true) ;;;
            set_result "msg" (PStr ("Server '" ++ name ++ "' created"))
      else if state =? "absent" then
        if truthy existing then
          if check_mode then
            set_result "changed" (PBool true) ;;;
            set_result "msg" (PStr ("Would delete server '" ++ name ++ "'"))
          else
            u <- lift (py_getitem existing "uuid") ;;
            _ <- on_world (delete_server client u) ;;
            set_result "changed" (PBool true) ;;;
            set_result "msg" (PStr ("Server '" ++ name ++ "' deleted"))
        else
          set_result "msg" (PStr ("Server '" ++ name ++ "' does not exist"))
      else if state =? "validated" then
        (if negb (truthy existing)
         then fail_json_msg ("Server '" ++ name ++
                             "' not found. Create it first with state=present") []
         else ret tt) ;;;
        set_result "server" existing ;;;
        (u <- lift (py_getitem existing "uuid") ;; set_result "uuid" u) ;;;
        if check_mode then
          set_result "changed" (PBool true) ;;;
          set_result "msg" (PStr ("Would validate server '" ++ name ++ "'"))
        else
          u <- lift (py_getitem existing "uuid") ;;
          validation <- on_world (validate_server client u) ;;
          set_result "validation_result" validation ;;;
          set_result "changed" (PBool true) ;;;
          set_result "msg" (PStr ("Validation started for server '" ++ name ++ "'"))
      else ret tt.

Definition run_module (p : params) (check_mode : bool)
      : M (World St) unit :=
      with_result result_init
        (try_except (run_module_body p check_mode) is_Exception
                    (fun e => fail_with_result e) ;;;
         exit_with_result).

    Close Scope m_scope.
  End Module.
End coolify_server.

(* ================================================================== *)
(** * library/coolify_private_key.py *)
(* ================================================================== *)

Module coolify_private_key.
  Import library_client.

Record params : Type := {
    api_url : string;
    p_api_token : string;
    state : string;
    name : string;
    description : option string;
    private_key : option string;
    private_key_file : option string;
    uuid : option string;
    p_timeout : Z;
    p_verify_ssl : bool
  }.

Definition result_init : dict pyval :=
    [("changed", PBool false); ("private_key", PNone); ("uuid", PNone);
     ("msg", PStr "")].

  Section Module.
    Variable rt : PyRuntime.
    Context {St : Type} (nw : Network St).
    (** [open(os.path.expanduser(path), 'r').read()]: the file's text, or
        the text of the [IOError]. *)
    Variable read_file : string -> string + string.

    Open Scope m_scope.

Definition _request := library_client._request rt nw.

Definition list_private_keys (self : CoolifyClient) : M (World St) pyval :=
      _request self "GET" "/security/keys" None.

Definition create_private_key (self : CoolifyClient) (name : string)
      (private_key description : option string) : M (World St) pyval :=
      let data := [("name", PStr name);
                   ("private_key", opt_to_py private_key)] in
      let data := if truthy_opt description
                  then dset "description" (opt_to_py description) data
                  else data in
      _request self "POST" "/security/keys" (Some data).

    (** Called as [update_private_key(uuid=..., description=...)]. *)
Definition update_private_key (self : CoolifyClient) (uuid : pyval)
      (name description : option string) : M (World St) pyval :=
      let data := [] in
      let data := if truthy_opt name
                  then dset "name" (opt_to_py name) data else data in
      let data := if truthy_opt description
                  then dset "description" (opt_to_py description) data
                  else data in
      match data with
      | _ :: _ => _request self "PATCH" ("/security/keys/" ++ py_str rt uuid)
                           (Some data)
      | [] => ret PNone
      end.

Definition delete_private_key (self : CoolifyClient) (uuid : pyval)
      : M (World St) pyval :=
      _request self "DELETE" ("/security/keys/" ++ py_str rt uuid) None.

Definition find_private_key (client : CoolifyClient)
      (name uuid : option string) : M (World St) pyval :=
      keys <- list_private_keys client ;;
      items <- lift (py_iter keys) ;;
      lift (find_by_uuid_or_name name uuid items).

Definition needs_update (existing : pyval) (p : params) : Res bool :=
      match description p with
      | Some d =>
          rbind (py_get existing "description" PNone)
                (fun cur => if negb (eq_str cur d) then Ok true else Ok false)
      | None => Ok false
      end.

    (** The [try] block of [run_module]; [private_key] is the key text
        after the optional file has been read. *)
Definition run_module_body (p : params) (private_key : option string)
      (check_mode : bool) : @LM (World St) unit :=
      let state := state p in
      let name := name p in
      let description := description p in
      let client := __init__ (api_url p) (p_api_token p) (p_timeout p)
                             (p_verify_ssl p) in
      existing <- on_world (find_private_key client (Some name) (uuid p)) ;;
      if state =? "present" then
        if truthy existing then
          set_result "private_key" existing ;;;
          (u <- lift (py_getitem existing "uuid") ;; set_result "uuid" u) ;;;
          (upd <- lift (needs_update existing p) ;;
           if upd : bool then
             if check_mode then
               set_result "changed" (PBool true) ;;;
               set_result "msg" (PStr ("Would update private key '" ++ name ++ "'"))
             else
               u <- lift (py_getitem existing "uuid") ;;
               updated <- on_world (update_private_key client u None description) ;;
               (if truthy updated then set_result "private_key" updated
                else ret tt) ;;;
               set_result "changed" (PBool true) ;;;
               set_result "msg" (PStr ("Private key '" ++ name ++ "' updated"))
           else
             set_result "msg"
               (PStr ("Private key '" ++ name ++ "' already exists (no changes)")))
        else
          (if negb (truthy_opt private_key)
           then fail_json_msg
                  "private_key or private_key_file is required when creating a new key"
                  []
           else ret tt) ;;;
          if check_mode then
            set_result "changed" (PBool true) ;;;
            set_result "msg" (PStr ("Would create private key '" ++ name ++ "'"))
          else
            key <- on_world (create_private_key client name private_key
                                                description) ;;
            set_result "private_key" key ;;;
            (u <- lift (py_get key "uuid" PNone) ;; set_result "uuid" u) ;;;
            set_result "changed" (PBool true) ;;;
            set_result "msg" (PStr ("Private key '" ++ name ++ "' created"))
      else if state =? "absent" then
        if truthy existing then
          if check_mode then
            set_result "changed" (PBool true) ;;;
            set_result "msg" (PStr ("Would delete private key '" ++ name ++ "'"))
          else
            u <- lift (py_getitem existing "uuid") ;;
            _ <- on_world (delete_private_key client u) ;;
            set_result "changed" (PBool true) ;;;
            set_result "msg" (PStr ("Private key '" ++ name ++ "' deleted"))
        else
          set_result "msg" (PStr ("Private key '" ++ name ++ "' does not exist"))
      else ret tt.

Definition run_module (p : params) (check_mode : bool)
      : M (World St) unit :=
      with_result result_init
        (private_key <-
           (if truthy_opt (private_key_file p) then
              match read_file (fmt_opt (private_key_file p)) with
              | inl text => ret (Some text)
              | inr e => fail_json_msg ("Failed to read private key file: " ++ e) []
              end
            else ret (private_key p)) ;;
         try_except (run_module_body p private_key check_mode) is_Exception
                    (fun e => fail_with_result e) ;;;
         exit_with_result).

    Close Scope m_scope.
  End Module.
End coolify_private_key.

(* ================================================================== *)
(** * library/coolify_application.py *)
(* ================================================================== *)

Module coolify_application.
  Import library_client.

Record params : Type := {
    api_url : string;
    p_api_token : string;
    state : string;
    uuid : option string;
    name : option string;
    application_type : option string;
    project_uuid : option string;
    server_uuid : option string;
    environment_name : option string;
    environment_uuid : option string;
    description : option string;
    git_repository : option string;
    git_branch : option string;
    build_pack : option string;
    ports_exposes : option string;
    domains : option string;
    dockerfile : option string;
    docker_registry_image_name : option string;
    docker_registry_image_tag : option string;
    docker_compose_raw : option string;
    instant_deploy : bool;
    delete_configurations : bool;
    delete_volumes : bool;
    p_timeout : Z;
    p_verify_ssl : bool
  }.

Definition result_init : dict pyval :=
    [("changed", PBool false); ("application", PNone); ("uuid", PNone);
     ("deployment_uuid", PNone); ("msg", PStr "")].

Definition type_endpoints : dict string :=
    [("public", "/applications/public");
     ("private-github-app", "/applications/private-github-app");
     ("private-deploy-key", "/applications/private-deploy-key");
     ("dockerfile", "/applications/dockerfile");
     ("dockerimage", "/applications/dockerimage");
     ("dockercompose", "/applications/dockercompose")].

  Section Module.
    Variable rt : PyRuntime.
    Context {St : Type} (nw : Network St).

    Open Scope m_scope.

Definition _request := library_client._request rt nw.

Definition list_applications (self : CoolifyClient) : M (World St) pyval :=
      _request self "GET" "/applications" None.

Definition create_application (self : CoolifyClient) (app_type : string)
      (kwargs : dict pyval) : M (World St) pyval :=
      match dget app_type type_endpoints with
      | Some endpoint =>
          let data := drop_none kwargs in
          _request self "POST" endpoint (Some data)
      | None => raise (Exception ("Unknown application type: " ++ app_type))
      end.

Definition delete_application (self : CoolifyClient) (uuid : pyval)
      (delete_configurations delete_volumes : bool) : M (World St) pyval :=
      _request self "DELETE"
               ("/applications/" ++ py_str rt uuid ++
                delete_query delete_configurations delete_volumes) None.

Definition start_application (self : CoolifyClient) (uuid : pyval)
      : M (World St) pyval :=
      _request self "POST" ("/applications/" ++ py_str rt uuid ++ "/start") None.

Definition stop_application (self : CoolifyClient) (uuid : pyval)
      : M (World St) pyval :=
      _request self "POST" ("/applications/" ++ py_str rt uuid ++ "/stop") None.

Definition restart_application (self : CoolifyClient) (uuid : pyval)
      : M (World St) pyval :=
      _request self "POST" ("/applications/" ++ py_str rt uuid ++ "/restart") None.

Definition deploy_application (self : CoolifyClient) (uuid : pyval)
      : M (World St) pyval :=
      _request self "POST" ("/deploy?uuid=" ++ py_str rt uuid) None.

    (** The loop of [find_application]; a [continue] moves on to the
        next application. *)
Fixpoint find_application_loop (name uuid project_uuid environment_name
                                    : option string) (apps : list pyval)
      : Res pyval :=
      match apps with
      | [] => Ok PNone
      | app :: rest =>
          (by_uuid <~ (if truthy_opt uuid
                       then v <~ py_get app "uuid" PNone ;;
                            Ok (eq_str v (fmt_opt uuid))
                       else Ok false) ;;
           if by_uuid : bool then Ok app
           else
             by_name <~ (if truthy_opt name
                         then v <~ py_get app "name" PNone ;;
                              Ok (eq_str v (fmt_opt name))
                         else Ok false) ;;
             if by_name : bool then
               other_project <~
                 (if truthy_opt project_uuid
                  then v <~ py_get app "project_uuid" PNone ;;
                       Ok (negb (eq_str v (fmt_opt project_uuid)))
                  else Ok false) ;;
               if other_project : bool
               then find_application_loop name uuid project_uuid
                                          environment_name rest
               else
                 other_env <~
                   (if truthy_opt environment_name
                    then env <~ py_get app "environment" (PDict []) ;;
                         v <~ py_get env "name" PNone ;;
                         Ok (negb (eq_str v (fmt_opt environment_name)))
                    else Ok false) ;;
                 if other_env : bool
                 then find_application_loop name uuid project_uuid
                                            environment_name rest
                 else Ok app
             else find_application_loop name uuid project_uuid
                                        environment_name rest)%res
      end.

Definition find_application (client : CoolifyClient)
      (name uuid project_uuid environment_name : option string)
      : M (World St) pyval :=
      applications <- list_applications client ;;
      items <- lift (py_iter applications) ;;
      lift (find_application_loop name uuid project_uuid environment_name items).

Definition create_params (p : params) : dict pyval :=
      [("name", opt_to_py (name p));
       ("description", opt_to_py (description p));
       ("project_uuid", opt_to_py (project_uuid p));
       ("server_uuid", opt_to_py (server_uuid p));
       ("environment_name", opt_to_py (environment_name p));
       ("environment_uuid", opt_to_py (environment_uuid p));
       ("git_repository", opt_to_py (git_repository p));
       ("git_branch", opt_to_py (git_branch p));
       ("build_pack", opt_to_py (build_pack p));
       ("ports_exposes", opt_to_py (ports_exposes p));
       ("domains", opt_to_py (domains p));
       ("dockerfile", opt_to_py (dockerfile p));
       ("docker_registry_image_name", opt_to_py (docker_registry_image_name p));
       ("docker_registry_image_tag", opt_to_py (docker_registry_image_tag p));
       ("docker_compose_raw", opt_to_py (docker_compose_raw p));
       ("instant_deploy", PBool (instant_deploy p))].

    (** [if not existing: module.fail_json(msg=...)] of the verb states. *)
Definition require_existing (existing : pyval) (who : string)
      : @LM (World St) unit :=
      if negb (truthy existing)
      then fail_json_msg ("Application '" ++ who ++ "' not found") []
      else ret tt.

    (** The [try] block of [run_module]. *)
Definition run_module_body (p : params) (check_mode : bool)
      : @LM (World St) unit :=
      let state := state p in
      let uuid := uuid p in
      let name := name p in
      let app_type := application_type p in
      let who := fmt_opt (or_opt name uuid) in
      let client := __init__ (api_url p) (p_api_token p) (p_timeout p)
                             (p_verify_ssl p) in
      existing <- on_world (find_application client name uuid (project_uuid p)
                                             (environment_name p)) ;;
      if state =? "present" then
        if truthy existing then
          set_result "application" existing ;;;
          (u <- lift (py_getitem existing "uuid") ;; set_result "uuid" u) ;;;
          set_result "msg" (PStr ("Application '" ++ who ++ "' already exists"))
        else
          (if negb (truthy_opt app_type)
           then fail_json_msg
                  "application_type is required when creating a new application" []
           else ret tt) ;;;
          (if negb (truthy_opt (project_uuid p))
           then fail_json_msg
                  "project_uuid is required when creating a new application" []
           else ret tt) ;;;
          (if negb (truthy_opt (server_uuid p))
           then fail_json_msg
                  "server_uuid is required when creating a new application" []
           else ret tt) ;;;
          if check_mode then
            set_result "changed" (PBool true) ;;;
            set_result "msg"
              (PStr ("Would create application '" ++ fmt_opt name ++ "'"))
          else
            app <- on_world (create_application client (fmt_opt app_type)
                                                (create_params p)) ;;
            set_result "application" app ;;;
            (u <- lift (py_get app "uuid" PNone) ;; set_result "uuid" u) ;;;
            set_result "changed" (PBool true) ;;;
            set_result "msg"
              (PStr ("Application '" ++ fmt_opt name ++ "' created"))
      else if state =? "absent" then
        if truthy existing then
          if check_mode then
            set_result "changed" (PBool true) ;;;
            set_result "msg" (PStr ("Would delete application '" ++ who ++ "'"))
          else
            u <- lift (py_getitem existing "uuid") ;;
            _ <- on_world (delete_application client u
                             (delete_configurations p) (delete_volumes p)) ;;
            set_result "changed" (PBool true) ;;;
            set_result "msg" (PStr ("Application '" ++ who ++ "' deleted"))
        else
          set_result "msg" (PStr ("Application '" ++ who ++ "' does not exist"))
      else if state =? "started" then
        require_existing existing who ;;;
        if check_mode then
          set_result "changed" (PBool true) ;;;
          set_result "msg" (PStr ("Would start application '" ++ who ++ "'"))
        else
          u <- lift (py_getitem existing "uuid") ;;
          _ <- on_world (start_application client u) ;;
          set_result "application" existing ;;;
          (u <- lift (py_getitem existing "uuid") ;; set_result "uuid" u) ;;;
          set_result "changed" (PBool true) ;;;
          set_result "msg" (PStr ("Application '" ++ who ++ "' started"))
      else if state =? "stopped" then
        require_existing existing who ;;;
        if check_mode then
          set_result "changed" (PBool true) ;;;
          set_result "msg" (PStr ("Would stop application '" ++ who ++ "'"))
        else
          u <- lift (py_getitem existing "uuid") ;;
          _ <- on_world (stop_application client u) ;;
          set_result "application" existing ;;;
          (u <- lift (py_getitem existing "uuid") ;; set_result "uuid" u) ;;;
          set_result "changed" (PBool true) ;;;
          set_result "msg" (PStr ("Application '" ++ who ++ "' stopped"))
      else if state =? "restarted" then
        require_existing existing who ;;;
        if check_mode then
          set_result "changed" (PBool true) ;;;
          set_result "msg" (PStr ("Would restart application '" ++ who ++ "'"))
        else
          u <- lift (py_getitem existing "uuid") ;;
          _ <- on_world (restart_application client u) ;;
          set_result "application" existing ;;;
          (u <- lift (py_getitem existing "uuid") ;; set_result "uuid" u) ;;;
          set_result "changed" (PBool true) ;;;
          set_result "msg" (PStr ("Application '" ++ who ++ "' restarted"))
      else if state =? "deployed" then
        require_existing existing who ;;;
        if check_mode then
          set_result "changed" (PBool true) ;;;
          set_result "msg" (PStr ("Would deploy application '" ++ who ++ "'"))
        else
          u <- lift (py_getitem existing "uuid") ;;
          deploy_result <- on_world (deploy_application client u) ;;
          set_result "application" existing ;;;
          (u <- lift (py_getitem existing "uuid") ;; set_result "uuid" u) ;;;
          (d <- lift (py_get deploy_result "deployment_uuid" PNone) ;;
           set_result "deployment_uuid" d) ;;;
          set_result "changed" (PBool true) ;;;
          set_result "msg"
            (PStr ("Application '" ++ who ++ "' deployment triggered"))
      else ret tt.

    (** This wrapper's [except] clause is
        [module.fail_json(msg=str(e), **result)]. *)
Definition run_module (p : params) (check_mode : bool)
      : M (World St) unit :=
      with_result result_init
        (try_except (run_module_body p check_mode) is_Exception
                    (fun e => result <- get_result ;;
                              fail_json_msg (exn_str e) result) ;;;
         exit_with_result).

    Close Scope m_scope.
  End Module.
End coolify_application.

(* ================================================================== *)
(** * library/coolify_database.py *)
(* ================================================================== *)

Module coolify_database.
  Import library_client.

Record params : Type := {
    api_url : string;
    p_api_token : string;
    state : string;
    uuid : option string;
    name : option string;
    database_type : option string;
    project_uuid : option string;
    server_uuid : option string;
    environment_name : option string;
    environment_uuid : option string;
    description : option string;
    image : option string;
    is_public : bool;
    public_port : option Z;
    postgres_user : option string;
    postgres_password : option string;
    postgres_db : option string;
    mysql_root_password : option string;
    mysql_user : option string;
    mysql_password : option string;
    mysql_database : option string;
    redis_password : option string;
    mongo_initdb_root_username : option string;
    mongo_initdb_root_password : option string;
    limits_memory : option string;
    limits_cpus : option string;
    delete_configurations : bool;
    delete_volumes : bool;
    p_timeout : Z;
    p_verify_ssl : bool
  }.

Definition result_init : dict pyval :=
    [("changed", PBool false); ("database", PNone); ("uuid", PNone);
     ("msg", PStr "")].

Definition type_endpoints : dict string :=
    [("postgresql", "/databases/postgresql");
     ("mysql", "/databases/mysql");
     ("mariadb", "/databases/mariadb");
     ("mongodb", "/databases/mongodb");
     ("redis", "/databases/redis");
     ("keydb", "/databases/keydb");
     ("dragonfly", "/databases/dragonfly");
     ("clickhouse", "/databases/clickhouse")].

  (** [d.update(other)] *)
Definition dict_update (d other : dict pyval) : dict pyval :=
    fold_left (fun acc kv => dset (fst kv) (snd kv) acc) other d.

  Section Module.
    Variable rt : PyRuntime.
    Context {St : Type} (nw : Network St).

    Open Scope m_scope.

Definition _request := library_client._request rt nw.

Definition list_databases (self : CoolifyClient) : M (World St) pyval :=
      _request self "GET" "/databases" None.

Definition create_database (self : CoolifyClient) (db_type : string)
      (kwargs : dict pyval) : M (World St) pyval :=
      match dget db_type type_endpoints with
      | Some endpoint =>
          let data := drop_none kwargs in
          _request self "POST" endpoint (Some data)
      | None => raise (Exception ("Unknown database type: " ++ db_type))
      end.

Definition delete_database (self : CoolifyClient) (uuid : pyval)
      (delete_configurations delete_volumes : bool) : M (World St) pyval :=
      _request self "DELETE"
               ("/databases/" ++ py_str rt uuid ++
                delete_query delete_configurations delete_volumes) None.

Definition start_database (self : CoolifyClient) (uuid : pyval)
      : M (World St) pyval :=
      _request self "POST" ("/databases/" ++ py_str rt uuid ++ "/start") None.

Definition stop_database (self : CoolifyClient) (uuid : pyval)
      : M (World St) pyval :=
      _request self "POST" ("/databases/" ++ py_str rt uuid ++ "/stop") None.

Definition restart_database (self : CoolifyClient) (uuid : pyval)
      : M (World St) pyval :=
      _request self "POST" ("/databases/" ++ py_str rt uuid ++ "/restart") None.

Definition find_database (client : CoolifyClient)
      (name uuid : option string) : M (World St) pyval :=
      databases <- list_databases client ;;
      items <- lift (py_iter databases) ;;
      lift (find_by_uuid_or_name name uuid items).

Definition create_params (p : params) (db_type : string) : dict pyval :=
      let create_params :=
        [("name", opt_to_py (name p));
         ("description", opt_to_py (description p));
         ("project_uuid", opt_to_py (project_uuid p));
         ("server_uuid", opt_to_py (server_uuid p));
         ("environment_name", opt_to_py (environment_name p));
         ("environment_uuid", opt_to_py (environment_uuid p));
         ("image", opt_to_py (image p));
         ("is_public", PBool (is_public p));
         ("public_port", match public_port p with
                         | Some n => PInt n
                         | None => PNone
                         end);
         ("limits_memory", opt_to_py (limits_memory p));
         ("limits_cpus", opt_to_py (limits_cpus p))] in
      if db_type =? "postgresql" then
        dict_update create_params
          [("postgres_user", opt_to_py (postgres_user p));
           ("postgres_password", opt_to_py (postgres_password p));
           ("postgres_db", opt_to_py (postgres_db p))]
      else if ((db_type =? "mysql") || (db_type =? "mariadb"))%bool then
        dict_update create_params
          [("mysql_root_password", opt_to_py (mysql_root_password p));
           ("mysql_user", opt_to_py (mysql_user p));
           ("mysql_password", opt_to_py (mysql_password p));
           ("mysql_database", opt_to_py (mysql_database p))]
      else if db_type =? "redis" then
        dict_update create_params
          [("redis_password", opt_to_py (redis_password p))]
      else if db_type =? "mongodb" then
        dict_update create_params
          [("mongo_initdb_root_username",
            opt_to_py (mongo_initdb_root_username p));
           ("mongo_initdb_root_password",
            opt_to_py (mongo_initdb_root_password p))]
      else create_params.

Definition require_existing (existing : pyval) (who : string)
      : @LM (World St) unit :=
      if negb (truthy existing)
      then fail_json_msg ("Database '" ++ who ++ "' not found") []
      else ret tt.

    (** The [try] block of [run_module]. *)
Definition run_module_body (p : params) (check_mode : bool)
      : @LM (World St) unit :=
      let state := state p in
      let uuid := uuid p in
      let name := name p in
      let db_type := database_type p in
      let who := fmt_opt (or_opt name uuid) in
      let client := __init__ (api_url p) (p_api_token p) (p_timeout p)
                             (p_verify_ssl p) in
      existing <- on_world (find_database client name uuid) ;;
      if state =? "present" then
        if truthy existing then
          set_result "database" existing ;;;
          (u <- lift (py_getitem existing "uuid") ;; set_result "uuid" u) ;;;
          set_result "msg" (PStr ("Database '" ++ who ++ "' already exists"))
        else
          (if negb (truthy_opt db_type)
           then fail_json_msg
                  "database_type is required when creating a new database" []
           else ret tt) ;;;
          (if negb (truthy_opt (project_uuid p))
           then fail_json_msg
                  "project_uuid is required when creating a new database" []
           else ret tt) ;;;
          (if negb (truthy_opt (server_uuid p))
           then fail_json_msg
                  "server_uuid is required when creating a new database" []
           else ret tt) ;;;
          if check_mode then
            set_result "changed" (PBool true) ;;;
            set_result "msg"
              (PStr ("Would create database '" ++ fmt_opt name ++ "'"))
          else
            db <- on_world (create_database client (fmt_opt db_type)
                              (create_params p (fmt_opt db_type))) ;;
            set_result "database" db ;;;
            (u <- lift (py_get db "uuid" PNone) ;; set_result "uuid" u) ;;;
            set_result "changed" (PBool true) ;;;
            set_result "msg" (PStr ("Database '" ++ fmt_opt name ++ "' created"))
      else if state =? "absent" then
        if truthy existing then
          if check_mode then
            set_result "changed" (PBool true) ;;;
            set_result "msg" (PStr ("Would delete database '" ++ who ++ "'"))
          else
            u <- lift (py_getitem existing "uuid") ;;
            _ <- on_world (delete_database client u
                             (delete_configurations p) (delete_volumes p)) ;;
            set_result "changed" (PBool true) ;;;
            set_result "msg" (PStr ("Database '" ++ who ++ "' deleted"))
        else
          set_result "msg" (PStr ("Database '" ++ who ++ "' does not exist"))
      else if state =? "started" then
        require_existing existing who ;;;
        if check_mode then
          set_result "changed" (PBool true) ;;;
          set_result "msg" (PStr ("Would start database '" ++ who ++ "'"))
        else
          u <- lift (py_getitem existing "uuid") ;;
          _ <- on_world (start_database client u) ;;
          set_result "database" existing ;;;
          (u <- lift (py_getitem existing "uuid") ;; set_result "uuid" u) ;;;
          set_result "changed" (PBool true) ;;;
          set_result "msg" (PStr ("Database '" ++ who ++ "' started"))
      else if state =? "stopped" then
        require_existing existing who ;;;
        if check_mode then
          set_result "changed" (PBool true) ;;;
          set_result "msg" (PStr ("Would stop database '" ++ who ++ "'"))
        else
          u <- lift (py_getitem existing "uuid") ;;
          _ <- on_world (stop_database client u) ;;
          set_result "database" existing ;;;
          (u <- lift (py_getitem existing "uuid") ;; set_result "uuid" u) ;;;
          set_result "changed" (PBool true) ;;;
          set_result "msg" (PStr ("Database '" ++ who ++ "' stopped"))
      else if state =? "restarted" then
        require_existing existing who ;;;
        if check_mode then
          set_result "changed" (PBool true) ;;;
          set_result "msg" (PStr ("Would restart database '" ++ who ++ "'"))
        else
          u <- lift (py_getitem existing "uuid") ;;
          _ <- on_world (restart_database client u) ;;
          set_result "database" existing ;;;
          (u <- lift (py_getitem existing "uuid") ;; set_result "uuid" u) ;;;
          set_result "changed" (PBool true) ;;;
          set_result "msg" (PStr ("Database '" ++ who ++ "' restarted"))
      else ret tt.

Definition run_module (p : params) (check_mode : bool)
      : M (World St) unit :=
      with_result result_init
        (try_except (run_module_body p check_mode) is_Exception
                    (fun e => fail_with_result e) ;;;
         exit_with_result).

    Close Scope m_scope.
  End Module.
End coolify_database.

(* ================================================================== *)
(** * library/coolify_service.py *)
(* ================================================================== *)

Module coolify_service.
  Import library_client.

Record params : Type := {
    api_url : string;
    p_api_token : string;
    state : string;
    uuid : option string;
    name : option string;
    service_type : option string;
    project_uuid : option string;
    server_uuid : option string;
    environment_name : option string;
    environment_uuid : option string;
    description : option string;
    docker_compose_raw : option string;
    instant_deploy : bool;
    connect_to_docker_network : bool;
    delete_configurations : bool;
    delete_volumes : bool;
    p_timeout : Z;
    p_verify_ssl : bool
  }.

Definition result_init : dict pyval :=
    [("changed", PBool false); ("service", PNone); ("uuid", PNone);
     ("msg", PStr "")].

  Section Module.
    Variable rt : PyRuntime.
    Context {St : Type} (nw : Network St).

    Open Scope m_scope.

Definition _request := library_client._request rt nw.

Definition list_services (self : CoolifyClient) : M (World St) pyval :=
      _request self "GET" "/services" None.

Definition create_service (self : CoolifyClient) (kwargs : dict pyval)
      : M (World St) pyval :=
      let data := drop_none kwargs in
      _request self "POST" "/services" (Some data).

Definition delete_service (self : CoolifyClient) (uuid : pyval)
      (delete_configurations delete_volumes : bool) : M (World St) pyval :=
      _request self "DELETE"
               ("/services/" ++ py_str rt uuid ++
                delete_query delete_configurations delete_volumes) None.

Definition start_service (self : CoolifyClient) (uuid : pyval)
      : M (World St) pyval :=
      _request self "POST" ("/services/" ++ py_str rt uuid ++ "/start") None.

Definition stop_service (self : CoolifyClient) (uuid : pyval)
      : M (World St) pyval :=
      _request self "POST" ("/services/" ++ py_str rt uuid ++ "/stop") None.

Definition restart_service (self : CoolifyClient) (uuid : pyval)
      : M (World St) pyval :=
      _request self "POST" ("/services/" ++ py_str rt uuid ++ "/restart") None.

Definition find_service (client : CoolifyClient)
      (name uuid : option string) : M (World St) pyval :=
      services <- list_services client ;;
      items <- lift (py_iter services) ;;
      lift (find_by_uuid_or_name name uuid items).

Definition create_params (p : params) : dict pyval :=
      let create_params :=
        [("name", opt_to_py (name p));
         ("description", opt_to_py (description p));
         ("project_uuid", opt_to_py (project_uuid p));
         ("server_uuid", opt_to_py (server_uuid p));
         ("environment_name", opt_to_py (environment_name p));
         ("environment_uuid", opt_to_py (environment_uuid p));
         ("instant_deploy", PBool (instant_deploy p));
         ("connect_to_docker_network", PBool (connect_to_docker_network p))] in
      let create_params :=
        if truthy_opt (service_type p)
        then dset "type" (opt_to_py (service_type p)) create_params
        else create_params in
      let create_params :=
        if truthy_opt (docker_compose_raw p)
        then dset "docker_compose_raw" (opt_to_py (docker_compose_raw p))
                  create_params
        else create_params in
      create_params.

Definition require_existing (existing : pyval) (who : string)
      : @LM (World St) unit :=
      if negb (truthy existing)
      then fail_json_msg ("Service '" ++ who ++ "' not found") []
      else ret tt.

    (** The [try] block of [run_module]. *)
Definition run_module_body (p : params) (check_mode : bool)
      : @LM (World St) unit :=
      let state := state p in
      let uuid := uuid p in
      let name := name p in
      let who := fmt_opt (or_opt name uuid) in
      let client := __init__ (api_url p) (p_api_token p) (p_timeout p)
                             (p_verify_ssl p) in
      existing <- on_world (find_service client name uuid) ;;
      if state =? "present" then
        if truthy existing then
          set_result "service" existing ;;;
          (u <- lift (py_getitem existing "uuid") ;; set_result "uuid" u) ;;;
          set_result "msg" (PStr ("Service '" ++ who ++ "' already exists"))
        else
          (if negb (truthy_opt (project_uuid p))
           then fail_json_msg
                  "project_uuid is required when creating a new service" []
           else ret tt) ;;;
          (if negb (truthy_opt (server_uuid p))
           then fail_json_msg
                  "server_uuid is required when creating a new service" []
           else ret tt) ;;;
          (if negb (truthy_opt name)
           then fail_json_msg "name is required when creating a new service" []
           else ret tt) ;;;
          if check_mode then
            set_result "changed" (PBool true) ;;;
            set_result "msg"
              (PStr ("Would create service '" ++ fmt_opt name ++ "'"))
          else
            svc <- on_world (create_service client (create_params p)) ;;
            set_result "service" svc ;;;
            (u <- lift (py_get svc "uuid" PNone) ;; set_result "uuid" u) ;;;
            set_result "changed" (PBool true) ;;;
            set_result "msg" (PStr ("Service '" ++ fmt_opt name ++ "' created"))
      else if state =? "absent" then
        if truthy existing then
          if check_mode then
            set_result "changed" (PBool true) ;;;
            set_result "msg" (PStr ("Would delete service '" ++ who ++ "'"))
          else
            u <- lift (py_getitem existing "uuid") ;;
            _ <- on_world (delete_service client u
                             (delete_configurations p) (delete_volumes p)) ;;
            set_result "changed" (PBool true) ;;;
            set_result "msg" (PStr ("Service '" ++ who ++ "' deleted"))
        else
          set_result "msg" (PStr ("Service '" ++ who ++ "' does not exist"))
      else if state =? "started" then
        require_existing existing who ;;;
        if check_mode then
          set_result "changed" (PBool true) ;;;
          set_result "msg" (PStr ("Would start service '" ++ who ++ "'"))
        else
          u <- lift (py_getitem existing "uuid") ;;
          _ <- on_world (start_service client u) ;;
          set_result "service" existing ;;;
          (u <- lift (py_getitem existing "uuid") ;; set_result "uuid" u) ;;;
          set_result "changed" (PBool true) ;;;
          set_result "msg" (PStr ("Service '" ++ who ++ "' started"))
      else if state =? "stopped" then
        require_existing existing who ;;;
        if check_mode then
          set_result "changed" (PBool true) ;;;
          set_result "msg" (PStr ("Would stop service '" ++ who ++ "'"))
        else
          u <- lift (py_getitem existing "uuid") ;;
          _ <- on_world (stop_service client u) ;;
          set_result "service" existing ;;;
          (u <- lift (py_getitem existing "uuid") ;; set_result "uuid" u) ;;;
          set_result "changed" (PBool true) ;;;
          set_result "msg" (PStr ("Service '" ++ who ++ "' stopped"))
      else if state =? "restarted" then
        require_existing existing who ;;;
        if check_mode then
          set_result "changed" (PBool true) ;;;
          set_result "msg" (PStr ("Would restart service '" ++ who ++ "'"))
        else
          u <- lift (py_getitem existing "uuid") ;;
          _ <- on_world (restart_service client u) ;;
          set_result "service" existing ;;;
          (u <- lift (py_getitem existing "uuid") ;; set_result "uuid" u) ;;;
          set_result "changed" (PBool true) ;;;
          set_result "msg" (PStr ("Service '" ++ who ++ "' restarted"))
      else ret tt.

Definition run_module (p : params) (check_mode : bool)
      : M (World St) unit :=
      with_result result_init
        (try_except (run_module_body p check_mode) is_Exception
                    (fun e => fail_with_result e) ;;;
         exit_with_result).

    Close Scope m_scope.
  End Module.
End coolify_service.

(* ================================================================== *)
(** * library/coolify_api.py: the generic operation passthrough *)
(* ================================================================== *)

Module library_coolify_api.

Record params : Type := {
    api_url : string;
    p_api_token : string;
    operation : string;
    p_params : dict pyval;
    p_timeout : Z;
    p_verify_ssl : bool
  }.

Definition result_init : dict pyval :=
    [("changed", PBool false); ("response", PNone); ("operation", PNone)].

Definition mutating_ops : list string :=
    ["create-"; "update-"; "delete-"; "start-"; "stop-"; "restart-";
     "validate-"; "deploy-"; "cancel-"].

  Section Module.
    Context {St : Type}.
    (** The outcome of [from swagger.coolify_api import ...]. *)
    Variable HAS_CLIENT : bool.
    Variable IMPORT_ERROR : string.
    (** [CoolifyClient(base_url=..., api_token=..., timeout=...,
        verify_ssl=...)]: the constructor reads the bundled
        specification; it yields a client or raises. *)
    Variable CoolifyClient :
      string -> string -> Z -> bool -> Res (swagger_coolify_api.Api St).

    Open Scope m_scope.

    (** The [try] block. *)
Definition run_module_body (p : params) : @LM (World St) unit :=
      client <- lift (CoolifyClient (api_url p) (p_api_token p) (p_timeout p)
                                    (p_verify_ssl p)) ;;
      response <- on_world (swagger_coolify_api._call client (operation p)
                                                      (Some (p_params p)) false) ;;
      set_result "response" response ;;;
      if existsb (fun prefix_ => prefix prefix_ (operation p)) mutating_ops
      then set_result "changed" (PBool true)
      else ret tt.

Definition run_module (p : params) (check_mode : bool)
      : M (World St) unit :=
      with_result result_init
        ((if negb HAS_CLIENT
          then fail_json_msg ("Failed to import coolify_api client: "
                              ++ IMPORT_ERROR) []
          else ret tt) ;;;
         set_result "operation" (PStr (operation p)) ;;;
         (if check_mode then
            set_result "response"
              (PDict [("check_mode", PBool true);
                      ("operation", PStr (operation p))]) ;;;
            exit_with_result
          else ret tt) ;;;
         try_except (run_module_body p) is_Exception
           (fun e => result <- get_result ;;
                     match e with
                     | CoolifyError _ _ => fail_json_msg (exn_str e) result
                     | _ => fail_json_msg ("Unexpected error: " ++ exn_str e)
                                          result
                     end) ;;;
         exit_with_result).

    Close Scope m_scope.
  End Module.
End library_coolify_api.

(* ================================================================== *)
(** * A reference Python runtime *)
(* ================================================================== *)

(** An executable instance of [PyRuntime], used where a statement is
    evaluated on concrete data.  Strings are sequences of code points
    below 256; numbers are integers (a JSON text with a fraction or an
    exponent is not decoded by this instance). *)
Module python.

Definition Z_to_string (z : Z) : string :=
    NilZero.string_of_int (Z.to_int z).

Definition hex_digit (n : nat) : ascii :=
    match n with
    | 0 => "0" | 1 => "1" | 2 => "2" | 3 => "3" | 4 => "4" | 5 => "5"
    | 6 => "6" | 7 => "7" | 8 => "8" | 9 => "9" | 10 => "a" | 11 => "b"
    | 12 => "c" | 13 => "d" | 14 => "e" | _ => "f"
    end%char.

Definition hex2 (n : nat) : string :=
    String (hex_digit (n / 16)) (String (hex_digit (n mod 16)) EmptyString).

Definition flat_map_string (f : ascii -> string) : string -> string :=
    fix go (s : string) : string :=
      match s with
      | EmptyString => EmptyString
      | String c s' => f c ++ go s'
      end.

Definition has_char (c : ascii) (s : string) : bool :=
    contains (String c EmptyString) s.

  (** ** [repr] and [str] *)

Definition printable (n : nat) : bool :=
    (((32 <=? n) && (n <=? 126)) ||
     ((161 <=? n) && (n <=? 255) && negb (n =? 173)))%nat%bool.

Definition repr_char (quote : ascii) (c : ascii) : string :=
    let n := nat_of_ascii c in
    if Ascii.eqb c "\"%char then "\\"
    else if Ascii.eqb c quote then String "\"%char (String c EmptyString)
    else if (n =? 10)%nat then "\n"
    else if (n =? 13)%nat then "\r"
    else if (n =? 9)%nat then "\t"
    else if printable n then String c EmptyString
    else "\x" ++ hex2 n.

Definition repr_str (s : string) : string :=
    let quote := if (has_char "'"%char s && negb (has_char "034"%char s))%bool
                 then "034"%char else "'"%char in
    String quote (flat_map_string (repr_char quote) s ++ String quote EmptyString).

Fixpoint repr (v : pyval) : string :=
    match v with
    | PNone => "None"
    | PBool true => "True"
    | PBool false => "False"
    | PInt z => Z_to_string z
    | PStr s => repr_str s
    | PList l => "[" ++ join ", " (map repr l) ++ "]"
    | PDict d =>
        "{" ++ join ", " (map (fun kv => match kv with
                                         | (k, x) => repr_str k ++ ": " ++ repr x
                                         end) d) ++ "}"
    end.

Definition str (v : pyval) : string :=
    match v with
    | PStr s => s
    | _ => repr v
    end.

  (** ** [json.dumps] with its default separators and [ensure_ascii] *)

Definition json_char (c : ascii) : string :=
    let n := nat_of_ascii c in
    if Ascii.eqb c "034"%char then String "\"%char (String "034"%char EmptyString)
    else if Ascii.eqb c "\"%char then "\\"
    else if (n =? 10)%nat then "\n"
    else if (n =? 13)%nat then "\r"
    else if (n =? 9)%nat then "\t"
    else if (n =? 8)%nat then "\b"
    else if (n =? 12)%nat then "\f"
    else if ((n <? 32) || (127 <? n))%nat%bool then "\u00" ++ hex2 n
    else String c EmptyString.

Definition json_string (s : string) : string :=
    String "034"%char (flat_map_string json_char s ++ String "034"%char EmptyString).

Fixpoint dumps (v : pyval) : string :=
    match v with
    | PNone => "null"
    | PBool true => "true"
    | PBool false => "false"
    | PInt z => Z_to_string z
    | PStr s => json_string s
    | PList l => "[" ++ join ", " (map dumps l) ++ "]"
    | PDict d =>
        "{" ++ join ", " (map (fun kv => match kv with
                                         | (k, x) => json_string k ++ ": " ++ dumps x
                                         end) d) ++ "}"
    end.

  (** ** [urllib.parse.urlencode] of a dict *)

Definition upper_hex2 (n : nat) : string := upper (hex2 n).

Definition unreserved (n : nat) : bool :=
    (((48 <=? n) && (n <=? 57)) || ((65 <=? n) && (n <=? 90)) ||
     ((97 <=? n) && (n <=? 122)) ||
     (n =? 95) || (n =? 46) || (n =? 45) || (n =? 126))%nat%bool.

  (** [quote_plus]: the UTF-8 bytes of a code point below 256. *)
Definition quote_char (c : ascii) : string :=
    let n := nat_of_ascii c in
    if unreserved n then String c EmptyString
    else if (n =? 32)%nat then "+"
    else if (n <? 128)%nat then "%" ++ upper_hex2 n
    else "%" ++ upper_hex2 (192 + n / 64) ++ "%" ++ upper_hex2 (128 + n mod 64).

Definition quote_plus (s : string) : string := flat_map_string quote_char s.

Definition urlencode_dict (query : dict pyval) : string :=
    join "&" (map (fun kv => quote_plus (fst kv) ++ "=" ++ quote_plus (str (snd kv)))
                  query).

  (** ** [json.loads] *)

Definition is_ws (c : ascii) : bool :=
    let n := nat_of_ascii c in
    ((n =? 32) || (n =? 9) || (n =? 10) || (n =? 13))%nat%bool.

Fixpoint skip_ws (s : string) : string :=
    match s with
    | EmptyString => EmptyString
    | String c r => if is_ws c then skip_ws r else s
    end.

Definition hex_value (c : ascii) : option nat :=
    let n := nat_of_ascii c in
    if ((48 <=? n) && (n <=? 57))%nat%bool then Some (n - 48)
    else if ((97 <=? n) && (n <=? 102))%nat%bool then Some (n - 87)
    else if ((65 <=? n) && (n <=? 70))%nat%bool then Some (n - 55)
    else None.

Definition simple_escape (c : ascii) : option ascii :=
    let n := nat_of_ascii c in
    if (n =? 34)%nat then Some "034"%char
    else if (n =? 92)%nat then Some "\"%char
    else if (n =? 47)%nat then Some "/"%char
    else if (n =? 98)%nat then Some (ascii_of_nat 8)
    else if (n =? 102)%nat then Some (ascii_of_nat 12)
    else if (n =? 110)%nat then Some (ascii_of_nat 10)
    else if (n =? 114)%nat then Some (ascii_of_nat 13)
    else if (n =? 116)%nat then Some (ascii_of_nat 9)
    else None.

Definition cons_char (c : ascii) (r : option (string * string))
    : option (string * string) :=
    match r with
    | Some (s, rest) => Some (String c s, rest)
    | None => None
    end.

  (** The text of a string literal, read after its opening quote, and
      what follows the closing quote. *)
Fixpoint parse_string (s : string) : option (string * string) :=
    match s with
    | EmptyString => None
    | String c r =>
        if Ascii.eqb c "034"%char then Some (EmptyString, r)
        else if Ascii.eqb c "\"%char then
          match r with
          | EmptyString => None
          | String e r' =>
              match simple_escape e with
              | Some ch => cons_char ch (parse_string r')
              | None =>
                  if Ascii.eqb e "u"%char then
                    match r' with
                    | String h1 (String h2 (String h3 (String h4 r''))) =>
                        match hex_value h1, hex_value h2,
                              hex_value h3, hex_value h4 with
                        | Some 0, Some 0, Some a, Some b =>
                            cons_char (ascii_of_nat (16 * a + b))
                                      (parse_string r'')
                        | _, _, _, _ => None
                        end
                    | _ => None
                    end
                  else None
              end
          end
        else if (nat_of_ascii c <? 32)%nat then None
        else cons_char c (parse_string r)
    end.

Definition is_digit (c : ascii) : bool :=
    let n := nat_of_ascii c in ((48 <=? n) && (n <=? 57))%nat%bool.

Fixpoint take_digits (s : string) : string * string :=
    match s with
    | EmptyString => (EmptyString, EmptyString)
    | String c r =>
        if is_digit c
        then let (d, rest) := take_digits r in (String c d, rest)
        else (EmptyString, s)
    end.

Definition starts_fraction (s : string) : bool :=
    match s with
    | String c _ => (Ascii.eqb c "."%char || Ascii.eqb c "e"%char
                     || Ascii.eqb c "E"%char)%bool
    | EmptyString => false
    end.

Definition parse_number (s : string) : option (pyval * string) :=
    let (neg, body) := match s with
                       | String "-"%char r => (true, r)
                       | _ => (false, s)
                       end in
    let (digits, rest) := take_digits body in
    match digits with
    | EmptyString => None
    | String "0"%char (String _ _) => None
    | _ =>
        if starts_fraction rest then None
        else match NilZero.int_of_string digits with
             | Some i => let z := Z.of_int i in
                         Some (PInt (if neg : bool then - z else z)%Z, rest)
             | None => None
             end
    end.

Definition expect (lit : string) (v : pyval) (s : string)
    : option (pyval * string) :=
    if prefix lit s then Some (v, drop_string (length lit) s) else None.

Fixpoint parse_value (fuel : nat) (s : string) : option (pyval * string) :=
    match fuel with
    | O => None
    | S f =>
        match skip_ws s with
        | EmptyString => None
        | String c r as t =>
            if Ascii.eqb c "{"%char then
              match skip_ws r with
              | String "}"%char r' => Some (PDict [], r')
              | _ => parse_members f r []
              end
            else if Ascii.eqb c "["%char then
              match skip_ws r with
              | String "]"%char r' => Some (PList [], r')
              | _ => parse_elements f r []
              end
            else if Ascii.eqb c "034"%char then
              match parse_string r with
              | Some (x, rest) => Some (PStr x, rest)
              | None => None
              end
            else if Ascii.eqb c "n"%char then expect "null" PNone t
            else if Ascii.eqb c "t"%char then expect "true" (PBool true) t
            else if Ascii.eqb c "f"%char then expect "false" (PBool false) t
            else parse_number t
        end
    end
  with parse_elements (fuel : nat) (s : string) (acc : list pyval)
    : option (pyval * string) :=
    match fuel with
    | O => None
    | S f =>
        match parse_value f s with
        | Some (v, rest) =>
            match skip_ws rest with
            | String ","%char r => parse_elements f r (acc ++ [v])%list
            | String "]"%char r => Some (PList (acc ++ [v])%list, r)
            | _ => None
            end
        | None => None
        end
    end
  with parse_members (fuel : nat) (s : string) (acc : dict pyval)
    : option (pyval * string) :=
    match fuel with
    | O => None
    | S f =>
        match skip_ws s with
        | String "034"%char r =>
            match parse_string r with
            | Some (k, rest) =>
                match skip_ws rest with
                | String ":"%char r' =>
                    match parse_value f r' with
                    | Some (v, rest') =>
                        match skip_ws rest' with
                        | String ","%char r'' => parse_members f r'' (dset k v acc)
                        | String "}"%char r'' => Some (PDict (dset k v acc), r'')
                        | _ => None
                        end
                    | None => None
                    end
                | _ => None
                end
            | None => None
            end
        | _ => None
        end
    end.

Definition loads (s : string) : option pyval :=
    match parse_value (2 * length s + 2) s with
    | Some (v, rest) =>
        match skip_ws rest with
        | EmptyString => Some v
        | _ => None
        end
    | None => None
    end.

Definition runtime : PyRuntime :=
    {| py_str := str; json_dumps := dumps; json_loads := loads;
       urlencode := urlencode_dict |}.

End python.

(* ================================================================== *)
(** * Vocabulary of the statements about the client *)
(* ================================================================== *)

Module client_props.
  Import swagger_client.

  Section Vocabulary.
    Variable rt : PyRuntime.
    Context {St : Type} (nw : Network St).
    Variable HAS_REQUESTS : bool.

    (** One attempt seen from the remote end: what [_make_request]
        yields when the remote end is in state [s], and the state the
        remote end is left in. *)
Definition attempt (self : SwaggerClient) (rq : request) (s : St)
      : Res response * St :=
      let (x, w') := _make_request nw HAS_REQUESTS self rq
                                   {| remote := s; log := [] |} in
      (x, remote w').


  End Vocabulary.

  (** The value the caller's map supplies for a declared parameter
      name, in the order the request builder looks: first under the
      name with hyphens turned into underscores, then under the name as
      declared. *)
Definition caller_value (params : dict pyval) (param_name : string)
    : option pyval :=
    match dget (replace "-" "_" param_name) params with
    | Some v => Some v
    | None => dget param_name params
    end.






  (** The request body declares an encoding. *)
Definition declares (encoding : string) (request_body : pyval) : bool :=
    match request_body with
    | PDict d => match dget "content" d with
                 | Some (PDict c) => dmem encoding c
                 | _ => false
                 end
    | _ => false
    end.

  (** An exception that only an ill-typed document can provoke. *)
Definition typing_error (e : exn) : bool :=
    match e with
    | KeyError _ | AttributeError _ | TypeError _ => true
    | _ => false
    end.


End client_props.

(* ================================================================== *)
(** * Concrete documents, clients and remote ends *)
(* ================================================================== *)

Module examples.
  Import swagger_client.

  (** A remote end that answers from a script, one entry per request,
      whatever the request. *)
Definition scripted (urls : list urlopen_outcome)
    (reqs : list requests_outcome) : Network nat :=
    {| requests_request := fun n _ => (nth n reqs ReqTimeout, S n);
       urlopen := fun n _ => (nth n urls (UrlURLError "unreachable"), S n) |}.

Definition fresh_world : World nat := {| remote := 0%nat; log := [] |}.

Definition json_body : pyval :=
    PDict [("content",
            PDict [("application/json",
                    PDict [("schema", PDict [("type", PStr "object")])])])].

  (** A small specification document. *)
Definition demo_spec : pyval :=
    PDict
      [("openapi", PStr "3.1.0");
       ("paths",
        PDict
          [("/projects",
            PDict [("get", PDict [("operationId", PStr "list-projects")]);
                   ("post", PDict [("operationId", PStr "create-project");
                                   ("requestBody", json_body)])]);
           ("/projects/{uuid}",
            PDict [("get",
                    PDict [("operationId", PStr "get-project-by-uuid");
                           ("parameters",
                            PList [PDict [("name", PStr "uuid");
                                          ("in", PStr "path")]])])]);
           ("/hyphen/{project-uuid}",
            PDict [("get",
                    PDict [("operationId", PStr "declared-with-hyphen");
                           ("parameters",
                            PList [PDict [("name", PStr "project-uuid");
                                          ("in", PStr "path")]])])]);
           ("/underscore/{project_uuid}",
            PDict [("get",
                    PDict [("operationId", PStr "declared-with-underscore");
                           ("parameters",
                            PList [PDict [("name", PStr "project_uuid");
                                          ("in", PStr "path")]])])]);
           ("/both",
            PDict [("post",
                    PDict [("operationId", PStr "form-and-json");
                           ("requestBody",
                            PDict [("content",
                                    PDict [("application/x-www-form-urlencoded",
                                            PDict [("schema",
                                                    PDict [("properties",
                                                            PDict [("name", PDict [])])])]);
                                           ("application/json", PDict [])])])])])])].

Definition demo_operations : dict operation_info :=
    Eval vm_compute in
      match _build_operation_map demo_spec with
      | Ok ops => ops
      | Raise _ => []
      end.

  (** The client [SwaggerClient(spec=demo_spec, base_url=base_url)]
      with every other option left at its default. *)
Definition demo_client (base_url : string) : SwaggerClient :=
    {| spec := demo_spec; base_url := base_url; auth_params := [];
       auth_headers := []; timeout := 30; verify_ssl := true;
       max_retries := 3; retry_delay := 1;
       _operations := demo_operations |}.

End examples.

Module examples2.
  Import swagger_client examples.

Definition local_client : SwaggerClient :=
    demo_client "http://localhost:8000/api/v1".

  (** The request [call_operation('list-projects')] puts on the wire. *)
Definition list_projects_request : request :=
    {| rq_method := "GET";
       rq_url := "http://localhost:8000/api/v1/projects";
       rq_headers := [("Accept", "application/json")];
       rq_body := None; rq_content_type := "application/json" |}.

Definition list_projects_wire : http_request :=
    {| req_method := "GET";
       req_url := "http://localhost:8000/api/v1/projects";
       req_headers := [("Accept", "application/json")];
       req_data := None; req_timeout := 30; req_verify := true |}.

  (** [json.dumps({'name': 'my-app', 'description': 'demo'})] *)
Definition my_app_json : string :=
    Eval vm_compute in
      python.dumps (PDict [("name", PStr "my-app");
                           ("description", PStr "demo")]).

  (** A remote end that refuses the first two connections and then
      answers. *)
Definition two_failures_then_ok : Network nat :=
    scripted [UrlURLError "Connection refused"; UrlURLError "timed out";
              UrlResponse 200 "[]" []] [].


  (** The demo client with [max_retries=0]. *)
Definition no_retry_client : SwaggerClient :=
    {| spec := demo_spec; base_url := "http://localhost:8000/api/v1";
       auth_params := []; auth_headers := []; timeout := 30;
       verify_ssl := true; max_retries := 0; retry_delay := 1;
       _operations := demo_operations |}.
End examples2.

(* ================================================================== *)
(** * Vocabulary of the statements about the facade and the wrappers *)
(* ================================================================== *)

Module wrapper_props.

  (** What [ensure_server] and [ensure_project] return after a
      [CoolifyError] with text [msg]. *)
Definition error_result (msg : string) : dict pyval :=
    [("changed", PBool false); ("msg", PStr msg); ("data", PNone);
     ("failed", PBool true)].

  (** An API that answers every call with an error message. *)
Definition failing_api : swagger_coolify_api.Api unit :=
    fun s _ _ => (Raise (SwaggerClientError "Request timed out"), s).

  (** The wrapping that [ensure_server] and [ensure_project] put around
      their [try] block. *)
Definition ensured {St : Type} (body : @LM (World St) unit)
    : M (World St) (dict pyval) :=
    with_result swagger_coolify_api.ensure_init
      (bind (try_except body swagger_coolify_api.is_CoolifyError
               (fun e => bind (set_result "failed" (PBool true))
                              (fun _ => set_result "msg" (PStr (exn_str e)))))
            (fun _ => get_result)).

  (** ** Check mode *)

  (** A computation of a function body that leaves the world alone: it
      sends nothing and does not sleep. *)
Definition quiet {W A : Type} (c : @LM W A) : Prop :=
    forall s, snd (snd (c s)) = snd s.

  (** [module.exit_json]: the exit that reports success. *)
Definition clean_exit (e : exn) : bool :=
    match e with SystemExit false _ => true | _ => false end.

  (** The run without check mode [real] and the check-mode run [check]
      of a function body agree on [changed]: started with [changed]
      equal to [v1] and [v2], whenever [real] completes, [check]
      completes with the same [changed]; and [real] does not end in
      [exit_json]. *)
Definition agree {W A B : Type} (v1 v2 : option pyval)
    (real : @LM W A) (check : @LM W B) : Prop :=
    forall r1 w1 r2 w2,
      dget "changed" r1 = v1 -> dget "changed" r2 = v2 ->
      match fst (real (r1, w1)) with
      | Ok _ =>
          match fst (check (r2, w2)) with
          | Ok _ => dget "changed" (fst (snd (real (r1, w1))))
                    = dget "changed" (fst (snd (check (r2, w2))))
          | Raise _ => False
          end
      | Raise e => clean_exit e = false
      end.

  (** The same, for two bodies that start in the same world. *)
Definition agree_same {W A B : Type} (v : option pyval)
    (real : @LM W A) (check : @LM W B) : Prop :=
    forall r1 r2 w,
      dget "changed" r1 = v -> dget "changed" r2 = v ->
      match fst (real (r1, w)) with
      | Ok _ =>
          match fst (check (r2, w)) with
          | Ok _ => dget "changed" (fst (snd (real (r1, w))))
                    = dget "changed" (fst (snd (check (r2, w))))
          | Raise _ => False
          end
      | Raise e => clean_exit e = false
      end.

  (** An [except] clause that ends the run with a failure report. *)
Definition fails {W : Type} (h : exn -> @LM W unit) : Prop :=
    forall e s, match fst (h e s) with
                | Ok _ => False
                | Raise e' => clean_exit e' = false
                end.

  (** The request every [find_*] of the library wrappers sends: the
      listing of the collection at [endpoint]. *)
Definition lookup_request (api_url api_token : string) (timeout : Z)
    (verify_ssl : bool) (endpoint : string) : http_request :=
    {| req_method := "GET";
       req_url := (rstrip "/" api_url ++ endpoint)%string;
       req_headers := [("Authorization", ("Bearer " ++ api_token)%string);
                       ("Accept", "application/json");
                       ("Content-Type", "application/json")];
       req_data := None;
       req_timeout := timeout;
       req_verify := verify_ssl |}.

  (** In check mode a run sends the lookup and nothing else. *)
Definition looks_up_only {St : Type} (run : bool -> M (World St) unit)
    (lookup : http_request) : Prop :=
    forall w, log (snd (run true w)) = (log w ++ [Sent lookup])%list.

  (** Whenever the run without check mode completes, the check-mode run
      from the same world completes and reports the same [changed]. *)
Definition dry_run_agrees {St : Type} (run : bool -> M (World St) unit)
    : Prop :=
    forall w,
      exited_ok (fst (run false w)) = true ->
      exited_ok (fst (run true w)) = true /\
      reported_changed (fst (run true w)) = reported_changed (fst (run false w)).

  (** ** Idempotence *)



  (** [x] is a dictionary that binds [k] to the string [v]. *)
Definition has_field (k v : string) (x : pyval) : Prop :=
    exists d, x = PDict d /\ dget k d = Some (PStr v).

  (** What [find_project], [find_private_key], [find_database] and
      [find_service] go by: the [uuid] or the [name], when given. *)
Definition looked_up (name uuid : option string) (x : pyval) : Prop :=
    (truthy_opt uuid = true /\ has_field "uuid" (fmt_opt uuid) x) \/
    (truthy_opt name = true /\ has_field "name" (fmt_opt name) x).

  (** [find_server] goes by the [ip] as well. *)
Definition server_looked_up (name ip uuid : option string) (x : pyval)
    : Prop :=
    looked_up name uuid x \/
    (truthy_opt ip = true /\ has_field "ip" (fmt_opt ip) x).

  (** [find_application] goes by the [uuid], or by the [name] within
      the project and the environment, when these are given. *)
Definition application_looked_up
    (name uuid project_uuid environment_name : option string) (x : pyval)
    : Prop :=
    (truthy_opt uuid = true /\ has_field "uuid" (fmt_opt uuid) x) \/
    (truthy_opt name = true /\ has_field "name" (fmt_opt name) x /\
     (truthy_opt project_uuid = true ->
      has_field "project_uuid" (fmt_opt project_uuid) x) /\
     (truthy_opt environment_name = true ->
      exists env, py_get x "environment" (PDict []) = Ok env /\
                  has_field "name" (fmt_opt environment_name) env)).

  (** [ensure_server] of the facade goes by the [ip] or the [name]. *)
Definition ensure_looked_up (ip name : string) (x : pyval) : Prop :=
    has_field "ip" ip x \/ has_field "name" name x.



  (** ** Runs followed statement by statement *)

  (** [c], started in [s], ends with an outcome and a state that
      satisfy [P]. *)
Definition ends_with {S A : Type} (c : M S A) (s : S)
    (P : Res A -> S -> Prop) : Prop :=
    P (fst (c s)) (snd (c s)).

  (** Every listed entry is a dictionary. *)
Definition all_dicts (items : list pyval) : Prop :=
    Forall (fun x => exists d, x = PDict d) items.

End wrapper_props.

(* ================================================================== *)
(** * A remote end that keeps what is created *)
(* ================================================================== *)

Module store_example.

  (** The collection is the state: a GET lists it, a POST adds the
      posted object (with a [uuid]) and answers with it, so that a
      completed create shows in every later listing. *)
Definition store : Network (list pyval) :=
    {| requests_request := fun s _ => (ReqConnectionError "refused", s);
       urlopen := fun s r =>
         if (req_method r =? "GET")%string then
           (UrlResponse 200 (python.dumps (PList s)) [], s)
         else if (req_method r =? "POST")%string then
           match req_data r with
           | Some body =>
               match python.loads body with
               | Some (PDict d) =>
                   let created :=
                     PDict (("uuid",
                             PStr ("id-" ++ python.Z_to_string
                                              (Z.of_nat (List.length s))))
                            :: d) in
                   (UrlResponse 201 (python.dumps created) [],
                    (s ++ [created])%list)
               | _ => (UrlHTTPError 422 None None, s)
               end
           | None => (UrlHTTPError 422 None None, s)
           end
         else (UrlHTTPError 405 None None, s) |}.

Definition empty_store : World (list pyval) := {| remote := []; log := [] |}.

  (** [coolify_project] invoked with [name], [state: present] and no
      description. *)
Definition project_present (name : string) : coolify_project.params :=
    {| coolify_project.api_url := "http://localhost:8000/api/v1";
       coolify_project.p_api_token := "token";
       coolify_project.state := "present";
       coolify_project.name := name;
       coolify_project.description := None;
       coolify_project.uuid := None;
       coolify_project.environments := None;
       coolify_project.p_timeout := 30;
       coolify_project.p_verify_ssl := true |}.

  (** The requests of a log, by method and URL. *)
Definition wire_log (l : list event) : list (string * string) :=
    map (fun r => (req_method r, req_url r)) (sent_requests l).

End store_example.

(* ================================================================== *)
(** * swagger_client.py once more, with dictionaries as objects *)
(* ================================================================== *)

(** [call_operation] receives [params] by reference.  To state what it
    does to the caller's dictionary, this second embedding keeps every
    [dict] the method touches in a store of objects: the caller's
    [params], the client's [auth_params] and [auth_headers], and the
    dictionaries the method creates ([{}], [dict(...)], [.copy()]).
    An item assignment [d[k] = v] updates the object that [d] refers to.
    Values stored in a dictionary are kept by value. *)
Module swagger_client_objects.
  Import swagger_client.

Definition ref : Type := nat.
Definition heap : Type := list (dict pyval).

Fixpoint update_nth (r : ref) (f : dict pyval -> dict pyval) (h : heap)
    : heap :=
    match h, r with
    | [], _ => []
    | d :: t, O => f d :: t
    | d :: t, S r' => d :: update_nth r' f t
    end.

  (** The client object: the fields of [SwaggerClient] that are
      dictionaries are references. *)
Record SwaggerClientObj : Type := {
    fields : SwaggerClient;
    auth_params_ref : ref;
    auth_headers_ref : ref
  }.

  (** Header dictionaries hold strings. *)
Definition header_values (d : dict pyval) : dict string :=
    map (fun kv => (fst kv, match snd kv with PStr s => s | _ => "" end)) d.
Definition header_object (d : dict string) : dict pyval :=
    map (fun kv => (fst kv, PStr (snd kv))) d.

  Section Objects.
    Variable rt : PyRuntime.
    Context {St : Type} (nw : Network St).
    Variable HAS_REQUESTS : bool.

Definition OM (A : Type) : Type := M (heap * World St) A.

    Open Scope m_scope.

    (** The dictionary a reference points to. *)
Definition deref (r : ref) : OM (dict pyval) :=
      fun s => (Ok (nth r (fst s) []), s).

    (** [{}], [dict(d)], [d.copy()]: a new object. *)
Definition new_dict (d : dict pyval) : OM ref :=
      fun s => (Ok (List.length (fst s)), ((fst s ++ [d])%list, snd s)).

    (** [d[k] = v] *)
Definition setitem (r : ref) (k : string) (v : pyval) : OM unit :=
      fun s => (Ok tt, (update_nth r (dset k v) (fst s), snd s)).

Definition on_net {A : Type} (c : M (World St) A) : OM A :=
      fun s => let (x, w') := c (snd s) in (x, (fst s, w')).

Fixpoint ofold {A B : Type} (body : B -> A -> OM B) (l : list A) (acc : B)
      : OM B :=
      match l with
      | [] => ret acc
      | x :: r => acc' <- body acc x ;; ofold body r acc'
      end.

    (** Body of the loop over the form schema's properties. *)
Definition add_form_field (params form_data : ref) (_ : unit)
      (property : string * pyval) : OM unit :=
      let param_name := fst property in
      let python_name := replace "-" "_" param_name in
      d <- deref params ;;
      if dmem python_name d then
        value <- lift (py_getitem (PDict d) python_name) ;;
        if (negb (is_None value) && negb (is_False value))%bool
        then setitem form_data param_name value
        else ret tt
      else if dmem param_name d then
        value <- lift (py_getitem (PDict d) param_name) ;;
        if (negb (is_None value) && negb (is_False value))%bool
        then setitem form_data param_name value
        else ret tt
      else ret tt.

Definition _build_request_body (self : SwaggerClientObj)
      (operation_info : operation_info) (params : ref)
      : OM (option string * string) :=
      let request_body := info_request_body operation_info in
      if negb (truthy request_body) then ret (None, JSON)
      else
        content <- lift (py_get request_body "content" (PDict [])) ;;
        is_form <- lift (py_in FORM content) ;;
        if is_form : bool then
          media <- lift (py_getitem content FORM) ;;
          schema <- lift (py_get media "schema" (PDict [])) ;;
          has_ref <- lift (py_in "$ref" schema) ;;
          schema <- (if has_ref : bool
                     then ref <- lift (py_getitem schema "$ref") ;;
                          resolved <- lift (_resolve_ref (fields self) ref) ;;
                          ret (if truthy resolved then resolved else PDict [])
                     else ret schema) ;;
          form_data <- new_dict [] ;;
          properties <- lift (py_get schema "properties" (PDict [])) ;;
          items <- lift (py_items properties) ;;
          ofold (add_form_field params form_data) items tt ;;;
          (fd <- deref form_data ;;
           ret (Some (urlencode rt fd), FORM))
        else
          is_json <- lift (py_in JSON content) ;;
          if is_json : bool
          then d <- deref params ;;
               ret (Some (json_dumps rt (PDict d)), JSON)
          else ret (None, JSON).

    (** Body of the first loop of [call_operation]. *)
Definition subst_path_param (params : ref) (path : string)
      (param : pyval) : OM string :=
      loc <- lift (py_get param "in" PNone) ;;
      if eq_str loc "path" then
        name <- lift (py_getitem param "name") ;;
        param_name <- lift (py_str_self name "replace") ;;
        let python_name := replace "-" "_" param_name in
        d <- deref params ;;
        if dmem python_name d then
          value <- lift (py_getitem (PDict d) python_name) ;;
          ret (replace ("{" ++ param_name ++ "}") (py_str rt value) path)
        else if dmem param_name d then
          value <- lift (py_getitem (PDict d) param_name) ;;
          ret (replace ("{" ++ param_name ++ "}") (py_str rt value) path)
        else ret path
      else ret path.

    (** Body of the second loop. *)
Definition add_query_param (params query_params : ref) (_ : unit)
      (param : pyval) : OM unit :=
      loc <- lift (py_get param "in" PNone) ;;
      if eq_str loc "query" then
        name <- lift (py_getitem param "name") ;;
        param_name <- lift (py_str_self name "replace") ;;
        let python_name := replace "-" "_" param_name in
        d <- deref params ;;
        if dmem python_name d then
          value <- lift (py_getitem (PDict d) python_name) ;;
          if negb (is_None value)
          then setitem query_params param_name value
          else ret tt
        else if dmem param_name d then
          value <- lift (py_getitem (PDict d) param_name) ;;
          if negb (is_None value)
          then setitem query_params param_name value
          else ret tt
        else ret tt
      else ret tt.

    (** [params = params or {}] *)
Definition params_or_empty (params : option ref) : OM ref :=
      match params with
      | None => new_dict []
      | Some r =>
          d <- deref r ;;
          match d with
          | [] => new_dict []
          | _ => ret r
          end
      end.

    (** What [call_operation] passes to [_make_request]: [headers] is a
        reference. *)
Record request_o : Type := {
      rqo_method : string;
      rqo_url : string;
      rqo_headers : ref;
      rqo_body : option string;
      rqo_content_type : string
    }.

Definition build_request (self : SwaggerClientObj) (operation_id : string)
      (params : option ref) : OM request_o :=
      params <- params_or_empty params ;;
      operation_info <- lift (get_operation (fields self) operation_id) ;;
      let path := info_path operation_info in
      let method := info_method operation_info in
      path <- ofold (subst_path_param params)
                    (info_parameters operation_info) path ;;
      let url := rstrip "/" (base_url (fields self)) ++ path in
      auth <- deref (auth_params_ref self) ;;
      query_params <- new_dict auth ;;
      ofold (add_query_param params query_params)
            (info_parameters operation_info) tt ;;;
      (q <- deref query_params ;;
       let url := match q with
                  | [] => url
                  | _ => url ++ "?" ++ urlencode rt q
                  end in
       bc <- _build_request_body self operation_info params ;;
       let body := fst bc in
       let content_type := snd bc in
       auth <- deref (auth_params_ref self) ;;
       let body :=
         if ((content_type =? FORM) &&
             match auth with [] => false | _ => true end)%bool
         then let auth_encoded := urlencode rt auth in
              if truthy_body body
              then match body with
                   | Some b => Some (auth_encoded ++ "&" ++ b)
                   | None => Some auth_encoded
                   end
              else Some auth_encoded
         else body in
       hs <- deref (auth_headers_ref self) ;;
       headers <- new_dict hs ;;
       setitem headers "Accept" (PStr "application/json") ;;;
       ret {| rqo_method := method; rqo_url := url; rqo_headers := headers;
              rqo_body := body; rqo_content_type := content_type |}).

    (** The first statements of both [_make_request_with_*]:
        [headers = headers.copy()] and the [Content-Type] item; the
        result is what goes on the wire. *)
Definition wire (self : SwaggerClientObj) (rq : request_o)
      : OM http_request :=
      hs <- deref (rqo_headers rq) ;;
      headers <- new_dict hs ;;
      (if (truthy_body (rqo_body rq) &&
           negb (rqo_content_type rq =? ""))%bool
       then setitem headers "Content-Type" (PStr (rqo_content_type rq))
       else ret tt) ;;;
      (final <- deref headers ;;
       ret {| req_method := rqo_method rq; req_url := rqo_url rq;
              req_headers := header_values final; req_data := rqo_body rq;
              req_timeout := timeout (fields self);
              req_verify := verify_ssl (fields self) |}).

Definition _make_request (self : SwaggerClientObj) (rq : request_o)
      : OM response :=
      q <- wire self rq ;;
      if HAS_REQUESTS then
        o <- on_net (do_requests_request nw q) ;;
        match o with
        | ReqResponse st text hs =>
            ret {| status_code := st; body := text; headers := hs |}
        | ReqTimeout => raise (SwaggerClientError "Request timed out")
        | ReqSSLError e => raise (SwaggerClientError ("SSL error: " ++ e))
        | ReqConnectionError e =>
            raise (SwaggerClientError ("Connection error: " ++ e))
        | ReqRequestException e =>
            raise (SwaggerClientError ("Request failed: " ++ e))
        end
      else
        o <- on_net (do_urlopen nw q) ;;
        match o with
        | UrlResponse st b hs =>
            ret {| status_code := st; body := b; headers := hs |}
        | UrlHTTPError code fp hs =>
            ret {| status_code := code;
                   body := match fp with Some b => b | None => "" end;
                   headers := match hs with Some h => h | None => [] end |}
        | UrlURLError reason =>
            if contains "timed out" (lower reason)
            then raise (SwaggerClientError "Request timed out")
            else raise (SwaggerClientError ("Request failed: " ++ reason))
        end.

Fixpoint retry_loop (self : SwaggerClientObj) (rq : request_o)
      (raw_response : bool) (attempts : list nat) (last_error : option exn)
      : OM pyval :=
      match attempts with
      | [] => match last_error with
              | Some e => raise e
              | None => ret PNone
              end
      | attempt :: rest =>
          fun s =>
            match _make_request self rq s with
            | (Ok response, s') =>
                if raw_response then (Ok (response_to_py response), s')
                else (Ok (decode rt response), s')
            | (Raise e, s') =>
                if is_SwaggerClientError e then
                  if (Z.of_nat attempt <? max_retries (fields self) - 1)%Z then
                    (on_net (time_sleep
                               (retry_delay (fields self) * 2 ^ Z.of_nat attempt)) ;;;
                     retry_loop self rq raw_response rest (Some e)) s'
                  else (Raise e, s')
                else (Raise e, s')
            end
      end.

Definition call_operation (self : SwaggerClientObj) (operation_id : string)
      (params : option ref) (raw_response : bool) : OM pyval :=
      rq <- build_request self operation_id params ;;
      retry_loop self rq raw_response
                 (seq 0 (Z.to_nat (max_retries (fields self)))) None.

    Close Scope m_scope.
  End Objects.

  (** The objects below [n] are the same in [h'] as in [h]. *)
Definition kept (n : nat) (h h' : heap) : Prop :=
    (List.length h <= List.length h')%nat /\
    forall r : ref, (r < n)%nat -> nth r h' [] = nth r h [].

  (** Every object that exists in [h] is the same in [h']. *)
Definition unchanged (h h' : heap) : Prop := kept (List.length h) h h'.

  (** Running [c] keeps the objects below [n]; a returned value
      satisfies [Q]. *)
Definition keeps {St A : Type} (n : nat) (c : @OM St A) (Q : A -> Prop)
    : Prop :=
    forall (h : heap) (w : World St),
      (n <= List.length h)%nat ->
      kept n h (fst (snd (c (h, w)))) /\
      match fst (c (h, w)) with
      | Ok a => Q a
      | Raise _ => True
      end.

  (** The pure client and caller map that a client object and a
      reference stand for in a store. *)
Definition client_in (h : heap) (self : SwaggerClientObj) (c : SwaggerClient)
    : Prop :=
    (auth_params_ref self < List.length h)%nat /\
    (auth_headers_ref self < List.length h)%nat /\
    c = {| spec := spec (fields self);
           base_url := base_url (fields self);
           auth_params := nth (auth_params_ref self) h [];
           auth_headers := header_values (nth (auth_headers_ref self) h []);
           timeout := timeout (fields self);
           verify_ssl := verify_ssl (fields self);
           max_retries := max_retries (fields self);
           retry_delay := retry_delay (fields self);
           _operations := _operations (fields self) |} /\
    nth (auth_headers_ref self) h []
      = header_object (header_values (nth (auth_headers_ref self) h [])).

Definition params_in (h : heap) (params : option ref)
    : option (dict pyval) :=
    match params with
    | Some r => Some (nth r h [])
    | None => None
    end.

  (** The request of the value embedding that a request object stands
      for in a store. *)
Definition request_in (h : heap) (rqo : request_o) (rq : request) : Prop :=
    (rqo_headers rqo < List.length h)%nat /\
    rq = {| rq_method := rqo_method rqo; rq_url := rqo_url rqo;
            rq_headers := header_values (nth (rqo_headers rqo) h []);
            rq_body := rqo_body rqo;
            rq_content_type := rqo_content_type rqo |}.

  (** Two runs end the same way: both return, with related values, or
      both raise the same exception. *)
Definition same_outcome {A B : Type} (R : A -> B -> Prop)
    (o : Res A) (v : Res B) : Prop :=
    match o, v with
    | Ok a, Ok b => R a b
    | Raise e, Raise e' => e = e'
    | _, _ => False
    end.

  (** A loop body that reads the object [p] and accumulates into the
      object [q] the way [body] does on values. *)
Definition accumulates {St A : Type} (p q : ref)
    (body_o : unit -> A -> @OM St unit)
    (body : dict pyval -> dict pyval -> A -> Res (dict pyval)) : Prop :=
    forall x h (w : World St),
      (q < List.length h)%nat -> p <> q ->
      body_o tt x (h, w)
      = match body (nth p h []) (nth q h []) x with
        | Ok acc => (Ok tt, (update_nth q (fun _ => acc) h, w))
        | Raise e => (Raise e, (h, w))
        end.

End swagger_client_objects.

(* ================================================================== *)
(** * Further inputs for closed statements *)
(* ================================================================== *)

Module examples3.
  Import store_example.

  (** [coolify_private_key] asked to clear the description of the key
      [deploy]. *)
Definition clear_description : coolify_private_key.params :=
    {| coolify_private_key.api_url := "http://localhost:8000/api/v1";
       coolify_private_key.p_api_token := "token";
       coolify_private_key.state := "present";
       coolify_private_key.name := "deploy";
       coolify_private_key.description := Some "";
       coolify_private_key.private_key := None;
       coolify_private_key.private_key_file := None;
       coolify_private_key.uuid := None;
       coolify_private_key.p_timeout := 30;
       coolify_private_key.p_verify_ssl := true |}.

  (** The key [deploy] as the remote end lists it. *)
Definition deploy_key : pyval :=
    PDict [("uuid", PStr "id-0"); ("name", PStr "deploy");
           ("description", PStr "CI key")].

Definition one_key : World (list pyval) :=
    {| remote := [deploy_key]; log := [] |}.

  (** No file is read. *)
Definition no_file (path : string) : string + string :=
    inr "No such file or directory".

End examples3.

Module examples4.

  (** An API that answers every call with the same listing. *)
Definition listing_api (listing : pyval) : swagger_coolify_api.Api unit :=
    fun s _ _ => (Ok listing, s).

Definition web_project : pyval :=
    PDict [("uuid", PStr "p-1"); ("name", PStr "web")].

Definition build_server : pyval :=
    PDict [("uuid", PStr "s-1"); ("name", PStr "build");
           ("ip", PStr "10.0.0.5")].

  (** The body of a 401 answer. *)
Definition unauthenticated : pyval :=
    PDict [("message", PStr "Unauthenticated.")].

Definition quiet_world : World unit := {| remote := tt; log := [] |}.

End examples4.

Module wrapper_props2.
  (** The requests of a run from [w] to [w']: the [lookup], and then at
      most one more request, one that [allowed] admits. *)
Definition sends_lookup_then {St : Type} (w w' : World St)
    (lookup : http_request) (allowed : http_request -> Prop) : Prop :=
    log w' = (log w ++ [Sent lookup])%list \/
    exists q, log w' = (log w ++ [Sent lookup; Sent q])%list /\ allowed q.
End wrapper_props2.

Module examples5.
Definition server_present : coolify_server.params :=
    {| coolify_server.api_url := "http://localhost:8000/api/v1";
       coolify_server.p_api_token := "token";
       coolify_server.state := "present";
       coolify_server.name := "build";
       coolify_server.ip := Some "192.168.1.20";
       coolify_server.private_key_uuid := Some "k-9";
       coolify_server.port := 2222;
       coolify_server.user := "deploy";
       coolify_server.description := Some "moved";
       coolify_server.is_build_server := true;
       coolify_server.uuid := None;
       coolify_server.p_timeout := 30;
       coolify_server.p_verify_ssl := true |}.

  (** The server [build] as the remote end lists it, at another address. *)
Definition listed_server : pyval :=
    PDict [("uuid", PStr "s-1"); ("name", PStr "build");
           ("ip", PStr "10.0.0.5"); ("port", PInt 22)].

Definition one_server : World (list pyval) :=
    {| remote := [listed_server]; log := [] |}.
Definition app_present : coolify_application.params :=
    {| coolify_application.api_url := "http://localhost:8000/api/v1";
       coolify_application.p_api_token := "token";
       coolify_application.state := "present";
       coolify_application.uuid := None;
       coolify_application.name := Some "shop";
       coolify_application.application_type := Some "public";
       coolify_application.project_uuid := Some "p-1";
       coolify_application.server_uuid := Some "s-1";
       coolify_application.environment_name := None;
       coolify_application.environment_uuid := None;
       coolify_application.description := None;
       coolify_application.git_repository := Some "https://example.org/shop";
       coolify_application.git_branch := Some "main";
       coolify_application.build_pack := Some "nixpacks";
       coolify_application.ports_exposes := Some "3000";
       coolify_application.domains := None;
       coolify_application.dockerfile := None;
       coolify_application.docker_registry_image_name := None;
       coolify_application.docker_registry_image_tag := None;
       coolify_application.docker_compose_raw := None;
       coolify_application.instant_deploy := false;
       coolify_application.delete_configurations := true;
       coolify_application.delete_volumes := true;
       coolify_application.p_timeout := 30;
       coolify_application.p_verify_ssl := true |}.

  (** The same invocation with another [state]. *)
Definition app_in_state (state : string) : coolify_application.params :=
    {| coolify_application.api_url := coolify_application.api_url app_present;
       coolify_application.p_api_token := "token";
       coolify_application.state := state;
       coolify_application.uuid := None;
       coolify_application.name := Some "shop";
       coolify_application.application_type := Some "public";
       coolify_application.project_uuid := Some "p-1";
       coolify_application.server_uuid := Some "s-1";
       coolify_application.environment_name := None;
       coolify_application.environment_uuid := None;
       coolify_application.description := None;
       coolify_application.git_repository := Some "https://example.org/shop";
       coolify_application.git_branch := Some "main";
       coolify_application.build_pack := Some "nixpacks";
       coolify_application.ports_exposes := Some "3000";
       coolify_application.domains := None;
       coolify_application.dockerfile := None;
       coolify_application.docker_registry_image_name := None;
       coolify_application.docker_registry_image_tag := None;
       coolify_application.docker_compose_raw := None;
       coolify_application.instant_deploy := false;
       coolify_application.delete_configurations := true;
       coolify_application.delete_volumes := true;
       coolify_application.p_timeout := 30;
       coolify_application.p_verify_ssl := true |}.

Definition listed_app : pyval :=
    PDict [("uuid", PStr "a-1"); ("name", PStr "shop");
           ("project_uuid", PStr "p-1"); ("git_branch", PStr "legacy");
           ("status", PStr "running")].

Definition one_app : World (list pyval) :=
    {| remote := [listed_app]; log := [] |}.

Definition database_absent : coolify_database.params :=
    {| coolify_database.api_url := "http://localhost:8000/api/v1";
       coolify_database.p_api_token := "token";
       coolify_database.state := "absent";
       coolify_database.uuid := None;
       coolify_database.name := Some "orders";
       coolify_database.database_type := Some "postgresql";
       coolify_database.project_uuid := Some "p-1";
       coolify_database.server_uuid := Some "s-1";
       coolify_database.environment_name := None;
       coolify_database.environment_uuid := None;
       coolify_database.description := None;
       coolify_database.image := None;
       coolify_database.is_public := false;
       coolify_database.public_port := None;
       coolify_database.postgres_user := None;
       coolify_database.postgres_password := None;
       coolify_database.postgres_db := None;
       coolify_database.mysql_root_password := None;
       coolify_database.mysql_user := None;
       coolify_database.mysql_password := None;
       coolify_database.mysql_database := None;
       coolify_database.redis_password := None;
       coolify_database.mongo_initdb_root_username := None;
       coolify_database.mongo_initdb_root_password := None;
       coolify_database.limits_memory := None;
       coolify_database.limits_cpus := None;
       coolify_database.delete_configurations := true;
       coolify_database.delete_volumes := true;
       coolify_database.p_timeout := 30;
       coolify_database.p_verify_ssl := true |}.

Definition service_present : coolify_service.params :=
    {| coolify_service.api_url := "http://localhost:8000/api/v1";
       coolify_service.p_api_token := "token";
       coolify_service.state := "present";
       coolify_service.uuid := None;
       coolify_service.name := Some "mail";
       coolify_service.service_type := Some "mailpit";
       coolify_service.project_uuid := Some "p-1";
       coolify_service.server_uuid := Some "s-1";
       coolify_service.environment_name := None;
       coolify_service.environment_uuid := None;
       coolify_service.description := None;
       coolify_service.docker_compose_raw := None;
       coolify_service.instant_deploy := false;
       coolify_service.connect_to_docker_network := false;
       coolify_service.delete_configurations := true;
       coolify_service.delete_volumes := true;
       coolify_service.p_timeout := 30;
       coolify_service.p_verify_ssl := true |}.

Definition listed_service : pyval :=
    PDict [("uuid", PStr "v-1"); ("name", PStr "mail")].

Definition one_service : World (list pyval) :=
    {| remote := [listed_service]; log := [] |}.

  (** [coolify_project] asked for the project [web] with a description. *)
Definition project_described : coolify_project.params :=
    {| coolify_project.api_url := "http://localhost:8000/api/v1";
       coolify_project.p_api_token := "token";
       coolify_project.state := "present";
       coolify_project.name := "web";
       coolify_project.description := Some "The shop";
       coolify_project.uuid := None;
       coolify_project.environments := None;
       coolify_project.p_timeout := 30;
       coolify_project.p_verify_ssl := true |}.

Definition listed_project : pyval :=
    PDict [("uuid", PStr "id-0"); ("name", PStr "web");
           ("description", PStr "The shop")].

Definition one_project : World (list pyval) :=
    {| remote := [listed_project]; log := [] |}.

  (** [coolify_private_key] asked for the key [deploy], saying nothing
      of its description. *)
Definition key_present : coolify_private_key.params :=
    {| coolify_private_key.api_url := "http://localhost:8000/api/v1";
       coolify_private_key.p_api_token := "token";
       coolify_private_key.state := "present";
       coolify_private_key.name := "deploy";
       coolify_private_key.description := None;
       coolify_private_key.private_key := Some "-----BEGIN-----";
       coolify_private_key.private_key_file := None;
       coolify_private_key.uuid := None;
       coolify_private_key.p_timeout := 30;
       coolify_private_key.p_verify_ssl := true |}.
End examples5.

Module examples6.

  (** A remote end that lists what it holds and answers every other
      request with an empty object. *)
Definition obliging : Network (list pyval) :=
    {| requests_request := fun s _ => (ReqConnectionError "refused", s);
       urlopen := fun s r =>
         if (req_method r =? "GET")%string
         then (UrlResponse 200 (python.dumps (PList s)) [], s)
         else (UrlResponse 200 "{}" [], s) |}.
End examples6.

Module examples7.
  Import swagger_client examples.

  (** The same client at another base URL. *)
Definition at_base_url (self : SwaggerClient) (url : string) : SwaggerClient :=
    {| spec := spec self; base_url := url;
       auth_params := auth_params self; auth_headers := auth_headers self;
       timeout := timeout self; verify_ssl := verify_ssl self;
       max_retries := max_retries self; retry_delay := retry_delay self;
       _operations := _operations self |}.

  (** The demo client with [retry_delay=-1]. *)
Definition negative_delay_client : SwaggerClient :=
    {| spec := demo_spec; base_url := "http://localhost:8000/api/v1";
       auth_params := []; auth_headers := []; timeout := 30;
       verify_ssl := true; max_retries := 3; retry_delay := -1;
       _operations := demo_operations |}.
End examples7.

Module examples8.
  (** [coolify_api] asked for [delete-project-by-uuid]. *)
Definition delete_task : library_coolify_api.params :=
    {| library_coolify_api.api_url := "http://localhost:8000/api/v1";
       library_coolify_api.p_api_token := "token";
       library_coolify_api.operation := "delete-project-by-uuid";
       library_coolify_api.p_params := [("uuid", PStr "p-404")];
       library_coolify_api.p_timeout := 30;
       library_coolify_api.p_verify_ssl := true |}.

  (** The body of a 404 answer. *)
Definition not_found_answer : pyval :=
    PDict [("message", PStr "Project not found.")].

  (** A constructor whose client answers every call with [answer]. *)
Definition answering (answer : pyval) (base_url api_token : string)
    (timeout : Z) (verify_ssl : bool) : Res (swagger_coolify_api.Api unit) :=
    Ok (examples4.listing_api answer).
End examples8.

Module examples9.

End examples9.

(* ================================================================== *)
(** * Properties *)
(* ================================================================== *)

Unset Implicit Arguments.
Open Scope list_scope.

Import swagger_client client_props.

Section ClientFacts.
  Variable rt : PyRuntime.
  Context {St : Type} (nw : Network St).
  Variable HAS_REQUESTS : bool.







Lemma call_operation_built (self : SwaggerClient) (operation_id : string)
        (params : option (dict pyval)) (raw : bool) (rq : request)
        (w : World St) :
    build_request rt self operation_id params = Ok rq ->
    call_operation rt nw HAS_REQUESTS self operation_id params raw w =
    retry_loop rt nw HAS_REQUESTS self rq raw
               (seq 0 (Z.to_nat (max_retries self))) None w.
  Proof.
    intros H. unfold call_operation, bind, lift. rewrite H. reflexivity.
  Qed.

Lemma call_operation_not_built (self : SwaggerClient) (operation_id : string)
        (params : option (dict pyval)) (raw : bool) (e : exn) (w : World St) :
    build_request rt self operation_id params = Raise e ->
    call_operation rt nw HAS_REQUESTS self operation_id params raw w =
    (Raise e, w).
  Proof.
    intros H. unfold call_operation, bind, lift. rewrite H. reflexivity.
  Qed.
End ClientFacts.

Import examples examples2.
Lemma demo_client_init (base : string) :
  __init__ demo_spec base [] [] 30 true 3 1 = Ok (demo_client base).
Proof. reflexivity. Qed.

(** ** C4: unknown operation identifiers *)

(** C4.  When the operation identifier is absent from the operation
    index, [get_operation] raises the operation-not-found error, whose
    message lists the first ten identifiers of the index (and no more);
    [call_operation] raises that same error and leaves the world as it
    was: nothing is sent, nothing is slept. *)
Theorem C4_unknown_operation
        (rt : PyRuntime) {St : Type} (nw : Network St) (HAS_REQUESTS : bool)
        (self : SwaggerClient) (operation_id : string)
        (params : option (dict pyval)) (raw_response : bool) (w : World St) :
  dget operation_id (_operations self) = None ->
  let listed := firstn 10 (list_operations self) in
  let msg := ("Operation '" ++ operation_id ++ "' not found. " ++
              "Available operations: " ++ join ", " listed ++ "...")%string in
  get_operation self operation_id = Raise (SwaggerClientError msg) /\
  call_operation rt nw HAS_REQUESTS self operation_id params raw_response w
    = (Raise (SwaggerClientError msg), w) /\
  (List.length listed <= 10)%nat /\
  (exists others, list_operations self = listed ++ others).
Proof.
  intros Habsent listed msg.
  assert (Hget : get_operation self operation_id
                 = Raise (SwaggerClientError msg)).
  { unfold get_operation. rewrite Habsent. reflexivity. }
  split; [exact Hget|]. split.
  - apply call_operation_not_built. unfold build_request.
    rewrite Hget. reflexivity.
  - split.
    + subst listed. rewrite length_firstn. lia.
    + exists (skipn 10 (list_operations self)). subst listed.
      symmetry. apply firstn_skipn.
Qed.

Lemma C4_unknown_operation_witness :
  dget "no-such-operation" (_operations (demo_client "http://localhost:8000/api/v1")) = None /\
  call_operation python.runtime (scripted [] []) false
                 (demo_client "http://localhost:8000/api/v1")
                 "no-such-operation" None false fresh_world
  = (Raise (SwaggerClientError
      "Operation 'no-such-operation' not found. Available operations: list-projects, create-project, get-project-by-uuid, declared-with-hyphen, declared-with-underscore, form-and-json..."),
     fresh_world).
Proof.
  split; [reflexivity|].
  exact (proj1 (proj2 (C4_unknown_operation python.runtime (scripted [] []) false
                         (demo_client "http://localhost:8000/api/v1")
                         "no-such-operation" None false fresh_world
                         eq_refl))).
Defined.

(** ** C2: retry with exponential back-off *)



(** ** C3: an HTTP response, whatever its status, is returned *)



(** ** Dictionaries *)






(** ** C1: which caller key a declared parameter is resolved from *)

Section NameResolution.
  Variable rt : PyRuntime.

Lemma getitem_params (params : dict pyval) (k : string) (v : pyval) :
    dget k params = Some v -> py_getitem (PDict params) k = Ok v.
  Proof. intros H. simpl. rewrite H. reflexivity. Qed.

Lemma subst_path_param_resolution (params : dict pyval) (path : string)
        (d : dict pyval) (n : string) :
    dget "in" d = Some (PStr "path") ->
    dget "name" d = Some (PStr n) ->
    subst_path_param rt params path (PDict d)
    = Ok (match caller_value params n with
          | Some v => replace ("{" ++ n ++ "}") (py_str rt v) path
          | None => path
          end).
  Proof.
    intros Hin Hname. unfold subst_path_param, caller_value, dmem. simpl.
    rewrite Hin, Hname. simpl.
    destruct (dget (replace "-" "_" n) params) as [v |]; [reflexivity|].
    destruct (dget n params) as [v |]; reflexivity.
  Qed.

Lemma add_query_param_resolution (params query_params : dict pyval)
        (d : dict pyval) (n : string) :
    dget "in" d = Some (PStr "query") ->
    dget "name" d = Some (PStr n) ->
    add_query_param params query_params (PDict d)
    = Ok (match caller_value params n with
          | Some v => if is_None v then query_params
                      else dset n v query_params
          | None => query_params
          end).
  Proof.
    intros Hin Hname. unfold add_query_param, caller_value, dmem. simpl.
    rewrite Hin, Hname. simpl.
    destruct (dget (replace "-" "_" n) params) as [v |]; simpl.
    - destruct (is_None v); reflexivity.
    - destruct (dget n params) as [v |]; simpl; [|reflexivity].
      destruct (is_None v); reflexivity.
  Qed.

Lemma add_form_field_resolution (params form_data : dict pyval)
        (n : string) (schema : pyval) :
    add_form_field params form_data (n, schema)
    = Ok (match caller_value params n with
          | Some v => if (is_None v || is_False v)%bool then form_data
                      else dset n v form_data
          | None => form_data
          end).
  Proof.
    unfold add_form_field, caller_value, dmem. simpl.
    destruct (dget (replace "-" "_" n) params) as [v |]; simpl.
    - destruct (is_None v), (is_False v); reflexivity.
    - destruct (dget n params) as [v |]; simpl; [|reflexivity].
      destruct (is_None v), (is_False v); reflexivity.
  Qed.
End NameResolution.

(** C1, as the code has it.  For a declared parameter named [n], each of
    the three places that resolve names (path placeholders, query
    parameters, form-body fields) takes the caller's value from
    [caller_value]: the caller's key [n] with hyphens turned into
    underscores is tried first and the key [n] itself second; no other
    key is tried.  So [project_uuid] resolves a parameter declared as
    [project-uuid] (and wins over a [project-uuid] key given as well),
    while a parameter declared without hyphens is looked up under its
    own name only: [project-uuid] does not resolve [project_uuid]. *)
Theorem C1_name_resolution_order
        (rt : PyRuntime) (params : dict pyval) (d : dict pyval) (n : string) :
  dget "name" d = Some (PStr n) ->
  (dget "in" d = Some (PStr "path") ->
   forall path : string,
     subst_path_param rt params path (PDict d)
     = Ok (match caller_value params n with
           | Some v => replace ("{" ++ n ++ "}") (py_str rt v) path
           | None => path
           end))
  /\
  (dget "in" d = Some (PStr "query") ->
   forall query_params : dict pyval,
     add_query_param params query_params (PDict d)
     = Ok (match caller_value params n with
           | Some v => if is_None v then query_params
                       else dset n v query_params
           | None => query_params
           end))
  /\
  (forall (schema : pyval) (form_data : dict pyval),
     add_form_field params form_data (n, schema)
     = Ok (match caller_value params n with
           | Some v => if (is_None v || is_False v)%bool then form_data
                       else dset n v form_data
           | None => form_data
           end))
  /\
  (caller_value params n
   = match dget (replace "-" "_" n) params with
     | Some v => Some v
     | None => dget n params
     end)
  /\
  (replace "-" "_" n = n -> caller_value params n = dget n params)
  /\
  (forall v : pyval,
     caller_value [("project_uuid", v)] "project-uuid" = Some v /\
     caller_value [("project-uuid", v)] "project_uuid" = None)
  /\
  (forall v1 v2 : pyval,
     caller_value [("project-uuid", v1); ("project_uuid", v2)] "project-uuid"
     = Some v2).
Proof.
  intros Hname. repeat split.
  - intros Hin path. apply subst_path_param_resolution; assumption.
  - intros Hin q. apply add_query_param_resolution; assumption.
  - intros schema fd. apply add_form_field_resolution.
  - intros Hn. unfold caller_value. rewrite Hn.
    destruct (dget n params); reflexivity.
Qed.

Lemma C1_name_resolution_order_witness :
  subst_path_param python.runtime [("project_uuid", PStr "abc")]
                   "/hyphen/{project-uuid}"
                   (PDict [("name", PStr "project-uuid"); ("in", PStr "path")])
  = Ok "/hyphen/abc".
Proof.
  exact (proj1 (C1_name_resolution_order python.runtime
                  [("project_uuid", PStr "abc")]
                  [("name", PStr "project-uuid"); ("in", PStr "path")]
                  "project-uuid" eq_refl)
               eq_refl "/hyphen/{project-uuid}").
Defined.

(** C1 as stated fails: a parameter declared as [project_uuid] is not
    resolved by the caller's key [project-uuid] (the placeholder stays in
    the URL), and when both spellings are supplied for a parameter
    declared as [project-uuid] the underscore key is taken, not the
    original name. *)
Lemma C1_counterexample :
  build_request python.runtime local_client "declared-with-underscore"
                (Some [("project-uuid", PStr "abc")])
  = Ok {| rq_method := "GET";
          rq_url := "http://localhost:8000/api/v1/underscore/{project_uuid}";
          rq_headers := [("Accept", "application/json")];
          rq_body := None; rq_content_type := "application/json" |}
  /\
  build_request python.runtime local_client "declared-with-hyphen"
                (Some [("project-uuid", PStr "original");
                       ("project_uuid", PStr "converted")])
  = Ok {| rq_method := "GET";
          rq_url := "http://localhost:8000/api/v1/hyphen/converted";
          rq_headers := [("Accept", "application/json")];
          rq_body := None; rq_content_type := "application/json" |}.
Proof. split; reflexivity. Qed.

(** ** C6: JSON request bodies *)

Section RequestBody.
  Variable rt : PyRuntime.

Lemma declares_content (encoding : string) (rb : pyval) :
    declares encoding rb = true ->
    exists d c, rb = PDict d /\ dget "content" d = Some (PDict c) /\
                dmem encoding c = true.
  Proof.
    unfold declares. destruct rb as [| | | | |d]; try discriminate.
    destruct (dget "content" d) as [[| | | | |c] |] eqn:E; try discriminate.
    intros H. exists d, c. auto.
  Qed.

Lemma build_request_body_json (self : SwaggerClient) (info : operation_info)
        (params : dict pyval) :
    declares JSON (info_request_body info) = true ->
    declares FORM (info_request_body info) = false ->
    _build_request_body rt self info params
    = Ok (Some (json_dumps rt (PDict params)), JSON).
  Proof.
    intros HJ HF. destruct (declares_content _ _ HJ) as (d & c & Hrb & Hc & Hm).
    unfold declares in HF. rewrite Hrb, Hc in HF.
    unfold _build_request_body. rewrite Hrb.
    assert (Ht : truthy (PDict d) = true).
    { destruct d; [discriminate | reflexivity]. }
    rewrite Ht. simpl. rewrite Hc. simpl. rewrite HF. simpl. rewrite Hm.
    reflexivity.
  Qed.

Lemma build_request_inv (self : SwaggerClient) (operation_id : string)
        (params : option (dict pyval)) (rq : request) :
    build_request rt self operation_id params = Ok rq ->
    exists info path query_params body content_type,
      get_operation self operation_id = Ok info /\
      for_each (subst_path_param rt (params_or_empty params))
               (info_parameters info) (info_path info) = Ok path /\
      for_each (add_query_param (params_or_empty params))
               (info_parameters info) (auth_params self) = Ok query_params /\
      _build_request_body rt self info (params_or_empty params)
        = Ok (body, content_type) /\
      rq_method rq = info_method info /\
      rq_url rq = (match query_params with
                   | [] => rstrip "/" (base_url self) ++ path
                   | _ => (rstrip "/" (base_url self) ++ path) ++ "?" ++
                          urlencode rt query_params
                   end)%string /\
      rq_headers rq = dset "Accept" "application/json" (auth_headers self) /\
      rq_content_type rq = content_type /\
      ((content_type =? FORM)%string = false -> rq_body rq = body).
  Proof.
    unfold build_request. intros H.
    destruct (get_operation self operation_id) as [info | e] eqn:E1;
      [|discriminate].
    simpl in H.
    destruct (for_each (subst_path_param rt (params_or_empty params))
                       (info_parameters info) (info_path info))
      as [path | e] eqn:E2; [|discriminate].
    simpl in H.
    destruct (for_each (add_query_param (params_or_empty params))
                       (info_parameters info) (auth_params self))
      as [q | e] eqn:E3; [|discriminate].
    simpl in H.
    destruct (_build_request_body rt self info (params_or_empty params))
      as [[b ct] | e] eqn:E4; [|discriminate].
    simpl in H. inversion H; subst; clear H. simpl.
    exists info, path, q, b, ct.
    do 4 (split; [assumption || reflexivity|]). split; [reflexivity|].
    split; [destruct q; reflexivity|].
    split; [reflexivity|]. split; [reflexivity|].
    intros Hct. rewrite Hct. reflexivity.
  Qed.
End RequestBody.

(** C6, as the code has it.  When the request body of an operation
    declares the JSON encoding and does not declare the form encoding,
    the body that is built is [json.dumps] of the whole caller map (the
    empty map when the caller gave none), whatever the schema lists, with
    content type [application/json]; this holds for [_build_request_body]
    and for every request [call_operation] builds.  Scenario: for an
    operation [create-project] indexed at [/projects] with such a body,
    no declared parameters and no client-level query parameters, the
    request for [{name: "my-app", description: "demo"}] has the URL
    [<base>/projects] and the body [json.dumps] of exactly that map. *)
Theorem C6_json_body_verbatim
        (rt : PyRuntime) (self : SwaggerClient) (operation_id : string)
        (info : operation_info) :
  get_operation self operation_id = Ok info ->
  declares JSON (info_request_body info) = true ->
  declares FORM (info_request_body info) = false ->
  (forall params : dict pyval,
     _build_request_body rt self info params
     = Ok (Some (json_dumps rt (PDict params)), JSON))
  /\
  (forall (params : option (dict pyval)) (rq : request),
     build_request rt self operation_id params = Ok rq ->
     rq_body rq = Some (json_dumps rt (PDict (params_or_empty params))) /\
     rq_content_type rq = JSON)
  /\
  (operation_id = "create-project" ->
   info_path info = "/projects" ->
   info_parameters info = [] ->
   auth_params self = [] ->
   build_request rt self "create-project"
                 (Some [("name", PStr "my-app"); ("description", PStr "demo")])
   = Ok {| rq_method := info_method info;
           rq_url := (rstrip "/" (base_url self) ++ "/projects")%string;
           rq_headers := dset "Accept" "application/json" (auth_headers self);
           rq_body := Some (json_dumps rt
                              (PDict [("name", PStr "my-app");
                                      ("description", PStr "demo")]));
           rq_content_type := JSON |}).
Proof.
  intros Hop HJ HF. split; [|split].
  - intros params. apply build_request_body_json; assumption.
  - intros params rq Hrq.
    destruct (build_request_inv rt _ _ _ _ Hrq)
      as (info' & path & q & b & ct & Hop' & _ & _ & Hbody & _ & _ & _ & Hct & Hb).
    rewrite Hop in Hop'. inversion Hop'; subst info'.
    rewrite (build_request_body_json rt self info _ HJ HF) in Hbody.
    assert (Hb' : b = Some (json_dumps rt (PDict (params_or_empty params))))
      by congruence.
    assert (Hct' : ct = JSON) by congruence.
    split; [rewrite Hb; [exact Hb' | rewrite Hct'; reflexivity] | congruence].
  - intros Hid Hpath Hparams Hauth. subst operation_id.
    unfold build_request. rewrite Hop. simpl.
    rewrite Hparams, Hpath, Hauth. simpl.
    rewrite (build_request_body_json rt self info _ HJ HF). simpl.
    reflexivity.
Qed.

Lemma C6_json_body_verbatim_witness :
  build_request python.runtime local_client "create-project"
                (Some [("name", PStr "my-app"); ("description", PStr "demo")])
  = Ok {| rq_method := "POST";
          rq_url := "http://localhost:8000/api/v1/projects";
          rq_headers := [("Accept", "application/json")];
          rq_body := Some my_app_json;
          rq_content_type := "application/json" |}.
Proof.
  exact (proj2 (proj2 (C6_json_body_verbatim python.runtime local_client
                         "create-project"
                         {| info_path := "/projects"; info_method := "POST";
                            info_operation :=
                              PDict [("operationId", PStr "create-project");
                                     ("requestBody", json_body)];
                            info_parameters := [];
                            info_request_body := json_body |}
                         eq_refl eq_refl eq_refl))
               eq_refl eq_refl eq_refl eq_refl).
Defined.

(** C6 as stated fails: the request body of [form-and-json] declares the
    JSON encoding (next to the form encoding), and the body that is built
    is the form encoding of the one schema-listed field, not the JSON
    text of the caller's map. *)
Lemma C6_counterexample :
  exists info,
    get_operation local_client "form-and-json" = Ok info /\
    declares JSON (info_request_body info) = true /\
    _build_request_body python.runtime local_client info
                        [("name", PStr "my-app"); ("description", PStr "demo")]
    = Ok (Some "name=my-app", FORM) /\
    Some "name=my-app"
    <> Some (json_dumps python.runtime
               (PDict [("name", PStr "my-app"); ("description", PStr "demo")])).
Proof.
  eexists. split; [reflexivity|]. split; [reflexivity|].
  split; [reflexivity|]. discriminate.
Qed.

(** ** C7: the operation index *)

Section Indexing.


Lemma in_getitem (item : pyval) (m : string) :
    py_in m item = Ok true ->
    (exists v, py_getitem item m = Ok v) \/
    (exists e, py_getitem item m = Raise e).
  Proof. intros _. destruct (py_getitem item m); eauto. Qed.




End Indexing.

(** Resolution with an empty caller map, and what can go wrong with any. *)
Section Resolution.
  Variable rt : PyRuntime.

Lemma rbind_raise {A B : Type} (c : Res A) (k : A -> Res B) (e : exn) :
    rbind c k = Raise e ->
    c = Raise e \/ exists a, c = Ok a /\ k a = Raise e.
  Proof.
    destruct c; simpl; intros H; [right; eauto | left].
    inversion H; reflexivity.
  Qed.



Lemma py_get_typing o k d e : py_get o k d = Raise e -> typing_error e = true.
  Proof. destruct o; simpl; intros H; inversion H; reflexivity. Qed.
Lemma py_in_typing k o e : py_in k o = Raise e -> typing_error e = true.
  Proof. destruct o; simpl; intros H; inversion H; reflexivity. Qed.
Lemma py_getitem_typing o k e :
    py_getitem o k = Raise e -> typing_error e = true.
  Proof.
    destruct o; simpl; try (intros H; inversion H; reflexivity).
    destruct (dget k d); intros H; inversion H; reflexivity.
  Qed.
Lemma py_items_typing o e : py_items o = Raise e -> typing_error e = true.
  Proof. destruct o; simpl; intros H; inversion H; reflexivity. Qed.
Lemma py_str_self_typing o m e :
    py_str_self o m = Raise e -> typing_error e = true.
  Proof. destruct o; simpl; intros H; inversion H; reflexivity. Qed.
Lemma resolve_ref_typing self ref e :
    _resolve_ref self ref = Raise e -> typing_error e = true.
  Proof.
    unfold _resolve_ref. intros H.
    destruct (py_str_self ref "startswith") as [r | e'] eqn:E; simpl in H.
    - destruct (negb (prefix "#/" r)); discriminate.
    - inversion H; subst. eapply py_str_self_typing; eauto.
  Qed.

  Create HintDb typing.
  #[local] Hint Resolve py_get_typing py_in_typing py_getitem_typing py_items_typing
       py_str_self_typing resolve_ref_typing : typing.












End Resolution.



(** ** C10: the facade helpers turn a CoolifyError into a failed result *)

Import wrapper_props.

Ltac open_lm :=
  cbv beta delta [bind on_world lift set_result get_result ret raise
                  try_except with_result] in *;
  cbn beta iota zeta delta [fst snd] in *.

Ltac split_run H :=
  repeat (match type of H with
          | context [let (_, _) := ?x in _] => destruct x as [[?|?] ?] eqn:?
          | context [match ?x with (_, _) => _ end] =>
              destruct x as [[?|?] ?] eqn:?
          | context [match ?x with Ok _ => _ | Raise _ => _ end] =>
              destruct x as [?|?] eqn:?
          | context [if ?b then _ else _] => destruct b eqn:?
          end; cbn beta iota zeta delta [fst snd] in H).

Ltac close_calls :=
  repeat match goal with
    | H' : (let (_, _) := ?c in _) = _ |- _ =>
        destruct c as [? ?] eqn:?; inversion H'; subst; clear H';
        cbn [fst snd] in *
    end.

Section FacadeFacts.
  Import swagger_coolify_api.
  Context {St : Type} (_client : Api St).

Lemma ensure_server_body_outcome (name ip : string) (pk : pyval)
        (state : string) (kwargs : dict pyval)
        (w : World St) (x : Res unit) (s' : dict pyval * World St) :
    ensure_server_body _client name ip pk state kwargs (ensure_init, w)
      = (x, s') ->
    match x with
    | Ok _ => dget "failed" (fst s') = None
    | Raise _ => fst s' = ensure_init
    end.
  Proof.
    unfold ensure_server_body. open_lm. intros H.
    split_run H; inversion H; subst; clear H; close_calls; reflexivity.
  Qed.

Lemma ensure_project_body_outcome (name : string)
        (state : string) (kwargs : dict pyval)
        (w : World St) (x : Res unit) (s' : dict pyval * World St) :
    ensure_project_body _client name state kwargs (ensure_init, w) = (x, s') ->
    match x with
    | Ok _ => dget "failed" (fst s') = None
    | Raise _ => fst s' = ensure_init
    end.
  Proof.
    unfold ensure_project_body. open_lm. intros H.
    split_run H; inversion H; subst; clear H; close_calls; reflexivity.
  Qed.

Lemma ensured_spec (body : @LM (World St) unit) (w : World St) :
    (forall x s', body (ensure_init, w) = (x, s') ->
                  match x with
                  | Ok _ => dget "failed" (fst s') = None
                  | Raise _ => fst s' = ensure_init
                  end) ->
    (forall m resp w', ensured body w <> (Raise (CoolifyError m resp), w')) /\
    (forall m resp s',
        body (ensure_init, w) = (Raise (CoolifyError m resp), s') ->
        ensured body w = (Ok (error_result m), snd s')) /\
    (forall result w',
        ensured body w = (Ok result, w') ->
        dget "failed" result = Some (PBool true) ->
        dget "changed" result = Some (PBool false) /\
        exists m resp s',
          body (ensure_init, w) = (Raise (CoolifyError m resp), s') /\
          result = error_result m).
  Proof.
    intros Hbody. unfold ensured. open_lm.
    pose proof (Hbody _ _ (surjective_pairing (body (ensure_init, w)))) as Hb.
    clear Hbody.
    destruct (body (ensure_init, w)) as [[[] | e] [r1 w1]] eqn:Eb;
      rename Hb into Hbody; cbn [fst snd] in *.
    - split; [|split].
      + intros m resp w' H. discriminate.
      + intros m resp s' H. discriminate.
      + intros result w' H Hf. inversion H; subst. congruence.
    - subst r1. destruct e; cbn [is_CoolifyError fst snd];
        (split; [|split];
         [ intros m resp w' H; discriminate
         | intros m' resp s' H; inversion H; subst; reflexivity
         | intros result w' H Hf; inversion H; subst;
           try discriminate ]).
      split; [reflexivity|]. eauto.
  Qed.
End FacadeFacts.

(** C10.  [ensure_server] and [ensure_project] never raise a
    [CoolifyError], whatever the underlying client does.  Whenever the
    [try] block raises one with text [m] (from listing, creating or
    deleting), the helper returns the result
    [{changed: False, msg: m, data: None, failed: True}]: at the raise the
    result is still as initialised, so [changed] is [False].  Every
    returned result with [failed = True] is of that form.  In particular
    an error of the listing call gives this result. *)
Theorem C10_ensure_catches_CoolifyError
        {St : Type} (_client : swagger_coolify_api.Api St)
        (name ip : string) (private_key_uuid : pyval) (state : string)
        (kwargs : dict pyval) (w : World St) :
  let server := swagger_coolify_api.ensure_server _client name ip
                  private_key_uuid state kwargs in
  let server_body := swagger_coolify_api.ensure_server_body _client name ip
                       private_key_uuid state kwargs in
  let project := swagger_coolify_api.ensure_project _client name state kwargs in
  let project_body := swagger_coolify_api.ensure_project_body _client name
                        state kwargs in
  ((forall m resp w', server w <> (Raise (CoolifyError m resp), w')) /\
   (forall m resp s',
       server_body (swagger_coolify_api.ensure_init, w)
         = (Raise (CoolifyError m resp), s') ->
       server w = (Ok (error_result m), snd s')) /\
   (forall result w',
       server w = (Ok result, w') ->
       dget "failed" result = Some (PBool true) ->
       dget "changed" result = Some (PBool false) /\
       exists m resp s',
         server_body (swagger_coolify_api.ensure_init, w)
           = (Raise (CoolifyError m resp), s') /\
         result = error_result m) /\
   (forall m resp w1,
       swagger_coolify_api.list_servers _client w
         = (Raise (CoolifyError m resp), w1) ->
       server w = (Ok (error_result m), w1)))
  /\
  ((forall m resp w', project w <> (Raise (CoolifyError m resp), w')) /\
   (forall m resp s',
       project_body (swagger_coolify_api.ensure_init, w)
         = (Raise (CoolifyError m resp), s') ->
       project w = (Ok (error_result m), snd s')) /\
   (forall result w',
       project w = (Ok result, w') ->
       dget "failed" result = Some (PBool true) ->
       dget "changed" result = Some (PBool false) /\
       exists m resp s',
         project_body (swagger_coolify_api.ensure_init, w)
           = (Raise (CoolifyError m resp), s') /\
         result = error_result m) /\
   (forall m resp w1,
       swagger_coolify_api.list_projects _client w
         = (Raise (CoolifyError m resp), w1) ->
       project w = (Ok (error_result m), w1))).
Proof.
  intros server server_body project project_body.
  pose proof (ensured_spec server_body w
                (fun x s' => ensure_server_body_outcome _client name ip
                               private_key_uuid state kwargs w x s'))
    as (S1 & S2 & S3).
  pose proof (ensured_spec project_body w
                (fun x s' => ensure_project_body_outcome _client name
                               state kwargs w x s'))
    as (P1 & P2 & P3).
  split; (split; [assumption | split; [assumption | split; [assumption|]]]).
  - intros m resp w1 Hl.
    apply (S2 m resp (swagger_coolify_api.ensure_init, w1)).
    subst server_body. unfold swagger_coolify_api.ensure_server_body.
    open_lm. rewrite Hl. reflexivity.
  - intros m resp w1 Hl.
    apply (P2 m resp (swagger_coolify_api.ensure_init, w1)).
    subst project_body. unfold swagger_coolify_api.ensure_project_body.
    open_lm. rewrite Hl. reflexivity.
Qed.

Lemma C10_ensure_catches_CoolifyError_witness :
  swagger_coolify_api.ensure_project failing_api "my-app" "present" []
    {| remote := tt; log := [] |}
  = (Ok (error_result "Request timed out"),
     {| remote := tt; log := [Called "list-projects" None] |}).
Proof.
  exact (proj2 (proj2 (proj2 (proj2
           (C10_ensure_catches_CoolifyError failing_api "my-app" "" PNone
              "present" [] {| remote := tt; log := [] |}))))
           "Request timed out" None
           {| remote := tt; log := [Called "list-projects" None] |} eq_refl).
Defined.

(** ** C9: the caller's dictionary is left as it was *)

Module objects_facts.
  Import swagger_client swagger_client_objects.

  Section Frame.
    Variable rt : PyRuntime.
    Context {St : Type} (nw : Network St).
    Variable HAS_REQUESTS : bool.

Lemma kept_refl n h : kept n h h.
    Proof. split; auto. Qed.

Lemma kept_trans n h1 h2 h3 : kept n h1 h2 -> kept n h2 h3 -> kept n h1 h3.
    Proof.
      intros [L1 E1] [L2 E2]. split; [lia|].
      intros r Hr. rewrite E2, E1; auto.
    Qed.

Lemma keeps_ret {A} n (a : A) (Q : A -> Prop) :
      Q a -> keeps (St := St) n (ret a) Q.
    Proof. intros HQ h w Hn. simpl. split; [apply kept_refl | exact HQ]. Qed.

Lemma keeps_raise {A} n e (Q : A -> Prop) :
      keeps (St := St) n (raise e) Q.
    Proof. intros h w Hn. simpl. split; [apply kept_refl | exact I]. Qed.

Lemma keeps_lift {A} n (r : Res A) :
      keeps (St := St) n (lift r) (fun _ => True).
    Proof.
      intros h w Hn. unfold lift. simpl. split; [apply kept_refl|].
      destruct r; exact I.
    Qed.

Lemma keeps_weaken {A} n (c : @OM St A) (Q R : A -> Prop) :
      keeps n c Q -> (forall a, Q a -> R a) -> keeps n c R.
    Proof.
      intros Hc HQR h w Hn. destruct (Hc h w Hn) as [Hk HQ].
      split; [exact Hk|]. destruct (fst (c (h, w))); auto.
    Qed.

Lemma keeps_bind {A B} n (c : @OM St A) (k : A -> @OM St B)
          (Q : A -> Prop) (R : B -> Prop) :
      keeps n c Q -> (forall a, Q a -> keeps n (k a) R) ->
      keeps n (bind c k) R.
    Proof.
      intros Hc Hk h w Hn. unfold bind.
      destruct (Hc h w Hn) as [Hkept HQ].
      destruct (c (h, w)) as [[a | e] [h1 w1]]; cbn [fst snd] in *.
      - destruct (Hk a HQ h1 w1) as [Hkept2 HR]; [destruct Hkept; lia|].
        split; [eapply kept_trans; eauto | exact HR].
      - split; [exact Hkept | exact I].
    Qed.

Lemma keeps_deref n r : keeps n (@deref St r) (fun _ => True).
    Proof. intros h w Hn. simpl. split; [apply kept_refl | exact I]. Qed.

Lemma keeps_new_dict n d : keeps n (@new_dict St d) (fun r => (n <= r)%nat).
    Proof.
      intros h w Hn. simpl. split; [|exact Hn].
      split; [rewrite length_app; lia|].
      intros r Hr. rewrite app_nth1; [reflexivity | lia].
    Qed.

Lemma update_nth_length r f h :
      List.length (update_nth r f h) = List.length h.
    Proof.
      revert r. induction h as [| d t IH]; intros [| r]; simpl; auto.
    Qed.

Lemma update_nth_other r f h r' :
      r' <> r -> nth r' (update_nth r f h) [] = nth r' h [].
    Proof.
      revert r r'. induction h as [| d t IH]; intros [| r] [| r'] Hne; simpl;
        auto; try congruence.
    Qed.

Lemma keeps_setitem n r k v :
      (n <= r)%nat -> keeps n (@setitem St r k v) (fun _ => True).
    Proof.
      intros Hr h w Hn. simpl. split; [|exact I].
      split; [rewrite update_nth_length; lia|].
      intros r' Hr'. apply update_nth_other. lia.
    Qed.

Lemma keeps_on_net {A} n (c : M (World St) A) :
      keeps n (on_net c) (fun _ => True).
    Proof.
      intros h w Hn. unfold on_net. cbn [fst snd].
      destruct (c w) as [x w']. cbn [fst snd]. split; [apply kept_refl|].
      destruct x; exact I.
    Qed.

Lemma keeps_ofold {A B} n (body : B -> A -> @OM St B) (l : list A) :
      (forall acc x, keeps n (body acc x) (fun _ => True)) ->
      forall acc, keeps n (ofold body l acc) (fun _ => True).
    Proof.
      intros Hb. induction l as [| x l IH]; intros acc; simpl.
      - apply keeps_ret. exact I.
      - eapply keeps_bind; [apply Hb | intros a _; apply IH].
    Qed.

Ltac keep_with tac :=
      repeat first
        [ apply keeps_ret; exact I
        | apply keeps_raise
        | apply keeps_lift
        | apply keeps_deref
        | apply keeps_on_net
        | apply keeps_setitem; assumption
        | tac
        | match goal with
          | |- keeps _ (if ?b then _ else _) _ => destruct b
          | |- keeps _ (match ?x with _ => _ end) _ => destruct x
          | |- keeps _ (bind (new_dict _) _) _ =>
              eapply keeps_bind; [ apply keeps_new_dict | intros ? ? ]
          | |- keeps _ (bind _ _) _ =>
              eapply keeps_bind with (Q := fun _ => True); [ | intros ? _ ]
          end ].

Ltac keep := keep_with fail.

Lemma keeps_subst_path_param n params path param :
      keeps n (subst_path_param rt (St := St) params path param)
            (fun _ => True).
    Proof. unfold subst_path_param. keep. Qed.

Lemma keeps_add_query_param n params q u param :
      (n <= q)%nat ->
      keeps n (add_query_param (St := St) params q u param) (fun _ => True).
    Proof. intros Hq. unfold add_query_param. keep. Qed.

Lemma keeps_add_form_field n params fd u prop :
      (n <= fd)%nat ->
      keeps n (add_form_field (St := St) params fd u prop) (fun _ => True).
    Proof. intros Hq. unfold add_form_field. keep. Qed.

Ltac loops :=
      apply keeps_ofold; intros;
      first [ apply keeps_subst_path_param
            | apply keeps_add_query_param; assumption
            | apply keeps_add_form_field; assumption ].

Lemma keeps_build_request_body n self info params :
      keeps n (_build_request_body rt (St := St) self info params)
            (fun _ => True).
    Proof. unfold _build_request_body. keep_with loops. Qed.

Lemma keeps_params_or_empty n params :
      keeps n (params_or_empty (St := St) params) (fun _ => True).
    Proof.
      unfold params_or_empty. destruct params as [r |].
      - keep. eapply keeps_weaken; [apply keeps_new_dict | auto].
      - eapply keeps_weaken; [apply keeps_new_dict | auto].
    Qed.

Lemma keeps_build_request n self operation_id params :
      keeps n (build_request rt (St := St) self operation_id params)
            (fun rq => (n <= rqo_headers rq)%nat).
    Proof.
      unfold build_request.
      eapply keeps_bind; [apply keeps_params_or_empty | intros p _].
      eapply keeps_bind; [apply keeps_lift | intros info _].
      eapply keeps_bind; [loops | intros path _].
      eapply keeps_bind; [apply keeps_deref | intros auth _].
      eapply keeps_bind; [apply keeps_new_dict | intros q Hq].
      eapply keeps_bind; [loops | intros _ _].
      eapply keeps_bind; [apply keeps_deref | intros qd _].
      eapply keeps_bind; [apply keeps_build_request_body | intros bc _].
      eapply keeps_bind; [apply keeps_deref | intros auth' _].
      eapply keeps_bind; [apply keeps_deref | intros hs _].
      eapply keeps_bind; [apply keeps_new_dict | intros hd Hhd].
      eapply keeps_bind; [apply keeps_setitem; exact Hhd | intros _ _].
      apply keeps_ret. exact Hhd.
    Qed.

Lemma keeps_wire n self rq :
      keeps n (wire (St := St) self rq) (fun _ => True).
    Proof. unfold wire. keep. Qed.

Lemma keeps_make_request n self rq :
      keeps n (_make_request nw HAS_REQUESTS self rq) (fun _ => True).
    Proof.
      unfold _make_request.
      eapply keeps_bind; [apply keeps_wire | intros q _]. keep.
    Qed.

Lemma keeps_retry_loop n self rq raw attempts :
      forall last_error,
        keeps n (retry_loop rt nw HAS_REQUESTS self rq raw attempts last_error)
              (fun _ => True).
    Proof.
      induction attempts as [| a rest IH]; intros le; simpl.
      - keep.
      - intros h w Hn.
        destruct (keeps_make_request n self rq h w Hn) as [Hk _].
        destruct (_make_request nw HAS_REQUESTS self rq (h, w))
          as [[r | e] [h1 w1]]; cbn [fst snd] in *.
        + destruct raw; cbn [fst snd]; auto.
        + destruct (is_SwaggerClientError e); cbn [fst snd]; auto.
          destruct (Z.of_nat a <? max_retries (fields self) - 1)%Z;
            cbn [fst snd]; auto.
          assert (Hrest : keeps n
                    (bind (on_net (time_sleep
                             (retry_delay (fields self) * 2 ^ Z.of_nat a)))
                          (fun _ => retry_loop rt nw HAS_REQUESTS self rq raw
                                               rest (Some e)))
                    (fun _ => True)).
          { eapply keeps_bind; [apply keeps_on_net | intros _ _; apply IH]. }
          destruct (Hrest h1 w1) as [Hk2 HQ]; [destruct Hk; lia|].
          split; [eapply kept_trans; eauto | exact HQ].
    Qed.

Lemma keeps_call_operation n self operation_id params raw :
      keeps n (call_operation rt nw HAS_REQUESTS self operation_id params raw)
            (fun _ => True).
    Proof.
      unfold call_operation.
      eapply keeps_bind; [apply keeps_build_request | intros rq _].
      apply keeps_retry_loop.
    Qed.

    (** *** The object embedding computes what the value embedding does *)

Lemma update_nth_same r f h :
      (r < List.length h)%nat -> nth r (update_nth r f h) [] = f (nth r h []).
    Proof.
      revert r. induction h as [| d t IH]; intros [| r] Hr; simpl in *;
        try lia; auto. apply IH. lia.
    Qed.

Lemma update_nth_id r h : update_nth r (fun _ => nth r h []) h = h.
    Proof.
      revert r. induction h as [| d t IH]; intros [| r]; simpl; auto.
      rewrite IH. reflexivity.
    Qed.

Lemma update_nth_at r f h :
      update_nth r f h = update_nth r (fun _ => f (nth r h [])) h.
    Proof.
      revert r. induction h as [| d t IH]; intros [| r]; simpl; auto.
      rewrite IH. reflexivity.
    Qed.

Lemma update_nth_twice r f g h :
      update_nth r g (update_nth r f h) = update_nth r (fun d => g (f d)) h.
    Proof.
      revert r. induction h as [| d t IH]; intros [| r]; simpl; auto.
      rewrite IH. reflexivity.
    Qed.

Lemma subst_path_param_same p path param h (w : World St) :
      subst_path_param rt p path param (h, w)
      = (swagger_client.subst_path_param rt (nth p h []) path param, (h, w)).
    Proof.
      unfold subst_path_param, swagger_client.subst_path_param,
        bind, lift, deref, ret. cbn [fst snd].
      destruct (py_get param "in" PNone) as [loc |]; cbn [rbind fst snd]; auto.
      destruct (eq_str loc "path"); auto.
      destruct (py_getitem param "name") as [name |]; cbn [rbind fst snd]; auto.
      destruct (py_str_self name "replace") as [pn |]; cbn [rbind fst snd]; auto.
      destruct (dmem (replace "-" "_" pn) (nth p h [])).
      - destruct (py_getitem (PDict (nth p h [])) (replace "-" "_" pn));
          cbn [rbind fst snd]; auto.
      - destruct (dmem pn (nth p h [])); auto.
        destruct (py_getitem (PDict (nth p h [])) pn); cbn [rbind fst snd]; auto.
    Qed.

Lemma path_loop_same p l : forall path h (w : World St),
      ofold (subst_path_param rt p) l path (h, w)
      = (for_each (swagger_client.subst_path_param rt (nth p h [])) l path,
         (h, w)).
    Proof.
      induction l as [| x l IH]; intros path h w; simpl.
      - reflexivity.
      - unfold bind. rewrite subst_path_param_same.
        destruct (swagger_client.subst_path_param rt (nth p h []) path x);
          cbn [rbind fst snd]; auto.
    Qed.

Lemma add_query_param_accumulates p q :
      accumulates (St := St) p q (add_query_param p q) swagger_client.add_query_param.
    Proof.
      intros param h w Hq Hpq.
      unfold add_query_param, swagger_client.add_query_param,
        bind, lift, deref, ret, setitem. cbn [fst snd].
      destruct (py_get param "in" PNone) as [loc |]; cbn [rbind fst snd]; auto.
      destruct (eq_str loc "query"); [|rewrite update_nth_id; reflexivity].
      destruct (py_getitem param "name") as [name |]; cbn [rbind fst snd]; auto.
      destruct (py_str_self name "replace") as [pn |]; cbn [rbind fst snd]; auto.
      destruct (dmem (replace "-" "_" pn) (nth p h [])).
      - destruct (py_getitem (PDict (nth p h [])) (replace "-" "_" pn))
          as [v |]; cbn [rbind fst snd]; auto.
        destruct (negb (is_None v)); cbn [fst snd];
          [rewrite update_nth_at | rewrite update_nth_id]; reflexivity.
      - destruct (dmem pn (nth p h [])); [|rewrite update_nth_id; reflexivity].
        destruct (py_getitem (PDict (nth p h [])) pn) as [v |]; cbn [rbind fst snd];
          auto.
        destruct (negb (is_None v)); cbn [fst snd];
          [rewrite update_nth_at | rewrite update_nth_id]; reflexivity.
    Qed.

Lemma add_form_field_accumulates p q :
      accumulates (St := St) p q (add_form_field p q) swagger_client.add_form_field.
    Proof.
      intros prop h w Hq Hpq.
      unfold add_form_field, swagger_client.add_form_field,
        bind, lift, deref, ret, setitem. cbn [fst snd].
      destruct (dmem (replace "-" "_" (fst prop)) (nth p h [])).
      - destruct (py_getitem (PDict (nth p h [])) (replace "-" "_" (fst prop)))
          as [v |]; cbn [rbind fst snd]; auto.
        destruct (negb (is_None v) && negb (is_False v))%bool; cbn [fst snd];
          [rewrite update_nth_at | rewrite update_nth_id]; reflexivity.
      - destruct (dmem (fst prop) (nth p h []));
          [|rewrite update_nth_id; reflexivity].
        destruct (py_getitem (PDict (nth p h [])) (fst prop)) as [v |];
          cbn [rbind fst snd]; auto.
        destruct (negb (is_None v) && negb (is_False v))%bool; cbn [fst snd];
          [rewrite update_nth_at | rewrite update_nth_id]; reflexivity.
    Qed.

Lemma acc_loop_same {A : Type} (p q : ref)
          (body_o : unit -> A -> @OM St unit)
          (body : dict pyval -> dict pyval -> A -> Res (dict pyval)) :
      accumulates (St := St) p q body_o body -> p <> q ->
      forall l h (w : World St),
        (q < List.length h)%nat ->
        exists h',
          ofold body_o l tt (h, w)
          = (match for_each (body (nth p h [])) l (nth q h []) with
             | Ok _ => Ok tt
             | Raise e => Raise e
             end, (h', w)) /\
          List.length h' = List.length h /\
          (forall r, r <> q -> nth r h' [] = nth r h []) /\
          (forall acc, for_each (body (nth p h [])) l (nth q h []) = Ok acc ->
                       nth q h' [] = acc).
    Proof.
      intros Hacc Hpq. induction l as [| x l IH]; intros h w Hq; simpl.
      - exists h. repeat split; auto. intros acc H. inversion H; reflexivity.
      - unfold bind. rewrite (Hacc x h w Hq Hpq).
        destruct (body (nth p h []) (nth q h []) x) as [acc1 | e]; cbn [rbind fst snd].
        + set (h1 := update_nth q (fun _ => acc1) h).
          assert (Hq1 : (q < List.length h1)%nat)
            by (subst h1; rewrite update_nth_length; exact Hq).
          destruct (IH h1 w Hq1) as (h' & Hrun & Hlen & Hother & Hfinal).
          assert (Hp1 : nth p h1 [] = nth p h [])
            by (subst h1; apply update_nth_other; exact Hpq).
          assert (Hq1' : nth q h1 [] = acc1)
            by (subst h1; apply update_nth_same; exact Hq).
          rewrite Hp1, Hq1' in Hrun, Hfinal.
          exists h'. split; [exact Hrun|]. split.
          * rewrite Hlen. subst h1. apply update_nth_length.
          * split; [|exact Hfinal].
            intros r Hr. rewrite (Hother r Hr). subst h1.
            apply update_nth_other. exact Hr.
        + exists h. repeat split; auto. intros acc H. discriminate.
    Qed.

Lemma bind_run {S A B : Type} (c : M S A) (k : A -> M S B) s r s' :
      c s = (r, s') ->
      bind c k s = match r with
                   | Ok a => k a s'
                   | Raise e => (Raise e, s')
                   end.
    Proof. intros H. unfold bind. rewrite H. reflexivity. Qed.

Lemma kept_le n m h h' : kept n h h' -> (m <= n)%nat -> kept m h h'.
    Proof.
      intros (L & V) Hm. split; [exact L |].
      intros r Hr. apply V. lia.
    Qed.

Lemma unchanged_kept h h1 h2 :
      unchanged h h1 -> kept (List.length h1) h1 h2 -> unchanged h h2.
    Proof.
      intros K1 K2. unfold unchanged in *.
      eapply kept_trans; [exact K1 |].
      eapply kept_le; [exact K2 | exact (proj1 K1)].
    Qed.

Lemma kept_alloc h d : kept (List.length h) h (h ++ [d]).
    Proof.
      split.
      - rewrite length_app. simpl. lia.
      - intros r Hr. apply app_nth1. exact Hr.
    Qed.

Lemma nth_alloc (h : heap) d : nth (List.length h) (h ++ [d]) [] = d.
    Proof. rewrite app_nth2 by lia. rewrite Nat.sub_diag. reflexivity. Qed.

Lemma form_fields_same p h (w : World St) schema :
      (p < List.length h)%nat ->
      exists h',
        bind (new_dict []) (fun form_data =>
        bind (lift (py_get schema "properties" (PDict []))) (fun properties =>
        bind (lift (py_items properties)) (fun items =>
        bind (ofold (add_form_field p form_data) items tt) (fun _ =>
        bind (deref form_data) (fun fd =>
        ret (Some (urlencode rt fd), FORM)))))) (h, w)
        = (rbind (py_get schema "properties" (PDict [])) (fun properties =>
           rbind (py_items properties) (fun items =>
           rbind (for_each (swagger_client.add_form_field (nth p h [])) items [])
                 (fun form_data =>
           Ok (Some (urlencode rt form_data), FORM)))), (h', w))
        /\ kept (List.length h) h h'.
    Proof.
      intros Hp.
      unfold bind at 1. unfold new_dict at 1. cbn [fst snd].
      unfold bind at 1. unfold lift at 1.
      destruct (py_get schema "properties" (PDict [])) as [properties |];
        cbn [rbind];
        [| exists (h ++ [[]]); split; [reflexivity | apply kept_alloc]].
      unfold bind at 1. unfold lift at 1.
      destruct (py_items properties) as [items |]; cbn [rbind];
        [| exists (h ++ [[]]); split; [reflexivity | apply kept_alloc]].
      assert (Hq : (List.length h < List.length (h ++ [[]]))%nat)
        by (rewrite length_app; simpl; lia).
      assert (Hpq : p <> List.length h) by lia.
      destruct (acc_loop_same p (List.length h)
                  (add_form_field p (List.length h))
                  swagger_client.add_form_field
                  (add_form_field_accumulates p (List.length h)) Hpq
                  items (h ++ [[]]) w Hq)
        as (h' & Hrun & Hlen & Hother & Hfinal).
      rewrite (app_nth1 h [[]] [] Hp) in Hrun, Hfinal.
      rewrite nth_alloc in Hrun, Hfinal.
      exists h'. split.
      - erewrite bind_run by exact Hrun.
        destruct (for_each (swagger_client.add_form_field (nth p h [])) items [])
          as [acc |]; cbn [rbind]; [| reflexivity].
        unfold bind, deref, ret. cbn [fst snd].
        rewrite (Hfinal acc eq_refl). reflexivity.
      - split.
        + rewrite Hlen, length_app. simpl. lia.
        + intros r Hr. rewrite Hother by lia. apply app_nth1. exact Hr.
    Qed.

Lemma build_request_body_same self c info p h (w : World St) :
      spec c = spec (fields self) ->
      (p < List.length h)%nat ->
      exists h',
        _build_request_body rt self info p (h, w)
        = (swagger_client._build_request_body rt c info (nth p h []), (h', w))
        /\ kept (List.length h) h h'.
    Proof.
      intros Hspec Hp.
      assert (Hres : forall r, _resolve_ref c r = _resolve_ref (fields self) r)
        by (intros r; unfold _resolve_ref; rewrite Hspec; reflexivity).
      unfold _build_request_body, swagger_client._build_request_body.
      destruct (negb (truthy (info_request_body info))).
      { exists h. split; [reflexivity | apply kept_refl]. }
      unfold bind at 1. unfold lift at 1.
      destruct (py_get (info_request_body info) "content" (PDict []))
        as [content |]; cbn [rbind];
        [| exists h; split; [reflexivity | apply kept_refl]].
      unfold bind at 1. unfold lift at 1.
      destruct (py_in FORM content) as [is_form |]; cbn [rbind];
        [| exists h; split; [reflexivity | apply kept_refl]].
      destruct is_form.
      - unfold bind at 1. unfold lift at 1.
        destruct (py_getitem content FORM) as [media |]; cbn [rbind];
          [| exists h; split; [reflexivity | apply kept_refl]].
        unfold bind at 1. unfold lift at 1.
        destruct (py_get media "schema" (PDict [])) as [schema |];
          cbn [rbind];
          [| exists h; split; [reflexivity | apply kept_refl]].
        unfold bind at 1. unfold lift at 1.
        destruct (py_in "$ref" schema) as [has_ref |]; cbn [rbind];
          [| exists h; split; [reflexivity | apply kept_refl]].
        destruct has_ref.
        + unfold bind at 1. unfold bind at 1. unfold lift at 1.
          destruct (py_getitem schema "$ref") as [r |]; cbn [rbind];
            [| exists h; split; [reflexivity | apply kept_refl]].
          unfold bind at 1. unfold lift at 1. rewrite Hres.
          destruct (_resolve_ref (fields self) r) as [resolved |];
            cbn [rbind];
            [| exists h; split; [reflexivity | apply kept_refl]].
          unfold ret at 1.
          exact (form_fields_same p h w
                   (if truthy resolved then resolved else PDict []) Hp).
        + unfold bind at 1. unfold ret at 1.
          exact (form_fields_same p h w schema Hp).
      - unfold bind at 1. unfold lift at 1.
        destruct (py_in JSON content) as [is_json |]; cbn [rbind];
          [| exists h; split; [reflexivity | apply kept_refl]].
        destruct is_json; exists h; (split; [reflexivity | apply kept_refl]).
    Qed.

Lemma header_values_dset k v d :
      header_values (dset k (PStr v) d) = dset k v (header_values d).
    Proof.
      unfold header_values.
      induction d as [| [k' v'] d IH]; simpl; [reflexivity |].
      destruct (k' =? k)%string; simpl; [reflexivity |].
      rewrite IH. reflexivity.
    Qed.

Lemma params_or_empty_same params h (w : World St) :
      (forall r, params = Some r -> (r < List.length h)%nat) ->
      exists p h1,
        params_or_empty params (h, w) = (Ok p, (h1, w)) /\
        (p < List.length h1)%nat /\
        kept (List.length h) h h1 /\
        nth p h1 [] = swagger_client.params_or_empty (params_in h params).
    Proof.
      intros Hparams.
      assert (Hnew : exists p h1,
                 new_dict (St := St) [] (h, w) = (Ok p, (h1, w)) /\
                 (p < List.length h1)%nat /\
                 kept (List.length h) h h1 /\ nth p h1 [] = []).
      { exists (List.length h), (h ++ [[]]). split; [reflexivity |].
        split; [rewrite length_app; simpl; lia |].
        split; [apply kept_alloc | apply nth_alloc]. }
      destruct params as [r |]; simpl; [| exact Hnew].
      unfold bind, deref. cbn [fst snd].
      destruct (nth r h []) as [| kv d] eqn:E; [exact Hnew |].
      exists r, h. split; [reflexivity |].
      split; [apply Hparams; reflexivity |].
      split; [apply kept_refl | exact E].
    Qed.

Lemma build_request_same self c operation_id params h (w : World St) :
      client_in h self c ->
      (forall r, params = Some r -> (r < List.length h)%nat) ->
      exists h' o,
        build_request rt self operation_id params (h, w) = (o, (h', w)) /\
        kept (List.length h) h h' /\
        same_outcome (request_in h') o
          (swagger_client.build_request rt c operation_id (params_in h params)).
    Proof.
      intros (Hap & Hah & Hc & Hhdr) Hparams.
      destruct (params_or_empty_same params h w Hparams)
        as (p & h1 & Hpoe & Hp & K1 & Hpv).
      assert (Hspec : spec c = spec (fields self)) by (subst c; reflexivity).
      assert (Hops : get_operation c operation_id
                     = get_operation (fields self) operation_id)
        by (subst c; reflexivity).
      assert (Hbase : base_url c = base_url (fields self))
        by (subst c; reflexivity).
      assert (Hauth : auth_params c = nth (auth_params_ref self) h [])
        by (subst c; reflexivity).
      assert (Hheaders : auth_headers c
                         = header_values (nth (auth_headers_ref self) h []))
        by (subst c; reflexivity).
      clear Hc.
      unfold build_request, swagger_client.build_request.
      erewrite bind_run by exact Hpoe. cbv beta iota.
      rewrite <- Hpv. rewrite Hops.
      unfold bind at 1. unfold lift at 1.
      destruct (get_operation (fields self) operation_id) as [info |];
        cbn [rbind];
        [| exists h1; eexists; split; [reflexivity |];
           split; [exact K1 | reflexivity]].
      erewrite bind_run by apply path_loop_same.
      destruct (for_each (swagger_client.subst_path_param rt (nth p h1 []))
                         (info_parameters info) (info_path info))
        as [path |]; cbn [rbind];
        [| exists h1; eexists; split; [reflexivity |];
           split; [exact K1 | reflexivity]].
      unfold bind at 1. unfold deref at 1. cbn [fst snd].
      unfold bind at 1. unfold new_dict at 1. cbn [fst snd].
      assert (Ha1 : nth (auth_params_ref self) h1 []
                    = nth (auth_params_ref self) h [])
        by (apply K1; exact Hap).
      rewrite Ha1, <- Hauth.
      set (h2 := (h1 ++ [auth_params c])%list).
      assert (K2 : kept (List.length h1) h1 h2) by apply kept_alloc.
      assert (Hq : (List.length h1 < List.length h2)%nat)
        by (subst h2; rewrite length_app; simpl; lia).
      assert (Hpq : p <> List.length h1) by lia.
      destruct (acc_loop_same p (List.length h1)
                  (add_query_param p (List.length h1))
                  swagger_client.add_query_param
                  (add_query_param_accumulates p (List.length h1)) Hpq
                  (info_parameters info) h2 w Hq)
        as (h3 & Hrun & Hlen3 & Hother3 & Hfinal3).
      assert (Hp2 : nth p h2 [] = nth p h1 [])
        by (subst h2; apply app_nth1; exact Hp).
      assert (Hq2 : nth (List.length h1) h2 [] = auth_params c)
        by (subst h2; apply nth_alloc).
      rewrite Hp2, Hq2 in Hrun, Hfinal3.
      assert (K3 : kept (List.length h1) h2 h3).
      { split; [rewrite Hlen3; lia |].
        intros r Hr. apply Hother3. lia. }
      assert (K03 : unchanged h h3).
      { eapply unchanged_kept; [exact K1 |].
        eapply kept_trans; [exact K2 | exact K3]. }
      erewrite bind_run by exact Hrun.
      destruct (for_each (swagger_client.add_query_param (nth p h1 []))
                         (info_parameters info) (auth_params c))
        as [query |]; cbn [rbind].
      2:{ exists h3. eexists. split; [reflexivity |].
          split; [exact K03 | reflexivity]. }
      unfold bind at 1. unfold deref at 1. cbn [fst snd].
      rewrite (Hfinal3 query eq_refl).
      assert (Hp3 : (p < List.length h3)%nat) by lia.
      destruct (build_request_body_same self c info p h3 w Hspec Hp3)
        as (h4 & Hbody & K4).
      assert (Hpv3 : nth p h3 [] = nth p h1 [])
        by (rewrite Hother3 by lia; exact Hp2).
      rewrite Hpv3 in Hbody.
      assert (K04 : unchanged h h4)
        by (eapply unchanged_kept; [exact K03 | exact K4]).
      unfold unchanged in K04.
      erewrite bind_run by exact Hbody.
      destruct (swagger_client._build_request_body rt c info (nth p h1 []))
        as [[body content_type] |]; cbn [rbind];
        [| exists h4; eexists; split; [reflexivity |];
           split; [exact K04 | reflexivity]].
      unfold bind at 1. unfold deref at 1. cbn [fst snd].
      rewrite (proj2 K04 _ Hap), <- Hauth.
      unfold bind at 1. unfold deref at 1. cbn [fst snd].
      unfold bind at 1. unfold new_dict at 1. cbn [fst snd].
      unfold bind at 1. unfold setitem at 1. cbn [fst snd].
      unfold ret.
      rewrite (proj2 K04 _ Hah).
      set (hs := nth (auth_headers_ref self) h []) in *.
      set (h6 := update_nth (List.length h4)
                   (dset "Accept" (PStr "application/json"))
                   (h4 ++ [hs])%list).
      assert (L6 : List.length h6 = S (List.length h4)).
      { subst h6. rewrite update_nth_length, length_app. simpl. lia. }
      exists h6. eexists. split; [reflexivity |]. split.
      - eapply (unchanged_kept h h4 h6); [exact K04 |].
        split; [lia |].
        intros r Hr. subst h6.
        rewrite update_nth_other by lia.
        apply app_nth1. exact Hr.
      - split; cbn [rqo_headers rqo_method rqo_url rqo_body rqo_content_type].
        + lia.
        + subst h6. rewrite update_nth_same
            by (rewrite length_app; simpl; lia).
          rewrite nth_alloc, header_values_dset, <- Hheaders, Hbase.
          reflexivity.
    Qed.

Lemma request_in_kept h h' rqo rq :
      request_in h rqo rq -> kept (List.length h) h h' -> request_in h' rqo rq.
    Proof.
      intros (Hr & Hrq) (L & V). split; [lia |].
      rewrite (V _ Hr). exact Hrq.
    Qed.

    Section SameClient.
      Variables (self : SwaggerClientObj) (c : SwaggerClient).
      Hypothesis Htimeout : timeout c = timeout (fields self).
      Hypothesis Hverify : verify_ssl c = verify_ssl (fields self).
      Hypothesis Hretries : max_retries c = max_retries (fields self).
      Hypothesis Hdelay : retry_delay c = retry_delay (fields self).

Lemma wire_same rqo rq h (w : World St) :
        request_in h rqo rq ->
        exists h',
          wire self rqo (h, w) = (Ok (swagger_client.wire c rq), (h', w)) /\
          kept (List.length h) h h'.
      Proof.
        intros (Hr & Hrq). subst rq.
        unfold wire, swagger_client.wire.
        cbn [rq_method rq_url rq_headers rq_body rq_content_type].
        unfold bind at 1. unfold deref at 1. cbn [fst snd].
        unfold bind at 1. unfold new_dict at 1. cbn [fst snd].
        rewrite Htimeout, Hverify.
        set (hs := nth (rqo_headers rqo) h []).
        destruct (truthy_body (rqo_body rqo) &&
                  negb (rqo_content_type rqo =? ""))%bool.
        - unfold bind, setitem, deref, ret. cbn [fst snd].
          eexists. split.
          + rewrite update_nth_same by (rewrite length_app; simpl; lia).
            rewrite nth_alloc, header_values_dset. reflexivity.
          + split.
            * rewrite update_nth_length, length_app. simpl. lia.
            * intros r Hlt. rewrite update_nth_other by lia.
              apply app_nth1. exact Hlt.
        - unfold bind, deref, ret. cbn [fst snd].
          eexists. split.
          + rewrite nth_alloc. reflexivity.
          + apply kept_alloc.
      Qed.

Lemma make_request_same rqo rq h (w : World St) :
        request_in h rqo rq ->
        exists h',
          _make_request nw HAS_REQUESTS self rqo (h, w)
          = (fst (swagger_client._make_request nw HAS_REQUESTS c rq w),
             (h', snd (swagger_client._make_request nw HAS_REQUESTS c rq w)))
          /\ kept (List.length h) h h'.
      Proof.
        intros Hin.
        destruct (wire_same rqo rq h w Hin) as (h' & Hwire & K).
        exists h'. split; [| exact K].
        unfold _make_request, swagger_client._make_request,
          _make_request_with_requests, _make_request_with_urllib.
        erewrite bind_run by exact Hwire. cbv beta iota.
        destruct HAS_REQUESTS.
        - unfold bind, on_net, do_requests_request. cbn [fst snd].
          destruct (requests_request nw (remote w) (swagger_client.wire c rq))
            as [o st]. cbn [fst snd].
          destruct o; reflexivity.
        - unfold bind, on_net, do_urlopen. cbn [fst snd].
          destruct (urlopen nw (remote w) (swagger_client.wire c rq))
            as [o st]. cbn [fst snd].
          destruct o as [? ? ? | ? ? ? | reason]; try reflexivity.
          destruct (contains "timed out" (lower reason)); reflexivity.
      Qed.

Lemma retry_loop_same rqo rq raw attempts :
        forall last h (w : World St),
          request_in h rqo rq ->
          exists h',
            retry_loop rt nw HAS_REQUESTS self rqo raw attempts last (h, w)
            = (fst (swagger_client.retry_loop rt nw HAS_REQUESTS c rq raw
                      attempts last w),
               (h', snd (swagger_client.retry_loop rt nw HAS_REQUESTS c rq raw
                           attempts last w)))
            /\ kept (List.length h) h h'.
      Proof.
        induction attempts as [| attempt rest IH]; intros last h w Hin.
        - exists h. split; [| apply kept_refl].
          simpl. destruct last; reflexivity.
        - destruct (make_request_same rqo rq h w Hin) as (h1 & Hmk & K1).
          cbn [retry_loop swagger_client.retry_loop].
          rewrite Hmk.
          destruct (swagger_client._make_request nw HAS_REQUESTS c rq w)
            as [[response | e] w1]. cbn [fst snd].
          + exists h1. split; [| exact K1].
            destruct raw; reflexivity.
          + cbn [fst snd]. rewrite Hretries, Hdelay.
            destruct (is_SwaggerClientError e);
              [| exists h1; split; [reflexivity | exact K1]].
            destruct (Z.of_nat attempt <? max_retries (fields self) - 1)%Z;
              [| exists h1; split; [reflexivity | exact K1]].
            unfold bind, on_net. cbn [fst snd].
            destruct (time_sleep
                        (retry_delay (fields self) * 2 ^ Z.of_nat attempt) w1)
              as [[[] | e2] w2];
              [| exists h1; split; [reflexivity | exact K1]].
            destruct (IH (Some e) h1 w2 (request_in_kept _ _ _ _ Hin K1))
              as (h2 & Hrun & K2).
            exists h2. split.
            * rewrite Hrun. reflexivity.
            * eapply unchanged_kept; [exact K1 | exact K2].
      Qed.
    End SameClient.

Lemma call_operation_same self c operation_id params raw h (w : World St) :
      client_in h self c ->
      (forall r, params = Some r -> (r < List.length h)%nat) ->
      exists h',
        call_operation rt nw HAS_REQUESTS self operation_id params raw (h, w)
        = (fst (swagger_client.call_operation rt nw HAS_REQUESTS c
                  operation_id (params_in h params) raw w),
           (h', snd (swagger_client.call_operation rt nw HAS_REQUESTS c
                       operation_id (params_in h params) raw w)))
        /\ unchanged h h'.
    Proof.
      intros Hc Hparams.
      destruct (build_request_same self c operation_id params h w Hc Hparams)
        as (h1 & o & Hbuild & K1 & Hsame).
      destruct Hc as (_ & _ & Hc & _).
      assert (Htimeout : timeout c = timeout (fields self))
        by (subst c; reflexivity).
      assert (Hverify : verify_ssl c = verify_ssl (fields self))
        by (subst c; reflexivity).
      assert (Hretries : max_retries c = max_retries (fields self))
        by (subst c; reflexivity).
      assert (Hdelay : retry_delay c = retry_delay (fields self))
        by (subst c; reflexivity).
      clear Hc.
      unfold call_operation, swagger_client.call_operation.
      erewrite bind_run by exact Hbuild.
      unfold bind at 1. unfold lift at 1.
      unfold same_outcome in Hsame.
      destruct o as [rqo | e];
        destruct (swagger_client.build_request rt c operation_id
                    (params_in h params)) as [rq | e'];
        try contradiction.
      - destruct (retry_loop_same self c Htimeout Hverify Hretries Hdelay
                    rqo rq raw
                    (seq 0 (Z.to_nat (max_retries (fields self)))) None
                    h1 w Hsame) as (h2 & Hrun & K2).
        exists h2. split.
        + rewrite Hrun, Hretries. reflexivity.
        + eapply unchanged_kept; [exact K1 | exact K2].
      - subst e'. exists h1. split; [reflexivity | exact K1].
    Qed.
  End Frame.
End objects_facts.

(** C9.  [call_operation] never mutates the caller-supplied [params]
    dictionary.  In the embedding where dictionaries are objects of a
    store and [params] is a reference, for every client, operation
    identifier, [params], store and world: after the call, whether it
    returned or raised, every object that existed before the call -- the
    caller's dictionary among them -- holds the same keys bound to the
    same values, in the same order; the dictionaries the call builds
    (query parameters, form data, headers) are new objects.  The call
    does what the value embedding of [call_operation] does on the
    dictionary [params] refers to: same result or exception, same
    requests and sleeps. *)
Theorem C9_params_not_mutated (rt : PyRuntime) {St : Type} (nw : Network St)
  (HAS_REQUESTS : bool) (self : swagger_client_objects.SwaggerClientObj)
  (operation_id : string) (params : option swagger_client_objects.ref)
  (raw_response : bool) (h : swagger_client_objects.heap) (w : World St) :
  swagger_client_objects.unchanged h
    (fst (snd (swagger_client_objects.call_operation rt nw HAS_REQUESTS self
                 operation_id params raw_response (h, w)))) /\
  (forall r : swagger_client_objects.ref,
      params = Some r -> (r < List.length h)%nat ->
      nth r (fst (snd (swagger_client_objects.call_operation rt nw HAS_REQUESTS
                         self operation_id params raw_response (h, w)))) []
      = nth r h []) /\
  (forall c : SwaggerClient,
      swagger_client_objects.client_in h self c ->
      (forall r, params = Some r -> (r < List.length h)%nat) ->
      fst (swagger_client_objects.call_operation rt nw HAS_REQUESTS self
             operation_id params raw_response (h, w))
      = fst (call_operation rt nw HAS_REQUESTS c operation_id
               (swagger_client_objects.params_in h params) raw_response w) /\
      snd (snd (swagger_client_objects.call_operation rt nw HAS_REQUESTS self
                  operation_id params raw_response (h, w)))
      = snd (call_operation rt nw HAS_REQUESTS c operation_id
               (swagger_client_objects.params_in h params) raw_response w)).
Proof.
  pose proof (objects_facts.keeps_call_operation rt nw HAS_REQUESTS
                (List.length h) self operation_id params raw_response
                h w (Nat.le_refl _)) as [K _].
  split; [exact K |]. split.
  - intros r _ Hr. apply K. exact Hr.
  - intros c Hc Hparams.
    destruct (objects_facts.call_operation_same rt nw HAS_REQUESTS
                self c operation_id params raw_response h w Hc Hparams)
      as (h' & Hrun & _).
    rewrite Hrun. split; reflexivity.
Qed.

(** ** C5: check mode *)

Section Quiet.
  Context {W : Type}.

Lemma quiet_ret {A} (a : A) : quiet (W := W) (ret a).
  Proof. intros s. reflexivity. Qed.

Lemma quiet_raise {A} e : quiet (W := W) (A := A) (raise e).
  Proof. intros s. reflexivity. Qed.

Lemma quiet_lift {A} (r : Res A) : quiet (W := W) (lift r).
  Proof. intros s. reflexivity. Qed.

Lemma quiet_set_result k v : quiet (W := W) (set_result k v).
  Proof. intros s. reflexivity. Qed.

Lemma quiet_get_result : quiet (W := W) get_result.
  Proof. intros s. reflexivity. Qed.

Lemma quiet_bind {A B} (c : @LM W A) (k : A -> @LM W B) :
    quiet c -> (forall a, quiet (k a)) -> quiet (bind c k).
  Proof.
    intros Hc Hk s. unfold bind. specialize (Hc s).
    destruct (c s) as [[a | e] s1]; simpl in *.
    - rewrite Hk. exact Hc.
    - exact Hc.
  Qed.

Lemma quiet_fail_json_msg {A} msg kwargs :
    quiet (W := W) (A := A) (fail_json_msg msg kwargs).
  Proof. intros s. unfold fail_json_msg. destruct (dmem "msg" kwargs); reflexivity. Qed.

Lemma quiet_fail_with_result {A} e : quiet (W := W) (A := A) (fail_with_result e).
  Proof. intros s. reflexivity. Qed.

Lemma quiet_exit_with_result {A} : quiet (W := W) (A := A) exit_with_result.
  Proof. intros s. reflexivity. Qed.

Lemma quiet_try_except {A} (c : @LM W A) handled h :
    quiet c -> (forall e, quiet (h e)) -> quiet (try_except c handled h).
  Proof.
    intros Hc Hh s. unfold try_except. specialize (Hc s).
    destruct (c s) as [[a | e] s1]; simpl in *; [exact Hc |].
    destruct (handled e); [rewrite Hh |]; exact Hc.
  Qed.
End Quiet.

Ltac quiet :=
  repeat first
    [ apply quiet_ret | apply quiet_raise | apply quiet_lift
    | apply quiet_set_result | apply quiet_get_result
    | apply quiet_fail_json_msg | apply quiet_fail_with_result
    | apply quiet_exit_with_result
    | apply quiet_bind; [| intros ?]
    | match goal with
      | |- quiet (if true then ?a else _) => change (quiet a)
      | |- quiet (if false then _ else ?a) => change (quiet a)
      | |- quiet (if _ && negb true then _ else _) =>
          cbn [negb]; rewrite andb_false_r
      | |- quiet (if ?b then _ else _) => destruct b
      | |- quiet (match ?x with _ => _ end) => destruct x
      end ].

Section RunWorld.
  Context {W : Type}.

Lemma bind_on_world_quiet {A B} (lookup : M W A) (K : A -> @LM W B) s :
    (forall x, quiet (K x)) ->
    snd (snd (bind (on_world lookup) K s)) = snd (lookup (snd s)).
  Proof.
    intros HK. unfold bind, on_world.
    destruct (lookup (snd s)) as [[x | e] w1]; simpl; [| reflexivity].
    rewrite HK. reflexivity.
  Qed.

Lemma run_world {A} init (c : @LM W A) (w : W) :
    snd (with_result init c w) = snd (snd (c (init, w))).
  Proof.
    unfold with_result. destruct (c (init, w)) as [x s']. reflexivity.
  Qed.

Lemma try_exit_world {A B} (body : @LM W A) handled
        (h : exn -> @LM W A) (s : dict pyval * W) :
    (forall e, quiet (h e)) ->
    snd (snd (bind (try_except body handled h)
                   (fun _ => exit_with_result (A := B)) s))
    = snd (snd (body s)).
  Proof.
    intros Hh. unfold bind, try_except.
    destruct (body s) as [[a | e] s1]; simpl; [reflexivity |].
    destruct (handled e); [| reflexivity].
    specialize (Hh e s1). destruct (h e s1) as [[a | e'] s2];
      simpl in *; exact Hh.
  Qed.
End RunWorld.

Section CheckMode.
  Variable rt : PyRuntime.
  Context {St : Type} (nw : Network St).

Lemma request_log self method endpoint data (w : World St) :
    log (snd (library_client._request rt nw self method endpoint data w))
    = log w ++
      [Sent {| req_method := method;
               req_url := (library_client.base_url self ++ endpoint)%string;
               req_headers :=
                 [("Authorization",
                   ("Bearer " ++ library_client.api_token self)%string);
                  ("Accept", "application/json");
                  ("Content-Type", "application/json")];
               req_data := match data with
                           | Some ((_ :: _) as d) =>
                               Some (json_dumps rt (PDict d))
                           | _ => None
                           end;
               req_timeout := library_client.timeout self;
               req_verify := library_client.verify_ssl self |}].
  Proof.
    unfold library_client._request, bind, do_urlopen.
    match goal with
    | |- context [urlopen nw ?s ?r] => destruct (urlopen nw s r) as [o s']
    end.
    destruct o as [st body hs | code fp hs | reason]; cbn [fst snd].
    - destruct (body =? "")%string; [reflexivity |].
      destruct (json_loads rt body); reflexivity.
    - destruct (json_loads rt match fp with Some b => b | None => "" end);
        [| reflexivity].
      unfold lift. destruct (py_get _ _ _); reflexivity.
    - reflexivity.
  Qed.

Lemma lookup_log api_url api_token timeout verify_ssl endpoint (w : World St) :
    log (snd (library_client._request rt nw
                (library_client.__init__ api_url api_token timeout verify_ssl)
                "GET" endpoint None w))
    = log w ++ [Sent (lookup_request api_url api_token timeout verify_ssl
                                     endpoint)].
  Proof. rewrite request_log. reflexivity. Qed.

  (** Every [find_*]: the listing, then a search that sends nothing. *)
Lemma find_world {X} (listing : M (World St) pyval)
        (search : list pyval -> Res X) (w : World St) :
    snd (bind listing
              (fun v => bind (lift (py_iter v))
                             (fun items => lift (search items))) w)
    = snd (listing w).
  Proof.
    unfold bind, lift. destruct (listing w) as [[v | e] w1]; [| reflexivity].
    destruct (py_iter v); reflexivity.
  Qed.

Ltac check_world :=
    rewrite run_world;
    rewrite try_exit_world by (intros e; quiet);
    rewrite bind_on_world_quiet by (intros existing; quiet);
    cbn [snd].

Lemma project_looks_up_only p :
    looks_up_only (coolify_project.run_module rt nw p)
      (lookup_request (coolify_project.api_url p)
         (coolify_project.p_api_token p) (coolify_project.p_timeout p)
         (coolify_project.p_verify_ssl p) "/projects").
  Proof.
    intros w. unfold coolify_project.run_module,
      coolify_project.run_module_body.
    check_world.
    unfold coolify_project.find_project. rewrite find_world.
    apply lookup_log.
  Qed.

Lemma server_looks_up_only p :
    looks_up_only (coolify_server.run_module rt nw p)
      (lookup_request (coolify_server.api_url p)
         (coolify_server.p_api_token p) (coolify_server.p_timeout p)
         (coolify_server.p_verify_ssl p) "/servers").
  Proof.
    intros w. unfold coolify_server.run_module,
      coolify_server.run_module_body.
    check_world.
    unfold coolify_server.find_server. rewrite find_world.
    apply lookup_log.
  Qed.

Lemma application_looks_up_only p :
    looks_up_only (coolify_application.run_module rt nw p)
      (lookup_request (coolify_application.api_url p)
         (coolify_application.p_api_token p) (coolify_application.p_timeout p)
         (coolify_application.p_verify_ssl p) "/applications").
  Proof.
    intros w. unfold coolify_application.run_module,
      coolify_application.run_module_body,
      coolify_application.require_existing.
    check_world.
    unfold coolify_application.find_application. rewrite find_world.
    apply lookup_log.
  Qed.

Lemma database_looks_up_only p :
    looks_up_only (coolify_database.run_module rt nw p)
      (lookup_request (coolify_database.api_url p)
         (coolify_database.p_api_token p) (coolify_database.p_timeout p)
         (coolify_database.p_verify_ssl p) "/databases").
  Proof.
    intros w. unfold coolify_database.run_module,
      coolify_database.run_module_body,
      coolify_database.require_existing.
    check_world.
    unfold coolify_database.find_database. rewrite find_world.
    apply lookup_log.
  Qed.

Lemma service_looks_up_only p :
    looks_up_only (coolify_service.run_module rt nw p)
      (lookup_request (coolify_service.api_url p)
         (coolify_service.p_api_token p) (coolify_service.p_timeout p)
         (coolify_service.p_verify_ssl p) "/services").
  Proof.
    intros w. unfold coolify_service.run_module,
      coolify_service.run_module_body,
      coolify_service.require_existing.
    check_world.
    unfold coolify_service.find_service. rewrite find_world.
    apply lookup_log.
  Qed.

  (** The private key wrapper reads the key file first; when that fails
      nothing is sent. *)
Lemma private_key_looks_up_only read_file p (w : World St) :
    log (snd (coolify_private_key.run_module rt nw read_file p true w))
    = log w ++
      [Sent (lookup_request (coolify_private_key.api_url p)
               (coolify_private_key.p_api_token p)
               (coolify_private_key.p_timeout p)
               (coolify_private_key.p_verify_ssl p) "/security/keys")]
    \/ snd (coolify_private_key.run_module rt nw read_file p true w) = w.
  Proof.
    unfold coolify_private_key.run_module.
    assert (Hbody : forall key,
      log (snd (with_result coolify_private_key.result_init
        (bind (try_except (coolify_private_key.run_module_body rt nw p key true)
                          is_Exception (fun e => fail_with_result e))
              (fun _ => exit_with_result (A := unit))) w))
      = log w ++
        [Sent (lookup_request (coolify_private_key.api_url p)
                 (coolify_private_key.p_api_token p)
                 (coolify_private_key.p_timeout p)
                 (coolify_private_key.p_verify_ssl p) "/security/keys")]).
    { intros key. unfold coolify_private_key.run_module_body.
      check_world.
      unfold coolify_private_key.find_private_key. rewrite find_world.
      apply lookup_log. }
    destruct (truthy_opt (coolify_private_key.private_key_file p)).
    - destruct (read_file (fmt_opt (coolify_private_key.private_key_file p)))
        as [text | err].
      + left. apply Hbody.
      + right. reflexivity.
    - left. apply Hbody.
  Qed.

  (** The passthrough wrapper leaves the world as it is. *)
Lemma passthrough_check_world HAS_CLIENT IMPORT_ERROR CoolifyClient p
        (w : World St) :
    snd (library_coolify_api.run_module HAS_CLIENT IMPORT_ERROR CoolifyClient
           p true w) = w.
  Proof.
    unfold library_coolify_api.run_module. rewrite run_world.
    unfold bind at 1. unfold fail_json_msg.
    destruct (negb HAS_CLIENT); reflexivity.
  Qed.
End CheckMode.

Section Agreement.
  Context {W : Type}.

Lemma dget_dset_changed k v (r : dict pyval) :
    dget "changed" (dset k v r)
    = if (k =? "changed")%string then Some v else dget "changed" r.
  Proof.
    induction r as [| [k' v'] r IH]; simpl.
    - rewrite String.eqb_sym. destruct ("changed" =? k)%string eqn:E; auto.
    - destruct (k' =? k)%string eqn:E1; simpl.
      + apply String.eqb_eq in E1. subst k'.
        destruct (k =? "changed")%string; reflexivity.
      + rewrite IH.
        destruct (k' =? "changed")%string eqn:E2; [| reflexivity].
        apply String.eqb_eq in E2. subst k'.
        rewrite String.eqb_sym in E1. rewrite E1. reflexivity.
  Qed.

  Section Rules.
    Context {A B : Type}.
    Variables v1 v2 : option pyval.
    Variable chk : @LM W B.

Lemma agree_ret (a : A) (b : B) :
      v1 = v2 -> agree (W := W) v1 v2 (ret a) (ret b).
    Proof. intros E r1 w1 r2 w2 H1 H2. simpl. congruence. Qed.

Lemma agree_l_ret {X} (x : X) (k : X -> @LM W A) :
      agree v1 v2 (k x) chk -> agree v1 v2 (bind (ret x) k) chk.
    Proof. intros H. exact H. Qed.

Lemma agree_l_lift_ok {X} (x : X) (k : X -> @LM W A) :
      agree v1 v2 (k x) chk -> agree v1 v2 (bind (lift (Ok x)) k) chk.
    Proof. intros H. exact H. Qed.

Lemma agree_l_lift_raise {X} e (k : X -> @LM W A) :
      clean_exit e = false -> agree v1 v2 (bind (lift (Raise e)) k) chk.
    Proof. intros H r1 w1 r2 w2 _ _. exact H. Qed.

Lemma agree_l_raise {X} e (k : X -> @LM W A) :
      clean_exit e = false -> agree v1 v2 (bind (raise e) k) chk.
    Proof. intros H r1 w1 r2 w2 _ _. exact H. Qed.

Lemma agree_l_fail {X} msg kwargs (k : X -> @LM W A) :
      agree v1 v2 (bind (fail_json_msg msg kwargs) k) chk.
    Proof.
      intros r1 w1 r2 w2 _ _. unfold bind, fail_json_msg.
      destruct (dmem "msg" kwargs); reflexivity.
    Qed.

Lemma agree_l_assoc {X Y} (c : @LM W X) (k : X -> @LM W Y)
          (k' : Y -> @LM W A) :
      agree v1 v2 (bind c (fun x => bind (k x) k')) chk ->
      agree v1 v2 (bind (bind c k) k') chk.
    Proof.
      intros H r1 w1 r2 w2 H1 H2. specialize (H r1 w1 r2 w2 H1 H2).
      unfold bind in *. destruct (c (r1, w1)) as [[x | e] s1]; exact H.
    Qed.

Lemma agree_l_end (c : @LM W A) :
      agree v1 v2 (bind c (fun a => ret a)) chk -> agree v1 v2 c chk.
    Proof.
      intros H r1 w1 r2 w2 H1 H2. specialize (H r1 w1 r2 w2 H1 H2).
      unfold bind, ret in *. destruct (c (r1, w1)) as [[x | e] s1]; exact H.
    Qed.

Lemma agree_l_act {X} (act : M W X) (k : X -> @LM W A) :
      (forall w e w', act w = (Raise e, w') -> clean_exit e = false) ->
      (forall x, agree v1 v2 (k x) chk) ->
      agree v1 v2 (bind (on_world act) k) chk.
    Proof.
      intros Hact Hk r1 w1 r2 w2 H1 H2. unfold bind, on_world. cbn [fst snd].
      destruct (act w1) as [[x | e] w1'] eqn:E.
      - apply Hk; assumption.
      - simpl. eapply Hact. exact E.
    Qed.

Lemma agree_l_get (k : dict pyval -> @LM W A) :
      (forall r, dget "changed" r = v1 -> agree v1 v2 (k r) chk) ->
      agree v1 v2 (bind get_result k) chk.
    Proof.
      intros Hk r1 w1 r2 w2 H1 H2. unfold bind, get_result. cbn [fst snd].
      apply Hk; assumption.
    Qed.
  End Rules.

Lemma agree_l_set {A B} v1 v2 (chk : @LM W B) key v (k : unit -> @LM W A) :
    agree (if (key =? "changed")%string then Some v else v1) v2 (k tt) chk ->
    agree v1 v2 (bind (set_result key v) k) chk.
  Proof.
    intros H r1 w1 r2 w2 H1 H2. unfold bind, set_result. cbn [fst snd].
    apply H; [| exact H2]. rewrite dget_dset_changed, H1. reflexivity.
  Qed.

  Section RulesRight.
    Context {A B : Type}.
    Variables v1 v2 : option pyval.
    Variable real : @LM W A.

Lemma agree_r_ret {X} (x : X) (k : X -> @LM W B) :
      agree v1 v2 real (k x) -> agree v1 v2 real (bind (ret x) k).
    Proof. intros H. exact H. Qed.

Lemma agree_r_lift_ok {X} (x : X) (k : X -> @LM W B) :
      agree v1 v2 real (k x) -> agree v1 v2 real (bind (lift (Ok x)) k).
    Proof. intros H. exact H. Qed.

Lemma agree_r_assoc {X Y} (c : @LM W X) (k : X -> @LM W Y)
          (k' : Y -> @LM W B) :
      agree v1 v2 real (bind c (fun x => bind (k x) k')) ->
      agree v1 v2 real (bind (bind c k) k').
    Proof.
      intros H r1 w1 r2 w2 H1 H2. specialize (H r1 w1 r2 w2 H1 H2).
      unfold bind in *. destruct (c (r2, w2)) as [[x | e] s1]; exact H.
    Qed.

Lemma agree_r_end (c : @LM W B) :
      agree v1 v2 real (bind c (fun a => ret a)) -> agree v1 v2 real c.
    Proof.
      intros H r1 w1 r2 w2 H1 H2. specialize (H r1 w1 r2 w2 H1 H2).
      unfold bind, ret in *. destruct (c (r2, w2)) as [[x | e] s1]; exact H.
    Qed.
  End RulesRight.

Lemma agree_r_set {A B} v1 v2 (real : @LM W A) key v (k : unit -> @LM W B) :
    agree v1 (if (key =? "changed")%string then Some v else v2) real (k tt) ->
    agree v1 v2 real (bind (set_result key v) k).
  Proof.
    intros H r1 w1 r2 w2 H1 H2. unfold bind, set_result. cbn [fst snd].
    apply H; [exact H1 |]. rewrite dget_dset_changed, H2. reflexivity.
  Qed.

Lemma agree_same_lookup {X A B} v (lookup : M W X)
        (k1 : X -> @LM W A) (k2 : X -> @LM W B) :
    (forall w e w', lookup w = (Raise e, w') -> clean_exit e = false) ->
    (forall x, agree v v (k1 x) (k2 x)) ->
    agree_same v (bind (on_world lookup) k1) (bind (on_world lookup) k2).
  Proof.
    intros Hl Hk r1 r2 w H1 H2. unfold bind, on_world. cbn [fst snd].
    destruct (lookup w) as [[x | e] w'] eqn:E.
    - apply Hk; assumption.
    - simpl. eapply Hl. exact E.
  Qed.

Lemma fails_fail_with_result :
    fails (W := W) (fun e => fail_with_result e).
  Proof. intros e s. reflexivity. Qed.

Lemma fails_fail_json_msg :
    fails (W := W) (fun e => bind get_result
                         (fun result => fail_json_msg (exn_str e) result)).
  Proof.
    intros e s. unfold bind, get_result, fail_json_msg. cbn [fst snd].
    destruct (dmem "msg" (fst s)); reflexivity.
  Qed.

Lemma clean_exit_exited e : exited_ok (A := unit) (Raise e) = clean_exit e.
  Proof. destruct e as [| | | | | | | | [] ?]; reflexivity. Qed.

Lemma run_ok (body : @LM W unit) h init (w : W) r w' :
    body (init, w) = (Ok tt, (r, w')) ->
    with_result init
      (bind (try_except body is_Exception h)
            (fun _ => exit_with_result (A := unit))) w
    = (Raise (SystemExit false r), w').
  Proof.
    intros H. unfold with_result, bind, try_except. rewrite H. reflexivity.
  Qed.

Lemma run_raise (body : @LM W unit) h init (w : W) e s :
    fails h ->
    body (init, w) = (Raise e, s) ->
    clean_exit e = false ->
    exited_ok (fst (with_result init
                      (bind (try_except body is_Exception h)
                            (fun _ => exit_with_result (A := unit))) w))
    = false.
  Proof.
    intros Hh H He. unfold with_result, bind, try_except. rewrite H.
    destruct (is_Exception e).
    - specialize (Hh e s). destruct (h e s) as [[[] | e'] [r' w'']];
        cbn [fst] in *; [contradiction |].
      rewrite clean_exit_exited. exact Hh.
    - destruct s as [r' w'']. cbn [fst]. rewrite clean_exit_exited. exact He.
  Qed.

  (** From the agreement of the bodies to the reports of the runs. *)
Lemma runs_agree (real check : @LM W unit) h init (w : W) :
    fails h ->
    agree_same (dget "changed" init) real check ->
    exited_ok (fst (with_result init
                      (bind (try_except real is_Exception h)
                            (fun _ => exit_with_result (A := unit))) w))
    = true ->
    exited_ok (fst (with_result init
                      (bind (try_except check is_Exception h)
                            (fun _ => exit_with_result (A := unit))) w))
    = true /\
    reported_changed
      (fst (with_result init
              (bind (try_except check is_Exception h)
                    (fun _ => exit_with_result (A := unit))) w))
    = reported_changed
        (fst (with_result init
                (bind (try_except real is_Exception h)
                      (fun _ => exit_with_result (A := unit))) w)).
  Proof.
    intros Hh H.
    specialize (H init init w eq_refl eq_refl).
    destruct (real (init, w)) as [[[] | e] [r1 w1]] eqn:E1;
      cbn [fst snd] in H.
    - destruct (check (init, w)) as [[[] | e'] [r2 w2]] eqn:E2;
        cbn [fst snd] in H; [| contradiction].
      rewrite (run_ok _ h _ _ _ _ E1), (run_ok _ h _ _ _ _ E2).
      intros _. split; [reflexivity |]. simpl. rewrite H. reflexivity.
    - rewrite (run_raise _ h _ _ _ _ Hh E1 H). discriminate.
  Qed.
End Agreement.

Ltac scrutinee :=
  match goal with
  | H : context [match ?x with _ => _ end] |- _ =>
      lazymatch x with
      | context [match _ with _ => _ end] => fail
      | _ => destruct x eqn:?
      end
  | |- context [match ?x with _ => _ end] =>
      lazymatch x with
      | context [match _ with _ => _ end] => fail
      | _ => destruct x eqn:?
      end
  end.

Section NoExit.
  Variable rt : PyRuntime.
  Context {St : Type} (nw : Network St).

Lemma exception_not_exit e : is_Exception e = true -> clean_exit e = false.
  Proof. destruct e; simpl; congruence. Qed.

Lemma request_raises self method endpoint data (w w' : World St) e :
    library_client._request rt nw self method endpoint data w = (Raise e, w') ->
    is_Exception e = true.
  Proof.
    unfold library_client._request, bind, do_urlopen, lift, ret, raise, py_get.
    repeat scrutinee; intros H; inversion H; subst; try reflexivity;
      try discriminate.
  Qed.

Lemma request_no_exit self method endpoint data (w w' : World St) e :
    library_client._request rt nw self method endpoint data w = (Raise e, w') ->
    clean_exit e = false.
  Proof. intros H. apply exception_not_exit. eapply request_raises, H. Qed.

Lemma py_get_no_exit o k d e : py_get o k d = Raise e -> clean_exit e = false.
  Proof. destruct o; simpl; intros H; inversion H; reflexivity. Qed.

Lemma py_getitem_no_exit o k e :
    py_getitem o k = Raise e -> clean_exit e = false.
  Proof.
    destruct o; simpl; try (intros H; inversion H; reflexivity).
    destruct (dget k d); intros H; inversion H; reflexivity.
  Qed.

Lemma py_iter_no_exit o e : py_iter o = Raise e -> clean_exit e = false.
  Proof. destruct o; simpl; intros H; inversion H; reflexivity. Qed.

Lemma find_by_uuid_or_name_no_exit name uuid items e :
    library_client.find_by_uuid_or_name name uuid items = Raise e ->
    clean_exit e = false.
  Proof.
    induction items as [| x items IH]; simpl; [discriminate |].
    unfold rbind.
    repeat (scrutinee; try discriminate; eauto using py_get_no_exit);
      intros H; inversion H; subst; eauto using py_get_no_exit.
  Qed.

Lemma find_server_loop_no_exit name ip uuid items e :
    coolify_server.find_server_loop name ip uuid items = Raise e ->
    clean_exit e = false.
  Proof.
    induction items as [| x items IH]; simpl; [discriminate |].
    unfold rbind.
    repeat (scrutinee; try discriminate; eauto using py_get_no_exit);
      intros H; inversion H; subst; eauto using py_get_no_exit.
  Qed.

Lemma find_application_loop_no_exit name uuid project_uuid env items e :
    coolify_application.find_application_loop name uuid project_uuid env items
    = Raise e ->
    clean_exit e = false.
  Proof.
    induction items as [| x items IH]; simpl; [discriminate |].
    unfold rbind.
    repeat (scrutinee; try discriminate; eauto using py_get_no_exit);
      intros H; inversion H; subst; eauto using py_get_no_exit.
  Qed.

Lemma needs_update_project_no_exit existing p e :
    coolify_project.needs_update existing p = Raise e -> clean_exit e = false.
  Proof.
    unfold coolify_project.needs_update, rbind.
    repeat (scrutinee; try discriminate);
      intros H; inversion H; subst; eauto using py_get_no_exit.
  Qed.

Lemma needs_update_private_key_no_exit existing p e :
    coolify_private_key.needs_update existing p = Raise e ->
    clean_exit e = false.
  Proof.
    unfold coolify_private_key.needs_update, rbind.
    repeat (scrutinee; try discriminate);
      intros H; inversion H; subst; eauto using py_get_no_exit.
  Qed.
End NoExit.

Create HintDb noexit.
#[local] Hint Resolve py_get_no_exit py_getitem_no_exit py_iter_no_exit
  find_by_uuid_or_name_no_exit find_server_loop_no_exit
  find_application_loop_no_exit needs_update_project_no_exit
  needs_update_private_key_no_exit : noexit.

Create HintDb actions.
#[local] Hint Unfold
  coolify_project.find_project coolify_project.list_projects
  coolify_project.create_project coolify_project.update_project
  coolify_project.delete_project coolify_project.list_environments
  coolify_project.create_environment coolify_project.delete_environment
  coolify_project._request
  coolify_server.find_server coolify_server.list_servers
  coolify_server.create_server coolify_server.delete_server
  coolify_server.validate_server coolify_server._request
  coolify_private_key.find_private_key coolify_private_key.list_private_keys
  coolify_private_key.create_private_key coolify_private_key.update_private_key
  coolify_private_key.delete_private_key coolify_private_key._request
  coolify_application.find_application coolify_application.list_applications
  coolify_application.create_application coolify_application.delete_application
  coolify_application.start_application coolify_application.stop_application
  coolify_application.restart_application coolify_application.deploy_application
  coolify_application._request
  coolify_database.find_database coolify_database.list_databases
  coolify_database.create_database coolify_database.delete_database
  coolify_database.start_database coolify_database.stop_database
  coolify_database.restart_database coolify_database._request
  coolify_service.find_service coolify_service.list_services
  coolify_service.create_service coolify_service.delete_service
  coolify_service.start_service coolify_service.stop_service
  coolify_service.restart_service coolify_service._request : actions.

Ltac act_no_exit :=
  let H := fresh "Hact" in
  intros ? ? ? H;
  repeat autounfold with actions in H;
  unfold ret, raise, bind, lift in H;
  repeat first
    [ solve [eapply request_no_exit; exact H]
    | discriminate H
    | solve [inversion H; subst; eauto using request_no_exit with noexit]
    | scrutinee; cbn [fst snd] in H ].

Section Actions.
  Variable rt : PyRuntime.
  Context {St : Type} (nw : Network St).

Lemma find_project_no_exit x1 x2 x3 (w : World St) e w' :
    coolify_project.find_project rt nw x1 x2 x3 w = (Raise e, w') -> clean_exit e = false.
  Proof. revert w e w'. act_no_exit. Qed.

Lemma list_projects_no_exit x1 (w : World St) e w' :
    coolify_project.list_projects rt nw x1 w = (Raise e, w') -> clean_exit e = false.
  Proof. revert w e w'. act_no_exit. Qed.

Lemma create_project_no_exit x1 x2 x3 (w : World St) e w' :
    coolify_project.create_project rt nw x1 x2 x3 w = (Raise e, w') -> clean_exit e = false.
  Proof. revert w e w'. act_no_exit. Qed.

Lemma update_project_no_exit x1 x2 x3 x4 (w : World St) e w' :
    coolify_project.update_project rt nw x1 x2 x3 x4 w = (Raise e, w') -> clean_exit e = false.
  Proof. revert w e w'. act_no_exit. Qed.

Lemma delete_project_no_exit x1 x2 (w : World St) e w' :
    coolify_project.delete_project rt nw x1 x2 w = (Raise e, w') -> clean_exit e = false.
  Proof. revert w e w'. act_no_exit. Qed.

Lemma list_environments_no_exit x1 x2 (w : World St) e w' :
    coolify_project.list_environments rt nw x1 x2 w = (Raise e, w') -> clean_exit e = false.
  Proof. revert w e w'. act_no_exit. Qed.

Lemma create_environment_no_exit x1 x2 x3 x4 (w : World St) e w' :
    coolify_project.create_environment rt nw x1 x2 x3 x4 w = (Raise e, w') -> clean_exit e = false.
  Proof. revert w e w'. act_no_exit. Qed.

Lemma delete_environment_no_exit x1 x2 x3 (w : World St) e w' :
    coolify_project.delete_environment rt nw x1 x2 x3 w = (Raise e, w') -> clean_exit e = false.
  Proof. revert w e w'. act_no_exit. Qed.

Lemma find_server_no_exit x1 x2 x3 x4 (w : World St) e w' :
    coolify_server.find_server rt nw x1 x2 x3 x4 w = (Raise e, w') -> clean_exit e = false.
  Proof. revert w e w'. act_no_exit. Qed.

Lemma list_servers_no_exit x1 (w : World St) e w' :
    coolify_server.list_servers rt nw x1 w = (Raise e, w') -> clean_exit e = false.
  Proof. revert w e w'. act_no_exit. Qed.

Lemma create_server_no_exit x1 x2 x3 x4 x5 x6 x7 x8 (w : World St) e w' :
    coolify_server.create_server rt nw x1 x2 x3 x4 x5 x6 x7 x8 w = (Raise e, w') -> clean_exit e = false.
  Proof. revert w e w'. act_no_exit. Qed.

Lemma delete_server_no_exit x1 x2 (w : World St) e w' :
    coolify_server.delete_server rt nw x1 x2 w = (Raise e, w') -> clean_exit e = false.
  Proof. revert w e w'. act_no_exit. Qed.

Lemma validate_server_no_exit x1 x2 (w : World St) e w' :
    coolify_server.validate_server rt nw x1 x2 w = (Raise e, w') -> clean_exit e = false.
  Proof. revert w e w'. act_no_exit. Qed.

Lemma find_private_key_no_exit x1 x2 x3 (w : World St) e w' :
    coolify_private_key.find_private_key rt nw x1 x2 x3 w = (Raise e, w') -> clean_exit e = false.
  Proof. revert w e w'. act_no_exit. Qed.

Lemma list_private_keys_no_exit x1 (w : World St) e w' :
    coolify_private_key.list_private_keys rt nw x1 w = (Raise e, w') -> clean_exit e = false.
  Proof. revert w e w'. act_no_exit. Qed.

Lemma create_private_key_no_exit x1 x2 x3 x4 (w : World St) e w' :
    coolify_private_key.create_private_key rt nw x1 x2 x3 x4 w = (Raise e, w') -> clean_exit e = false.
  Proof. revert w e w'. act_no_exit. Qed.

Lemma update_private_key_no_exit x1 x2 x3 x4 (w : World St) e w' :
    coolify_private_key.update_private_key rt nw x1 x2 x3 x4 w = (Raise e, w') -> clean_exit e = false.
  Proof. revert w e w'. act_no_exit. Qed.

Lemma delete_private_key_no_exit x1 x2 (w : World St) e w' :
    coolify_private_key.delete_private_key rt nw x1 x2 w = (Raise e, w') -> clean_exit e = false.
  Proof. revert w e w'. act_no_exit. Qed.

Lemma find_application_no_exit x1 x2 x3 x4 x5 (w : World St) e w' :
    coolify_application.find_application rt nw x1 x2 x3 x4 x5 w = (Raise e, w') -> clean_exit e = false.
  Proof. revert w e w'. act_no_exit. Qed.

Lemma list_applications_no_exit x1 (w : World St) e w' :
    coolify_application.list_applications rt nw x1 w = (Raise e, w') -> clean_exit e = false.
  Proof. revert w e w'. act_no_exit. Qed.

Lemma create_application_no_exit x1 x2 x3 (w : World St) e w' :
    coolify_application.create_application rt nw x1 x2 x3 w = (Raise e, w') -> clean_exit e = false.
  Proof. revert w e w'. act_no_exit. Qed.

Lemma delete_application_no_exit x1 x2 x3 x4 (w : World St) e w' :
    coolify_application.delete_application rt nw x1 x2 x3 x4 w = (Raise e, w') -> clean_exit e = false.
  Proof. revert w e w'. act_no_exit. Qed.

Lemma start_application_no_exit x1 x2 (w : World St) e w' :
    coolify_application.start_application rt nw x1 x2 w = (Raise e, w') -> clean_exit e = false.
  Proof. revert w e w'. act_no_exit. Qed.

Lemma stop_application_no_exit x1 x2 (w : World St) e w' :
    coolify_application.stop_application rt nw x1 x2 w = (Raise e, w') -> clean_exit e = false.
  Proof. revert w e w'. act_no_exit. Qed.

Lemma restart_application_no_exit x1 x2 (w : World St) e w' :
    coolify_application.restart_application rt nw x1 x2 w = (Raise e, w') -> clean_exit e = false.
  Proof. revert w e w'. act_no_exit. Qed.

Lemma deploy_application_no_exit x1 x2 (w : World St) e w' :
    coolify_application.deploy_application rt nw x1 x2 w = (Raise e, w') -> clean_exit e = false.
  Proof. revert w e w'. act_no_exit. Qed.

Lemma find_database_no_exit x1 x2 x3 (w : World St) e w' :
    coolify_database.find_database rt nw x1 x2 x3 w = (Raise e, w') -> clean_exit e = false.
  Proof. revert w e w'. act_no_exit. Qed.

Lemma list_databases_no_exit x1 (w : World St) e w' :
    coolify_database.list_databases rt nw x1 w = (Raise e, w') -> clean_exit e = false.
  Proof. revert w e w'. act_no_exit. Qed.

Lemma create_database_no_exit x1 x2 x3 (w : World St) e w' :
    coolify_database.create_database rt nw x1 x2 x3 w = (Raise e, w') -> clean_exit e = false.
  Proof. revert w e w'. act_no_exit. Qed.

Lemma delete_database_no_exit x1 x2 x3 x4 (w : World St) e w' :
    coolify_database.delete_database rt nw x1 x2 x3 x4 w = (Raise e, w') -> clean_exit e = false.
  Proof. revert w e w'. act_no_exit. Qed.

Lemma start_database_no_exit x1 x2 (w : World St) e w' :
    coolify_database.start_database rt nw x1 x2 w = (Raise e, w') -> clean_exit e = false.
  Proof. revert w e w'. act_no_exit. Qed.

Lemma stop_database_no_exit x1 x2 (w : World St) e w' :
    coolify_database.stop_database rt nw x1 x2 w = (Raise e, w') -> clean_exit e = false.
  Proof. revert w e w'. act_no_exit. Qed.

Lemma restart_database_no_exit x1 x2 (w : World St) e w' :
    coolify_database.restart_database rt nw x1 x2 w = (Raise e, w') -> clean_exit e = false.
  Proof. revert w e w'. act_no_exit. Qed.

Lemma find_service_no_exit x1 x2 x3 (w : World St) e w' :
    coolify_service.find_service rt nw x1 x2 x3 w = (Raise e, w') -> clean_exit e = false.
  Proof. revert w e w'. act_no_exit. Qed.

Lemma list_services_no_exit x1 (w : World St) e w' :
    coolify_service.list_services rt nw x1 w = (Raise e, w') -> clean_exit e = false.
  Proof. revert w e w'. act_no_exit. Qed.

Lemma create_service_no_exit x1 x2 (w : World St) e w' :
    coolify_service.create_service rt nw x1 x2 w = (Raise e, w') -> clean_exit e = false.
  Proof. revert w e w'. act_no_exit. Qed.

Lemma delete_service_no_exit x1 x2 x3 x4 (w : World St) e w' :
    coolify_service.delete_service rt nw x1 x2 x3 x4 w = (Raise e, w') -> clean_exit e = false.
  Proof. revert w e w'. act_no_exit. Qed.

Lemma start_service_no_exit x1 x2 (w : World St) e w' :
    coolify_service.start_service rt nw x1 x2 w = (Raise e, w') -> clean_exit e = false.
  Proof. revert w e w'. act_no_exit. Qed.

Lemma stop_service_no_exit x1 x2 (w : World St) e w' :
    coolify_service.stop_service rt nw x1 x2 w = (Raise e, w') -> clean_exit e = false.
  Proof. revert w e w'. act_no_exit. Qed.

Lemma restart_service_no_exit x1 x2 (w : World St) e w' :
    coolify_service.restart_service rt nw x1 x2 w = (Raise e, w') -> clean_exit e = false.
  Proof. revert w e w'. act_no_exit. Qed.
End Actions.

#[local] Hint Resolve
  find_project_no_exit
  list_projects_no_exit
  create_project_no_exit
  update_project_no_exit
  delete_project_no_exit
  list_environments_no_exit
  create_environment_no_exit
  delete_environment_no_exit
  find_server_no_exit
  list_servers_no_exit
  create_server_no_exit
  delete_server_no_exit
  validate_server_no_exit
  find_private_key_no_exit
  list_private_keys_no_exit
  create_private_key_no_exit
  update_private_key_no_exit
  delete_private_key_no_exit
  find_application_no_exit
  list_applications_no_exit
  create_application_no_exit
  delete_application_no_exit
  start_application_no_exit
  stop_application_no_exit
  restart_application_no_exit
  deploy_application_no_exit
  find_database_no_exit
  list_databases_no_exit
  create_database_no_exit
  delete_database_no_exit
  start_database_no_exit
  stop_database_no_exit
  restart_database_no_exit
  find_service_no_exit
  list_services_no_exit
  create_service_no_exit
  delete_service_no_exit
  start_service_no_exit
  stop_service_no_exit
  restart_service_no_exit : noexit.

Ltac split_on b :=
  lazymatch b with
  | context [(_ && false)%bool] => rewrite andb_false_r; cbn [andb]
  | _ => destruct b eqn:?
  end.

Ltac agree_left :=
  cbv iota;
  lazymatch goal with
  | |- agree _ _ (bind (bind _ _) _) _ => apply agree_l_assoc
  | |- agree _ _ (bind (ret _) _) _ => apply agree_l_ret
  | |- agree _ _ (bind (lift (Ok _)) _) _ => apply agree_l_lift_ok
  | |- agree _ _ (bind (lift (Raise _)) _) _ =>
      apply agree_l_lift_raise; solve [eauto with noexit]
  | |- agree _ _ (bind (lift ?r) _) _ => destruct r eqn:?
  | |- agree _ _ (bind (raise _) _) _ => apply agree_l_raise; reflexivity
  | |- agree _ _ (bind (fail_json_msg _ _) _) _ => apply agree_l_fail
  | |- agree _ _ (bind (set_result _ _) _) _ =>
      apply agree_l_set; cbn [String.eqb Ascii.eqb Bool.eqb]
  | |- agree _ _ (bind get_result _) _ => apply agree_l_get; intros ? ?
  | |- agree _ _ (bind (on_world _) _) _ =>
      apply agree_l_act; [solve [eauto with noexit] | intros ?]
  | |- agree _ _ (bind (if ?b then _ else _) _) _ => split_on b
  | |- agree _ _ (bind (match ?x with _ => _ end) _) _ => destruct x eqn:?
  | |- agree _ _ (if ?b then _ else _) _ => split_on b
  | |- agree _ _ (match ?x with _ => _ end) _ => destruct x eqn:?
  | |- agree _ _ (ret _) _ => fail "left side done"
  | |- agree _ _ (bind _ _) _ => fail "left side: unknown statement"
  | |- agree _ _ _ _ => apply agree_l_end
  end.

Ltac agree_right :=
  cbv iota;
  lazymatch goal with
  | |- agree _ _ _ (bind (bind _ _) _) => apply agree_r_assoc
  | |- agree _ _ _ (bind (ret _) _) => apply agree_r_ret
  | |- agree _ _ _ (bind (lift (Ok _)) _) => apply agree_r_lift_ok
  | |- agree _ _ _ (bind (set_result _ _) _) =>
      apply agree_r_set; cbn [String.eqb Ascii.eqb Bool.eqb]
  | |- agree _ _ _ (bind (if ?b then _ else _) _) => split_on b
  | |- agree _ _ _ (if ?b then _ else _) => split_on b
  | |- agree _ _ _ (ret _) => fail "right side done"
  | |- agree _ _ _ (bind _ _) => fail "right side: unknown statement"
  | |- agree _ _ _ _ => apply agree_r_end
  end.

Ltac agree :=
  repeat agree_left; repeat agree_right;
  try (apply agree_ret; reflexivity).

Section Agree.
  Variable rt : PyRuntime.
  Context {St : Type} (nw : Network St).

Lemma project_agree p (w : World St) :
    (coolify_project.environments p = None \/
     coolify_project.environments p = Some []) ->
    exited_ok (fst (coolify_project.run_module rt nw p false w)) = true ->
    exited_ok (fst (coolify_project.run_module rt nw p true w)) = true /\
    reported_changed (fst (coolify_project.run_module rt nw p true w))
    = reported_changed (fst (coolify_project.run_module rt nw p false w)).
  Proof.
    intros Henv.
    unfold coolify_project.run_module.
    apply runs_agree; [apply fails_fail_with_result |].
    unfold coolify_project.run_module_body.
    replace (match coolify_project.environments p with
             | Some l => l
             | None => []
             end) with (@nil coolify_project.env_spec)
      by (destruct Henv as [-> | ->]; reflexivity).
    cbv zeta. cbn [negb andb].
    apply agree_same_lookup; [solve [eauto with noexit] | intros existing].
    agree.
  Qed.

Lemma server_agree p (w : World St) :
    exited_ok (fst (coolify_server.run_module rt nw p false w)) = true ->
    exited_ok (fst (coolify_server.run_module rt nw p true w)) = true /\
    reported_changed (fst (coolify_server.run_module rt nw p true w))
    = reported_changed (fst (coolify_server.run_module rt nw p false w)).
  Proof.
    unfold coolify_server.run_module.
    apply runs_agree; [apply fails_fail_with_result |].
    unfold coolify_server.run_module_body. cbv zeta.
    apply agree_same_lookup; [solve [eauto with noexit] | intros existing].
    agree.
  Qed.

Lemma application_agree p (w : World St) :
    exited_ok (fst (coolify_application.run_module rt nw p false w)) = true ->
    exited_ok (fst (coolify_application.run_module rt nw p true w)) = true /\
    reported_changed (fst (coolify_application.run_module rt nw p true w))
    = reported_changed (fst (coolify_application.run_module rt nw p false w)).
  Proof.
    unfold coolify_application.run_module.
    apply runs_agree; [apply fails_fail_json_msg |].
    unfold coolify_application.run_module_body,
      coolify_application.require_existing. cbv zeta.
    apply agree_same_lookup; [solve [eauto with noexit] | intros existing].
    agree.
  Qed.

Lemma database_agree p (w : World St) :
    exited_ok (fst (coolify_database.run_module rt nw p false w)) = true ->
    exited_ok (fst (coolify_database.run_module rt nw p true w)) = true /\
    reported_changed (fst (coolify_database.run_module rt nw p true w))
    = reported_changed (fst (coolify_database.run_module rt nw p false w)).
  Proof.
    unfold coolify_database.run_module.
    apply runs_agree; [apply fails_fail_with_result |].
    unfold coolify_database.run_module_body,
      coolify_database.require_existing. cbv zeta.
    apply agree_same_lookup; [solve [eauto with noexit] | intros existing].
    agree.
  Qed.

Lemma service_agree p (w : World St) :
    exited_ok (fst (coolify_service.run_module rt nw p false w)) = true ->
    exited_ok (fst (coolify_service.run_module rt nw p true w)) = true /\
    reported_changed (fst (coolify_service.run_module rt nw p true w))
    = reported_changed (fst (coolify_service.run_module rt nw p false w)).
  Proof.
    unfold coolify_service.run_module.
    apply runs_agree; [apply fails_fail_with_result |].
    unfold coolify_service.run_module_body,
      coolify_service.require_existing. cbv zeta.
    apply agree_same_lookup; [solve [eauto with noexit] | intros existing].
    agree.
  Qed.

Lemma with_result_ret {X} init (x : X) (k : X -> @LM (World St) unit) w :
    with_result init (bind (ret x) k) w = with_result init (k x) w.
  Proof. reflexivity. Qed.

Lemma private_key_agree read_file p (w : World St) :
    exited_ok (fst (coolify_private_key.run_module rt nw read_file p false w))
    = true ->
    exited_ok (fst (coolify_private_key.run_module rt nw read_file p true w))
    = true /\
    reported_changed
      (fst (coolify_private_key.run_module rt nw read_file p true w))
    = reported_changed
        (fst (coolify_private_key.run_module rt nw read_file p false w)).
  Proof.
    unfold coolify_private_key.run_module.
    assert (Hbody : forall key,
      exited_ok (fst (with_result coolify_private_key.result_init
        (bind (try_except (coolify_private_key.run_module_body rt nw p key false)
                          is_Exception (fun e => fail_with_result e))
              (fun _ => exit_with_result (A := unit))) w)) = true ->
      exited_ok (fst (with_result coolify_private_key.result_init
        (bind (try_except (coolify_private_key.run_module_body rt nw p key true)
                          is_Exception (fun e => fail_with_result e))
              (fun _ => exit_with_result (A := unit))) w)) = true /\
      reported_changed (fst (with_result coolify_private_key.result_init
        (bind (try_except (coolify_private_key.run_module_body rt nw p key true)
                          is_Exception (fun e => fail_with_result e))
              (fun _ => exit_with_result (A := unit))) w))
      = reported_changed (fst (with_result coolify_private_key.result_init
        (bind (try_except (coolify_private_key.run_module_body rt nw p key false)
                          is_Exception (fun e => fail_with_result e))
              (fun _ => exit_with_result (A := unit))) w))).
    { intros key.
      apply runs_agree; [apply fails_fail_with_result |].
      unfold coolify_private_key.run_module_body. cbv zeta.
      apply agree_same_lookup; [solve [eauto with noexit] | intros existing].
      agree. }
    destruct (truthy_opt (coolify_private_key.private_key_file p)).
    - destruct (read_file (fmt_opt (coolify_private_key.private_key_file p)))
        as [text | err].
      + rewrite !with_result_ret. apply Hbody.
      + simpl. discriminate.
    - rewrite !with_result_ret. apply Hbody.
  Qed.
End Agree.

Section Passthrough.
  Context {St : Type}.
  Variable IMPORT_ERROR : string.
  Variable CoolifyClient :
    string -> string -> Z -> bool -> Res (swagger_coolify_api.Api St).

  (** What the passthrough wrapper reports in check mode, whatever the
      operation: [changed] keeps its initial [False]. *)
Lemma passthrough_check_report p (w : World St) :
    library_coolify_api.run_module true IMPORT_ERROR CoolifyClient p true w
    = (Raise (SystemExit false
                [("changed", PBool false);
                 ("response",
                  PDict [("check_mode", PBool true);
                         ("operation", PStr (library_coolify_api.operation p))]);
                 ("operation", PStr (library_coolify_api.operation p))]),
       w).
  Proof. reflexivity. Qed.
End Passthrough.

(** C5.  In check mode no wrapper issues a mutating network call, and
    [changed] tells what the run without check mode would report.  For
    every runtime and remote end:
    - each of the wrappers [coolify_project], [coolify_server],
      [coolify_application], [coolify_database] and [coolify_service]
      sends, in check mode, exactly one request, the GET that lists the
      collection in which it looks the resource up;
      [coolify_private_key] sends that GET and nothing else, or nothing
      at all when reading the key file fails;
    - for each of them, whenever the run without check mode from the
      same world completes ([exit_json]), the check-mode run completes
      too and reports the same [changed] (for [coolify_project]: when no
      [environments] are requested; they are left alone in check mode);
    - the passthrough wrapper [coolify_api] leaves the world as it is
      in check mode: no call is made. *)
Theorem C5_check_mode (rt : PyRuntime) {St : Type} (nw : Network St) :
  (forall p,
      looks_up_only (coolify_project.run_module rt nw p)
        (lookup_request (coolify_project.api_url p)
           (coolify_project.p_api_token p) (coolify_project.p_timeout p)
           (coolify_project.p_verify_ssl p) "/projects") /\
      (coolify_project.environments p = None \/
       coolify_project.environments p = Some [] ->
       dry_run_agrees (coolify_project.run_module rt nw p))) /\
  (forall p,
      looks_up_only (coolify_server.run_module rt nw p)
        (lookup_request (coolify_server.api_url p)
           (coolify_server.p_api_token p) (coolify_server.p_timeout p)
           (coolify_server.p_verify_ssl p) "/servers") /\
      dry_run_agrees (coolify_server.run_module rt nw p)) /\
  (forall read_file p,
      (forall w,
          log (snd (coolify_private_key.run_module rt nw read_file p true w))
          = log w ++
            [Sent (lookup_request (coolify_private_key.api_url p)
                     (coolify_private_key.p_api_token p)
                     (coolify_private_key.p_timeout p)
                     (coolify_private_key.p_verify_ssl p) "/security/keys")]
          \/ snd (coolify_private_key.run_module rt nw read_file p true w)
             = w) /\
      dry_run_agrees (coolify_private_key.run_module rt nw read_file p)) /\
  (forall p,
      looks_up_only (coolify_application.run_module rt nw p)
        (lookup_request (coolify_application.api_url p)
           (coolify_application.p_api_token p)
           (coolify_application.p_timeout p)
           (coolify_application.p_verify_ssl p) "/applications") /\
      dry_run_agrees (coolify_application.run_module rt nw p)) /\
  (forall p,
      looks_up_only (coolify_database.run_module rt nw p)
        (lookup_request (coolify_database.api_url p)
           (coolify_database.p_api_token p) (coolify_database.p_timeout p)
           (coolify_database.p_verify_ssl p) "/databases") /\
      dry_run_agrees (coolify_database.run_module rt nw p)) /\
  (forall p,
      looks_up_only (coolify_service.run_module rt nw p)
        (lookup_request (coolify_service.api_url p)
           (coolify_service.p_api_token p) (coolify_service.p_timeout p)
           (coolify_service.p_verify_ssl p) "/services") /\
      dry_run_agrees (coolify_service.run_module rt nw p)) /\
  (forall HAS_CLIENT IMPORT_ERROR CoolifyClient p (w : World St),
      snd (library_coolify_api.run_module HAS_CLIENT IMPORT_ERROR
             CoolifyClient p true w) = w).
Proof.
  refine (conj _ (conj _ (conj _ (conj _ (conj _ (conj _ _)))))).
  - intros p. split; [apply project_looks_up_only |].
    intros Henv w. apply project_agree. exact Henv.
  - intros p. split; [apply server_looks_up_only |].
    intros w. apply server_agree.
  - intros read_file p. split.
    + intros w. apply private_key_looks_up_only.
    + intros w. apply private_key_agree.
  - intros p. split; [apply application_looks_up_only |].
    intros w. apply application_agree.
  - intros p. split; [apply database_looks_up_only |].
    intros w. apply database_agree.
  - intros p. split; [apply service_looks_up_only |].
    intros w. apply service_agree.
  - intros. apply passthrough_check_world.
Qed.

(** The project wrapper, invoked in check mode for a project that does
    not exist, sends a request: the listing of the projects. *)
Lemma C5_counterexample :
  sent_requests
    (log (snd (coolify_project.run_module python.runtime store_example.store
                 (store_example.project_present "web") true
                 store_example.empty_store)))
  = [lookup_request "http://localhost:8000/api/v1" "token" 30 true "/projects"]
  /\ reported_changed
       (fst (coolify_project.run_module python.runtime store_example.store
               (store_example.project_present "web") true
               store_example.empty_store)) = true.
Proof. split; vm_compute; reflexivity. Qed.

Import examples3 examples4 wrapper_props2 examples5 examples6 examples7
  examples8 examples9.

(* ================================================================== *)
(** * Further properties of the code *)
(* ================================================================== *)

(** ** The searches of the listings *)

Section Lookups.

Lemma has_field_get k v x :
    has_field k v x -> forall d, py_get x k d = Ok (PStr v).
  Proof. intros (dx & -> & H) d. simpl. rewrite H. reflexivity. Qed.

Lemma has_field_truthy k v x : has_field k v x -> truthy x = true.
  Proof.
    intros (dx & -> & H). destruct dx; [discriminate | reflexivity].
  Qed.

Lemma get_has_field k v x y :
    py_get x k PNone = Ok y -> eq_str y v = true -> has_field k v x.
  Proof.
    destruct x; simpl; try discriminate.
    intros H E. exists d. split; [reflexivity |].
    destruct (dget k d) as [z |]; inversion H; subst.
    - destruct y; simpl in E; try discriminate.
      apply String.eqb_eq in E. subst. reflexivity.
    - discriminate.
  Qed.

Lemma eq_str_refl v : eq_str (PStr v) v = true.
  Proof. simpl. apply String.eqb_refl. Qed.

Lemma py_get_exception o k d e : py_get o k d = Raise e -> is_Exception e = true.
  Proof. destruct o; simpl; intros H; inversion H; reflexivity. Qed.

Lemma py_getitem_exception o k e :
    py_getitem o k = Raise e -> is_Exception e = true.
  Proof.
    destruct o; simpl; try (intros H; inversion H; reflexivity).
    destruct (dget k d); intros H; inversion H; reflexivity.
  Qed.

Lemma py_iter_exception o e : py_iter o = Raise e -> is_Exception e = true.
  Proof. destruct o; simpl; intros H; inversion H; reflexivity. Qed.

  (** The tests of a search loop, one after the other. *)
Ltac loop_tests :=
    repeat match goal with
           | |- context [if ?b then _ else _] =>
               lazymatch b with
               | context [match _ with _ => _ end] => fail
               | _ => destruct b eqn:?
               end
           | |- context [match py_get ?a ?k ?d with _ => _ end] =>
               destruct (py_get a k d) eqn:?
           end.

  (** The listed resource that the search goes by is not the one a
      test has just turned down. *)
Ltac turned_down :=
    exfalso;
    repeat match goal with
           | H : negb _ = false |- _ => apply negb_false_iff in H
           | H : negb _ = true |- _ => apply negb_true_iff in H
           end;
    repeat match goal with
           | H : _ \/ _ |- _ => destruct H
           | H : _ /\ _ |- _ => destruct H
           | H : exists _, _ |- _ => destruct H
           | H : true = true -> _ |- _ => specialize (H eq_refl)
           end;
    repeat match goal with
           | H1 : py_get ?y ?k ?d = Ok ?a, H2 : py_get ?y ?k ?d = Ok ?b |- _ =>
               rewrite H1 in H2; inversion H2; subst; clear H2
           | H1 : py_get ?y ?k ?d = Ok ?a, H2 : py_get ?y ?k ?d = Raise _ |- _ =>
               rewrite H1 in H2; discriminate
           end;
    repeat match goal with
           | Hf : has_field ?k _ ?y, Ev : py_get ?y ?k _ = Ok _ |- _ =>
               rewrite (has_field_get _ _ _ Hf) in Ev;
               inversion Ev; subst; clear Ev
           | Hf : has_field ?k _ ?y, Ev : py_get ?y ?k _ = Raise _ |- _ =>
               rewrite (has_field_get _ _ _ Hf) in Ev; discriminate
           end;
    repeat match goal with
           | H : context [eq_str (PStr ?v) ?v] |- _ =>
               rewrite eq_str_refl in H
           end;
    simpl in *; congruence.

Ltac pick_test :=
    first [ solve [eapply get_has_field; eassumption]
          | solve [split; [first [assumption | reflexivity]
                        | eapply get_has_field; eassumption]]
          | solve [left; pick_test]
          | solve [right; pick_test] ].

Ltac loop_leaf x Hin Hx IH :=
    lazymatch goal with
    | |- is_Exception _ = true => eapply py_get_exception; eassumption
    | |- In ?y (?y :: _) /\ _ =>
        split; [left; reflexivity |]; pick_test
    | |- match ?rest with _ => _ end =>
        destruct Hin as [-> | Hin]; [turned_down |];
        specialize (IH (ex_intro _ x (conj Hin Hx)));
        destruct rest;
        [destruct IH as [? ?]; split; [right; assumption | assumption]
        | exact IH]
    end.

  (** When the listing has a resource the search goes by, the search
      ends with such a resource, or with an exception. *)
Lemma find_by_uuid_or_name_finds name uuid items :
    (exists x, In x items /\ looked_up name uuid x) ->
    match library_client.find_by_uuid_or_name name uuid items with
    | Ok x => In x items /\ looked_up name uuid x
    | Raise e => is_Exception e = true
    end.
  Proof.
    induction items as [| y items IH]; intros (x & Hin & Hx).
    - destruct Hin.
    - cbn [library_client.find_by_uuid_or_name]. unfold rbind.
      unfold looked_up in *.
      loop_tests; loop_leaf x Hin Hx IH.
  Qed.

Lemma find_application_loop_finds name uuid project_uuid env items :
    (exists x, In x items /\
               application_looked_up name uuid project_uuid env x) ->
    match coolify_application.find_application_loop name uuid project_uuid
            env items with
    | Ok x => In x items /\ application_looked_up name uuid project_uuid env x
    | Raise e => is_Exception e = true
    end.
  Proof.
    induction items as [| y items IH]; intros (x & Hin & Hx).
    - destruct Hin.
    - cbn [coolify_application.find_application_loop]. unfold rbind.
      unfold application_looked_up in *.
      loop_tests.
      all: try solve [loop_leaf x Hin Hx IH].
      all: repeat match goal with
                  | H : negb _ = false |- _ => apply negb_false_iff in H
                  end.
      all: split; [left; reflexivity |]; right;
        repeat split; try assumption; try reflexivity;
        try (eapply get_has_field; eassumption);
        try (intros; discriminate);
        try (intros _; eapply get_has_field; eassumption);
        try (intros _; eexists; split;
             [eassumption | eapply get_has_field; eassumption]).
  Qed.

Lemma find_server_loop_finds name ip uuid items :
    (exists x, In x items /\ server_looked_up name ip uuid x) ->
    match coolify_server.find_server_loop name ip uuid items with
    | Ok x => In x items /\ server_looked_up name ip uuid x
    | Raise e => is_Exception e = true
    end.
  Proof.
    induction items as [| y items IH]; intros (x & Hin & Hx).
    - destruct Hin.
    - cbn [coolify_server.find_server_loop]. unfold rbind.
      unfold server_looked_up, looked_up in *.
      loop_tests; loop_leaf x Hin Hx IH.
  Qed.

Lemma first_project_finds name items :
    (exists x, In x items /\ has_field "name" name x) ->
    match swagger_coolify_api.first_project name items with
    | Ok x => In x items /\ has_field "name" name x
    | Raise e => is_Exception e = true
    end.
  Proof.
    induction items as [| y items IH]; intros (x & Hin & Hx).
    - destruct Hin.
    - cbn [swagger_coolify_api.first_project]. unfold rbind.
      loop_tests; loop_leaf x Hin Hx IH.
  Qed.

Lemma first_server_finds ip name items :
    (exists x, In x items /\ ensure_looked_up ip name x) ->
    match swagger_coolify_api.first_server ip name items with
    | Ok x => In x items /\ ensure_looked_up ip name x
    | Raise e => is_Exception e = true
    end.
  Proof.
    induction items as [| y items IH]; intros (x & Hin & Hx).
    - destruct Hin.
    - cbn [swagger_coolify_api.first_server]. unfold rbind.
      unfold ensure_looked_up in *.
      loop_tests; loop_leaf x Hin Hx IH.
  Qed.
End Lookups.

(** ** The client of the library wrappers *)

(** [CoolifyClient._request] of the library wrappers.  Whatever the
    remote end answers, a call sends exactly one request: to
    [base_url + endpoint], with the bearer token, and with a body only
    when [data] is a non-empty dictionary ([None] and [{}] send none).
    It never ends the process: what it raises is an exception.  An
    answer with an HTTP error status or a failed connection is never
    returned as a value, and an empty answer is returned as [{}]. *)
Theorem library_request_contract (rt : PyRuntime) {St : Type} (nw : Network St)
  (self : library_client.CoolifyClient) (method endpoint : string)
  (data : option (dict pyval)) (w : World St) :
  log (snd (library_client._request rt nw self method endpoint data w))
  = log w ++
    [Sent {| req_method := method;
             req_url := (library_client.base_url self ++ endpoint)%string;
             req_headers :=
               [("Authorization",
                 ("Bearer " ++ library_client.api_token self)%string);
                ("Accept", "application/json");
                ("Content-Type", "application/json")];
             req_data := match data with
                         | Some nil | None => None
                         | Some d => Some (json_dumps rt (PDict d))
                         end;
             req_timeout := library_client.timeout self;
             req_verify := library_client.verify_ssl self |}] /\
  (forall e,
      fst (library_client._request rt nw self method endpoint data w) = Raise e ->
      is_Exception e = true) /\
  (forall q o s',
      sent_requests (log (snd (library_client._request rt nw self method
                                 endpoint data w)))
      = sent_requests (log w) ++ [q] ->
      urlopen nw (remote w) q = (o, s') ->
      remote (snd (library_client._request rt nw self method endpoint data w))
      = s' /\
      match o with
      | UrlResponse _ body _ =>
          body = ""%string ->
          fst (library_client._request rt nw self method endpoint data w)
          = Ok (PDict [])
      | UrlHTTPError _ _ _ | UrlURLError _ =>
          exists e,
            fst (library_client._request rt nw self method endpoint data w)
            = Raise e
      end).
Proof.
  split; [| split].
  - rewrite request_log. destruct data as [[| kv d] |]; reflexivity.
  - intros e H.
    destruct (library_client._request rt nw self method endpoint data w)
      as [r w'] eqn:E.
    cbn [fst] in H. subst r. eapply request_raises. exact E.
  - intros q o s' Hq Ho.
    assert (Hsent : forall l r, sent_requests (l ++ [Sent r])
                                = sent_requests l ++ [r]).
    { intros l r. unfold sent_requests. rewrite flat_map_app. reflexivity. }
    rewrite request_log, Hsent in Hq.
    apply app_inj_tail in Hq. destruct Hq as [_ Hq]. subst q.
    unfold library_client._request, bind, do_urlopen in *.
    rewrite Ho. cbn [fst snd].
    destruct o as [st body hs | code fp hs | reason]; cbn [fst snd].
    + split.
      * destruct (body =? "")%string; [reflexivity |].
        destruct (json_loads rt body); reflexivity.
      * intros ->. reflexivity.
    + destruct (json_loads rt match fp with Some b => b | None => "" end).
      * unfold lift. destruct (py_get _ _ _); cbn [fst snd];
          (split; [reflexivity | eexists; reflexivity]).
      * split; [reflexivity | eexists; reflexivity].
    + split; [reflexivity | eexists; reflexivity].
Qed.

(** ** What a search finds *)

Section SearchSound.
Lemma find_by_uuid_or_name_sound name uuid items :
    match library_client.find_by_uuid_or_name name uuid items with
    | Ok x => x = PNone \/ (In x items /\ looked_up name uuid x)
    | Raise e => is_Exception e = true
    end.
  Proof.
    induction items as [| y items IH].
    - left. reflexivity.
    - cbn [library_client.find_by_uuid_or_name]. unfold rbind, looked_up in *.
      repeat match goal with
             | |- context [if ?b then _ else _] =>
                 lazymatch b with
                 | context [match _ with _ => _ end] => fail
                 | _ => destruct b eqn:?
                 end
             | |- context [match py_get ?a ?k ?d with _ => _ end] =>
                 destruct (py_get a k d) eqn:?
             end;
        lazymatch goal with
        | |- is_Exception _ = true => eapply py_get_exception; eassumption
        | |- _ = PNone \/ (In ?y (?y :: _) /\ _) =>
            right; split; [left; reflexivity |];
            first [ left; split; [reflexivity | eapply get_has_field; eassumption]
                  | right; split; [reflexivity | eapply get_has_field; eassumption] ]
        | |- match ?rest with _ => _ end =>
            destruct rest; [| exact IH];
            destruct IH as [-> | [Hin Hl]];
            [left; reflexivity | right; split; [right; exact Hin | exact Hl]]
        end.
  Qed.
End SearchSound.

(** [find_project], [find_private_key], [find_database] and
    [find_service] search the listing with the same loop.  Given neither
    a name nor a uuid (each [None] or empty), the loop finds nothing,
    whatever is listed.  What it returns is [None] or a listed
    dictionary that carries the requested uuid or the requested name.
    When such a dictionary is listed, the loop returns one (the first
    it meets) or stops on an entry that is no dictionary. *)
Theorem find_by_uuid_or_name_spec (name uuid : option string)
  (items : list pyval) :
  (truthy_opt name = false -> truthy_opt uuid = false ->
   library_client.find_by_uuid_or_name name uuid items = Ok PNone) /\
  (forall x,
      library_client.find_by_uuid_or_name name uuid items = Ok x ->
      x = PNone \/ (In x items /\ looked_up name uuid x)) /\
  ((exists x, In x items /\ looked_up name uuid x) ->
   match library_client.find_by_uuid_or_name name uuid items with
   | Ok x => In x items /\ looked_up name uuid x /\ truthy x = true
   | Raise e => is_Exception e = true
   end).
Proof.
  split; [| split].
  - intros Hn Hu. induction items as [| y items IH]; [reflexivity |].
    cbn [library_client.find_by_uuid_or_name]. rewrite Hn, Hu. exact IH.
  - intros x H. pose proof (find_by_uuid_or_name_sound name uuid items) as S.
    rewrite H in S. exact S.
  - intros Hex.
    pose proof (find_by_uuid_or_name_finds name uuid items Hex) as F.
    destruct (library_client.find_by_uuid_or_name name uuid items);
      [| exact F].
    destruct F as [Hin Hl]. repeat split; try assumption.
    destruct Hl as [[_ Hf] | [_ Hf]]; eapply has_field_truthy; exact Hf.
Qed.

(** ** [call_operation] when no attempt is allowed *)

(** With [max_retries] zero or negative, [range(self.max_retries)] is
    empty: [call_operation] builds the request, so an unknown operation
    or an ill-typed declaration still raises, but it sends nothing, does
    not sleep, and returns [None]. *)
Theorem call_operation_without_attempts (rt : PyRuntime) {St : Type}
  (nw : Network St) (HAS_REQUESTS : bool) (self : SwaggerClient)
  (operation_id : string) (params : option (dict pyval)) (raw_response : bool)
  (w : World St) :
  (max_retries self <= 0)%Z ->
  call_operation rt nw HAS_REQUESTS self operation_id params raw_response w
  = match build_request rt self operation_id params with
    | Ok _ => (Ok PNone, w)
    | Raise e => (Raise e, w)
    end.
Proof.
  intros Hmax.
  destruct (build_request rt self operation_id params) as [rq | e] eqn:E.
  - rewrite (call_operation_built rt nw HAS_REQUESTS self operation_id params
               raw_response rq w E).
    replace (Z.to_nat (max_retries self)) with 0%nat by lia.
    reflexivity.
  - apply call_operation_not_built. exact E.
Qed.

Lemma call_operation_without_attempts_witness :
  call_operation python.runtime two_failures_then_ok false no_retry_client
                 "list-projects" None false fresh_world
  = (Ok PNone, fresh_world).
Proof.
  exact (call_operation_without_attempts python.runtime two_failures_then_ok
           false no_retry_client "list-projects" None false fresh_world
           (Z.le_refl 0)).
Defined.

(** ** The facade's [_call] *)

(** [CoolifyClient._call] of the facade makes exactly one call of the
    underlying client, whatever comes of it.  No [SwaggerClientError]
    leaves it: one raised by the client comes out as a [CoolifyError]
    with the same text (and no response attached).  With
    [check_response=False] a returned response is handed on untouched,
    an error message inside it included; with [check_response=True] it
    is handed on untouched or refused with a [CoolifyError] that carries
    it. *)
Theorem facade_call_contract {St : Type} (_client : swagger_coolify_api.Api St)
  (operation_id : string) (params : option (dict pyval))
  (check_response : bool) (w : World St) :
  log (snd (swagger_coolify_api._call _client operation_id params
              check_response w))
  = log w ++ [Called operation_id params] /\
  remote (snd (swagger_coolify_api._call _client operation_id params
                 check_response w))
  = snd (_client (remote w) operation_id params) /\
  match fst (_client (remote w) operation_id params) with
  | Raise (SwaggerClientError m) =>
      fst (swagger_coolify_api._call _client operation_id params
             check_response w)
      = Raise (CoolifyError m None)
  | Raise e =>
      fst (swagger_coolify_api._call _client operation_id params
             check_response w) = Raise e
  | Ok response =>
      if check_response
      then fst (swagger_coolify_api._call _client operation_id params true w)
           = Ok response \/
           (exists m,
               fst (swagger_coolify_api._call _client operation_id params true w)
               = Raise (CoolifyError m (Some response))) \/
           (exists m,
               fst (swagger_coolify_api._call _client operation_id params true w)
               = Raise (AttributeError m))
      else fst (swagger_coolify_api._call _client operation_id params false w)
           = Ok response
  end.
Proof.
  unfold swagger_coolify_api._call, swagger_coolify_api.call_operation,
    try_except, bind, lift, ret, raise.
  destruct (_client (remote w) operation_id params) as [[response | e] s'];
    cbn [fst snd].
  - destruct check_response; cbn [fst snd].
    + unfold swagger_coolify_api._check_response.
      destruct response as [| | | | | d]; cbn [fst snd log remote];
        try (repeat split; left; reflexivity).
      destruct (dmem "message" d); cbn [fst snd log remote];
        [| repeat split; left; reflexivity].
      unfold rbind, py_get.
      destruct (match dget "message" d with Some v => v | None => PStr "" end)
        as [| | | msg | |]; cbn [py_str_self fst snd log remote];
        try (repeat split; right; right; eexists; reflexivity).
      destruct (contains "error" (lower msg)); cbn [fst snd log remote].
      * repeat split. right. left. eexists. reflexivity.
      * repeat split. left. reflexivity.
    + repeat split.
  - destruct e; cbn [fst snd log remote swagger_coolify_api.is_SwaggerClientError];
      repeat split.
Qed.

(** ** Following a run *)

Section Follow.
  Context {S : Type}.

Lemma follow_bind {A B} (c : M S A) (k : A -> M S B) s P :
    ends_with c s (fun r s' => match r with
                               | Ok a => ends_with (k a) s' P
                               | Raise e => P (Raise e) s'
                               end) ->
    ends_with (bind c k) s P.
  Proof.
    unfold ends_with, bind. destruct (c s) as [[a | e] s']; auto.
  Qed.

Lemma follow_ret {A} (a : A) s (P : Res A -> S -> Prop) :
    P (Ok a) s -> ends_with (ret a) s P.
  Proof. auto. Qed.

Lemma follow_raise {A} e s (P : Res A -> S -> Prop) :
    P (Raise e) s -> ends_with (raise e) s P.
  Proof. auto. Qed.

Lemma follow_lift {A} (r : Res A) s (P : Res A -> S -> Prop) :
    P r s -> ends_with (lift r) s P.
  Proof. auto. Qed.

Lemma follow_fail_json_msg {A} msg kwargs s (P : Res A -> S -> Prop) :
    P (Raise (if dmem "msg" kwargs
              then TypeError "got multiple values for keyword argument 'msg'"
              else SystemExit true (("msg", PStr msg) :: kwargs))) s ->
    ends_with (fail_json_msg msg kwargs) s P.
  Proof.
    unfold ends_with, fail_json_msg. destruct (dmem "msg" kwargs); auto.
  Qed.

Lemma follow_fail_json_msg_nil {A} msg s (P : Res A -> S -> Prop) :
    P (Raise (SystemExit true [("msg", PStr msg)])) s ->
    ends_with (fail_json_msg msg []) s P.
  Proof. auto. Qed.

Lemma follow_try_except {A} (c : M S A) handled h s P :
    ends_with c s (fun r s' => match r with
                               | Ok a => P (Ok a) s'
                               | Raise e => if handled e : bool
                                            then ends_with (h e) s' P
                                            else P (Raise e) s'
                               end) ->
    ends_with (try_except c handled h) s P.
  Proof.
    unfold ends_with, try_except. destruct (c s) as [[a | e] s']; auto.
    cbn [fst snd]. destruct (handled e); auto.
  Qed.
End Follow.

Section FollowLocals.
  Context {W : Type}.

Lemma follow_set_result k v (s : dict pyval * W) P :
    P (Ok tt) (dset k v (fst s), snd s) -> ends_with (set_result k v) s P.
  Proof. auto. Qed.

Lemma follow_get_result (s : dict pyval * W) P :
    P (Ok (fst s)) s -> ends_with get_result s P.
  Proof. auto. Qed.

Lemma follow_on_world {A} (act : M W A) (s : dict pyval * W) P :
    (forall x w', act (snd s) = (x, w') -> P x (fst s, w')) ->
    ends_with (on_world act) s P.
  Proof.
    intros H. unfold ends_with, on_world.
    destruct (act (snd s)) as [x w'] eqn:E. apply H. reflexivity.
  Qed.

Lemma follow_with_result {A} init (c : @LM W A) (w : W) P :
    ends_with c (init, w) (fun r s => P r (snd s)) ->
    ends_with (with_result init c) w P.
  Proof.
    unfold ends_with, with_result. destruct (c (init, w)) as [x s']. auto.
  Qed.

Lemma follow_exit_with_result {A} (s : dict pyval * W)
        (P : Res A -> dict pyval * W -> Prop) :
    P (Raise (SystemExit false (fst s))) s -> ends_with exit_with_result s P.
  Proof. auto. Qed.

Lemma follow_fail_with_result {A} e (s : dict pyval * W)
        (P : Res A -> dict pyval * W -> Prop) :
    P (Raise (SystemExit true (dset "msg" (PStr (exn_str e)) (fst s))))
      (dset "msg" (PStr (exn_str e)) (fst s), snd s) ->
    ends_with (fail_with_result e) s P.
  Proof. auto. Qed.
End FollowLocals.

(** What is known is used, what is not is split. *)
Ltac known_or_split x :=
  first [ match goal with H : x = _ |- _ => rewrite H end
        | match goal with
          | H : ?y = _ |- _ =>
              lazymatch x with context [y] => rewrite H end
          end
        | destruct x eqn:? ].

Ltac follow_step :=
  cbv beta iota; cbn [fst snd negb];
  lazymatch goal with
  | |- ends_with (bind _ _) _ _ => apply follow_bind
  | |- ends_with (ret _) _ _ => apply follow_ret
  | |- ends_with (raise _) _ _ => apply follow_raise
  | |- ends_with (lift _) _ _ => apply follow_lift
  | |- ends_with (set_result _ _) _ _ => apply follow_set_result
  | |- ends_with get_result _ _ => apply follow_get_result
  | |- ends_with (fail_json_msg _ []) _ _ => apply follow_fail_json_msg_nil
  | |- ends_with (fail_json_msg _ _) _ _ => apply follow_fail_json_msg
  | |- ends_with exit_with_result _ _ => apply follow_exit_with_result
  | |- ends_with (fail_with_result _) _ _ => apply follow_fail_with_result
  | |- ends_with (with_result _ _) _ _ => apply follow_with_result
  | |- ends_with (try_except _ _ _) _ _ => apply follow_try_except
  | |- ends_with (on_world ?act) _ _ =>
      apply follow_on_world;
      let x := fresh "x" in
      let w' := fresh "w" in
      let H := fresh "Hact" in
      intros x w' H; cbn [fst snd] in H;
      first [ match goal with
              | K : ?l = _ |- _ =>
                  lazymatch l with act _ => idtac end;
                  rewrite K in H; inversion H; subst x w'; clear H
              end
            | cbv [ret raise] in H;
              lazymatch type of H with
              | (_, _) = _ => inversion H; subst x w'; clear H
              end
            | idtac ]
  | |- ends_with (if ?b then _ else _) _ _ => known_or_split b
  | |- ends_with (match ?x with _ => _ end) _ _ => known_or_split x
  | |- match ?r with Ok _ => _ | Raise _ => _ end => known_or_split r
  | |- (if ?b then _ else _) => known_or_split b
  end.

Ltac follow := repeat follow_step; cbv beta iota; cbn [fst snd].

(** ** An empty description for a private key *)

Section PrivateKey.
  Variable rt : PyRuntime.
  Context {St : Type} (nw : Network St).

Lemma find_by_uuid_or_name_total name uuid items :
    all_dicts items ->
    exists x, library_client.find_by_uuid_or_name name uuid items = Ok x.
  Proof.
    induction 1 as [| y items (d & ->) _ IH]; [eexists; reflexivity |].
    cbn [library_client.find_by_uuid_or_name]. unfold rbind, py_get.
    destruct IH as (x & IH).
    destruct (truthy_opt uuid), (truthy_opt name);
      repeat match goal with
             | |- context [if ?b then _ else _] => destruct b
             end; eauto.
  Qed.

Lemma find_private_key_found client name uuid items (w w' : World St) :
    coolify_private_key.list_private_keys rt nw client w
    = (Ok (PList items), w') ->
    all_dicts items ->
    (exists x, In x items /\ looked_up name uuid x) ->
    exists x,
      coolify_private_key.find_private_key rt nw client name uuid w
      = (Ok x, w') /\
      In x items /\ looked_up name uuid x.
  Proof.
    intros Hlist Hd Hex.
    destruct (find_by_uuid_or_name_total name uuid items Hd) as (x & Hx).
    pose proof (find_by_uuid_or_name_finds name uuid items Hex) as F.
    rewrite Hx in F. exists x. split; [| exact F].
    unfold coolify_private_key.find_private_key, bind, lift.
    rewrite Hlist. cbn [py_iter]. rewrite Hx. reflexivity.
  Qed.
End PrivateKey.

(** [coolify_private_key] asked for an empty description ([''], which
    is not [None]) for a key that is listed with another description:
    [needs_update] says yes, [update_private_key] drops the empty
    description and sends nothing, and the run reports [changed] all the
    same.  The only request is the lookup; the key keeps its
    description, so every further run reports a change again. *)
Theorem private_key_empty_description_not_sent (rt : PyRuntime) {St : Type}
  (nw : Network St) (read_file : string -> string + string)
  (p : coolify_private_key.params) (items : list pyval) (w w' : World St) :
  coolify_private_key.state p = "present" ->
  coolify_private_key.description p = Some "" ->
  truthy_opt (coolify_private_key.private_key_file p) = false ->
  coolify_private_key.list_private_keys rt nw
    (library_client.__init__ (coolify_private_key.api_url p)
       (coolify_private_key.p_api_token p) (coolify_private_key.p_timeout p)
       (coolify_private_key.p_verify_ssl p)) w
  = (Ok (PList items), w') ->
  all_dicts items ->
  (exists x, In x items /\
             looked_up (Some (coolify_private_key.name p))
                       (coolify_private_key.uuid p) x) ->
  (forall x, In x items ->
             looked_up (Some (coolify_private_key.name p))
                       (coolify_private_key.uuid p) x ->
             (exists u, has_field "uuid" u x) /\
             (exists d, has_field "description" d x /\ d <> "")) ->
  snd (coolify_private_key.run_module rt nw read_file p false w) = w' /\
  exited_ok (fst (coolify_private_key.run_module rt nw read_file p false w))
  = true /\
  reported_changed
    (fst (coolify_private_key.run_module rt nw read_file p false w)) = true.
Proof.
  intros Hstate Hdesc Hfile Hlist Hdicts Hex Hall.
  destruct (find_private_key_found rt nw _ _ _ _ _ _ Hlist Hdicts Hex)
    as (x & Hfind & Hin & Hl).
  destruct (Hall x Hin Hl) as ((u & Hu) & (d & Hd & Hne)).
  assert (Htruthy : truthy x = true) by (eapply has_field_truthy; exact Hu).
  assert (Huuid : py_getitem x "uuid" = Ok (PStr u)).
  { destruct Hu as (dx & -> & Hu). simpl. rewrite Hu. reflexivity. }
  assert (Hneeds : coolify_private_key.needs_update x p = Ok true).
  { unfold coolify_private_key.needs_update. rewrite Hdesc.
    rewrite (has_field_get _ _ _ Hd). simpl.
    destruct (d =? "")%string eqn:E; [| reflexivity].
    apply String.eqb_eq in E. contradiction. }
  change (ends_with (coolify_private_key.run_module rt nw read_file p false) w
            (fun r w1 => w1 = w' /\ exited_ok r = true /\
                         reported_changed r = true)).
  unfold coolify_private_key.run_module,
    coolify_private_key.run_module_body,
    coolify_private_key.update_private_key.
  rewrite Hfile, Hstate, Hdesc, String.eqb_refl. cbv zeta.
  cbn [truthy_opt opt_to_py negb String.eqb].
  follow.
  all: repeat split; reflexivity.
Qed.

Lemma private_key_empty_description_not_sent_witness :
  store_example.wire_log
    (log (snd (coolify_private_key.run_module python.runtime
                 store_example.store no_file clear_description false
                 one_key)))
  = [("GET", "http://localhost:8000/api/v1/security/keys")] /\
  reported_changed
    (fst (coolify_private_key.run_module python.runtime
            store_example.store no_file clear_description false one_key))
  = true.
Proof.
  destruct (private_key_empty_description_not_sent python.runtime
              store_example.store no_file clear_description [deploy_key]
              one_key
              {| remote := [deploy_key];
                 log := [Sent (lookup_request "http://localhost:8000/api/v1"
                                 "token" 30 true "/security/keys")] |})
    as (Hw & _ & Hc).
  - reflexivity.
  - reflexivity.
  - reflexivity.
  - vm_compute. reflexivity.
  - repeat constructor. eexists. reflexivity.
  - exists deploy_key. split; [left; reflexivity |].
    right. split; [reflexivity |]. eexists. split; reflexivity.
  - intros x [<- | []] _. split.
    + exists "id-0". eexists. split; reflexivity.
    + exists "CI key". split; [eexists; split; reflexivity | discriminate].
  - rewrite Hw. split; [reflexivity | exact Hc].
Defined.

(** ** [ensure_project] and [ensure_server] on what is listed *)

Section EnsureFinds.
Lemma first_project_total name items :
    all_dicts items ->
    exists x, swagger_coolify_api.first_project name items = Ok x.
  Proof.
    induction 1 as [| y items (d & ->) _ IH]; [eexists; reflexivity |].
    cbn [swagger_coolify_api.first_project py_get rbind].
    destruct (eq_str _ name); [eexists; reflexivity | exact IH].
  Qed.

Lemma first_server_total ip name items :
    all_dicts items ->
    exists x, swagger_coolify_api.first_server ip name items = Ok x.
  Proof.
    induction 1 as [| y items (d & ->) _ IH]; [eexists; reflexivity |].
    cbn [swagger_coolify_api.first_server py_get rbind].
    destruct (eq_str _ ip); [eexists; reflexivity |].
    destruct (eq_str _ name); [eexists; reflexivity | exact IH].
  Qed.
End EnsureFinds.

(** [ensure_project] with [state='present'], when the listing holds a
    project of that name: it makes the one call [list-projects], and
    returns [changed: False] with a listed project of that name as
    [data]; whatever [kwargs] holds is not looked at. *)
Theorem ensure_project_found {St : Type}
  (_client : swagger_coolify_api.Api St) (name : string)
  (kwargs : dict pyval) (items : list pyval) (w : World St) (s' : St) :
  _client (remote w) "list-projects" None = (Ok (PList items), s') ->
  all_dicts items ->
  (exists x, In x items /\ has_field "name" name x) ->
  exists x,
    In x items /\ has_field "name" name x /\
    swagger_coolify_api.ensure_project _client name "present" kwargs w
    = (Ok [("changed", PBool false);
           ("msg", PStr ("Project '" ++ name ++ "' already exists"));
           ("data", x)],
       {| remote := s'; log := log w ++ [Called "list-projects" None] |}).
Proof.
  intros Hlist Hdicts Hex.
  destruct (first_project_total name items Hdicts) as (x & Hx).
  pose proof (first_project_finds name items Hex) as F.
  rewrite Hx in F. destruct F as [Hin Hf].
  exists x. split; [exact Hin |]. split; [exact Hf |].
  pose proof (has_field_truthy _ _ _ Hf) as Ht.
  unfold swagger_coolify_api.ensure_project, with_result, bind, try_except,
    swagger_coolify_api.ensure_project_body, bind, on_world,
    swagger_coolify_api.list_projects, swagger_coolify_api._call, try_except,
    bind, swagger_coolify_api.call_operation.
  cbn [fst snd]. rewrite Hlist. cbn [fst snd ret lift py_iter].
  rewrite Hx. cbn [String.eqb Ascii.eqb Bool.eqb]. rewrite Ht.
  reflexivity.
Qed.

Lemma ensure_project_found_witness :
  swagger_coolify_api.ensure_project (listing_api (PList [web_project]))
    "web" "present" [("description", PStr "shop")] quiet_world
  = (Ok [("changed", PBool false);
         ("msg", PStr "Project 'web' already exists");
         ("data", web_project)],
     {| remote := tt; log := [Called "list-projects" None] |}).
Proof.
  destruct (ensure_project_found (listing_api (PList [web_project])) "web"
              [("description", PStr "shop")] [web_project] quiet_world tt)
    as (x & [<- | []] & _ & H).
  - reflexivity.
  - repeat constructor. eexists. reflexivity.
  - exists web_project. split; [left; reflexivity |].
    eexists. split; reflexivity.
  - exact H.
Defined.

(** [ensure_server] with [state='present'], when the listing holds a
    server with that [ip] or that [name]: one call, [list-servers], and
    [changed: False] with such a server as [data].  The private key,
    the port and the other settings asked for are not compared with the
    server found. *)
Theorem ensure_server_found {St : Type}
  (_client : swagger_coolify_api.Api St) (name ip : string)
  (private_key_uuid : pyval) (kwargs : dict pyval) (items : list pyval)
  (w : World St) (s' : St) :
  _client (remote w) "list-servers" None = (Ok (PList items), s') ->
  all_dicts items ->
  (exists x, In x items /\ ensure_looked_up ip name x) ->
  exists x,
    In x items /\ ensure_looked_up ip name x /\
    swagger_coolify_api.ensure_server _client name ip private_key_uuid
      "present" kwargs w
    = (Ok [("changed", PBool false);
           ("msg", PStr ("Server '" ++ name ++ "' already exists"));
           ("data", x)],
       {| remote := s'; log := log w ++ [Called "list-servers" None] |}).
Proof.
  intros Hlist Hdicts Hex.
  destruct (first_server_total ip name items Hdicts) as (x & Hx).
  pose proof (first_server_finds ip name items Hex) as F.
  rewrite Hx in F. destruct F as [Hin Hf].
  exists x. split; [exact Hin |]. split; [exact Hf |].
  assert (Ht : truthy x = true)
    by (destruct Hf as [Hf | Hf]; eapply has_field_truthy; exact Hf).
  unfold swagger_coolify_api.ensure_server, with_result, bind, try_except,
    swagger_coolify_api.ensure_server_body, bind, on_world,
    swagger_coolify_api.list_servers, swagger_coolify_api._call, try_except,
    bind, swagger_coolify_api.call_operation.
  cbn [fst snd]. rewrite Hlist. cbn [fst snd ret lift py_iter].
  rewrite Hx. cbn [String.eqb Ascii.eqb Bool.eqb]. rewrite Ht.
  reflexivity.
Qed.

Lemma ensure_server_found_witness :
  swagger_coolify_api.ensure_server (listing_api (PList [build_server]))
    "other-name" "10.0.0.5" (PStr "k-9") "present" [("port", PInt 2222)]
    quiet_world
  = (Ok [("changed", PBool false);
         ("msg", PStr "Server 'other-name' already exists");
         ("data", build_server)],
     {| remote := tt; log := [Called "list-servers" None] |}).
Proof.
  destruct (ensure_server_found (listing_api (PList [build_server]))
              "other-name" "10.0.0.5" (PStr "k-9") [("port", PInt 2222)]
              [build_server] quiet_world tt)
    as (x & [<- | []] & _ & H).
  - reflexivity.
  - repeat constructor. eexists. reflexivity.
  - exists build_server. split; [left; reflexivity |].
    left. eexists. split; reflexivity.
  - exact H.
Defined.

(** A listing that is an object and not a list -- the body of an error
    answer, which [call_operation] returns like any other -- makes
    [ensure_project] and [ensure_server] raise: the loop visits the
    keys of the object, and a key has no [get].  The [AttributeError] is
    no [CoolifyError], so it leaves the method; nothing but the listing
    was called. *)
Theorem ensure_listing_object {St : Type}
  (_client : swagger_coolify_api.Api St) (d : dict pyval) (w : World St)
  (s' : St) :
  d <> [] ->
  (forall name state kwargs,
      _client (remote w) "list-projects" None = (Ok (PDict d), s') ->
      swagger_coolify_api.ensure_project _client name state kwargs w
      = (Raise (AttributeError "object has no attribute 'get'"),
         {| remote := s'; log := log w ++ [Called "list-projects" None] |}))
  /\
  (forall name ip private_key_uuid state kwargs,
      _client (remote w) "list-servers" None = (Ok (PDict d), s') ->
      swagger_coolify_api.ensure_server _client name ip private_key_uuid
        state kwargs w
      = (Raise (AttributeError "object has no attribute 'get'"),
         {| remote := s'; log := log w ++ [Called "list-servers" None] |})).
Proof.
  intros Hd. destruct d as [| [k v] d]; [congruence |].
  split; intros; 
    unfold swagger_coolify_api.ensure_project,
      swagger_coolify_api.ensure_server, with_result, bind, try_except,
      swagger_coolify_api.ensure_project_body,
      swagger_coolify_api.ensure_server_body, bind, on_world,
      swagger_coolify_api.list_projects, swagger_coolify_api.list_servers,
      swagger_coolify_api._call, try_except,
      bind, swagger_coolify_api.call_operation;
    cbn [fst snd]; rewrite H; reflexivity.
Qed.

Lemma ensure_listing_object_witness :
  fst (swagger_coolify_api.ensure_project (listing_api unauthenticated)
         "web" "present" [] quiet_world)
  = Raise (AttributeError "object has no attribute 'get'") /\
  fst (swagger_coolify_api.ensure_server (listing_api unauthenticated)
         "build" "10.0.0.5" (PStr "k-9") "absent" [] quiet_world)
  = Raise (AttributeError "object has no attribute 'get'").
Proof.
  destruct (ensure_listing_object (listing_api unauthenticated)
              [("message", PStr "Unauthenticated.")] quiet_world tt)
    as [Hp Hs].
  - discriminate.
  - split.
    + rewrite (Hp "web" "present" [] eq_refl). reflexivity.
    + rewrite (Hs "build" "10.0.0.5" (PStr "k-9") "absent" [] eq_refl).
      reflexivity.
Defined.

(** ** The requests of a wrapper run *)

Section Requests.
  Variable rt : PyRuntime.
  Context {St : Type} (nw : Network St).

Lemma request_sent self method endpoint data (w w1 : World St) x :
    library_client._request rt nw self method endpoint data w = (x, w1) ->
    log w1 = log w ++
      [Sent {| req_method := method;
               req_url := (library_client.base_url self ++ endpoint)%string;
               req_headers :=
                 [("Authorization",
                   ("Bearer " ++ library_client.api_token self)%string);
                  ("Accept", "application/json");
                  ("Content-Type", "application/json")];
               req_data := match data with
                           | Some ((_ :: _) as d) =>
                               Some (json_dumps rt (PDict d))
                           | _ => None
                           end;
               req_timeout := library_client.timeout self;
               req_verify := library_client.verify_ssl self |}].
  Proof.
    intros H. rewrite <- (request_log rt nw self method endpoint data w).
    rewrite H. reflexivity.
  Qed.

Lemma find_sent {X} api_url api_token timeout verify_ssl endpoint
        (search : list pyval -> Res X) (w w1 : World St) x :
    bind (library_client._request rt nw
            (library_client.__init__ api_url api_token timeout verify_ssl)
            "GET" endpoint None)
         (fun v => bind (lift (py_iter v))
                        (fun items => lift (search items))) w = (x, w1) ->
    log w1 = log w ++ [Sent (lookup_request api_url api_token timeout
                                            verify_ssl endpoint)].
  Proof.
    intros H.
    rewrite <- (lookup_log rt nw api_url api_token timeout verify_ssl
                           endpoint w).
    rewrite <- (find_world _ search w). rewrite H. reflexivity.
  Qed.
End Requests.

Ltac sent_facts :=
  repeat match goal with
         | H : match ?d with Some _ => _ | None => _ end ?w = (_, ?w1) |- _ =>
             destruct d eqn:?
         | H : match ?d with [] => _ | _ :: _ => _ end ?w = (_, ?w1) |- _ =>
             destruct d eqn:?
         | H : raise _ ?w = (_, ?w1) |- _ =>
             cbv [raise] in H; inversion H; subst w1; clear H
         | H : ret _ ?w = (_, ?w1) |- _ =>
             cbv [ret] in H; inversion H; subst w1; clear H
         | H : _ ?w = (_, ?w1) |- _ =>
             first [ apply find_sent in H | apply request_sent in H ]
         end.

Ltac state_facts :=
  repeat match goal with
         | H : (_ =? _)%string = true |- _ => apply String.eqb_eq in H
         end.

Ltac only_lookup :=
  left;
  repeat match goal with
         | H : log ?w = _ |- context [log ?w] => rewrite H
         end;
  reflexivity.

Ltac one_more :=
  right; eexists; split;
  [ repeat match goal with
           | H : log ?w = _ |- context [log ?w] => rewrite H
           end;
    rewrite <- app_assoc; reflexivity
  | ].

Ltac pick_case tac :=
  first [ solve [tac] | left; solve [tac] | right; pick_case tac ].

Ltac admitted_request :=
  split; [assumption |]; split; [reflexivity |];
  repeat eexists; try eassumption; reflexivity.

Ltac trace_leaves :=
  sent_facts; state_facts;
  first [ only_lookup
        | one_more; (split; [reflexivity |]); pick_case admitted_request ].

Ltac trace_goal :=
  match goal with
  | |- sends_lookup_then ?w (snd (?c ?w)) ?l ?a =>
      change (ends_with c w (fun _ w' => sends_lookup_then w w' l a))
  end.

(** [coolify_server], in check mode or not: the run sends the listing
    of the servers and then at most one request.  That request is sent
    outside check mode only, and the state decides which it is: the
    creating POST for [present], the DELETE of the server found for
    [absent], the GET that starts the validation for [validated]. *)
Theorem server_requests (rt : PyRuntime) {St : Type} (nw : Network St)
  (p : coolify_server.params) (check_mode : bool) (w : World St) :
  sends_lookup_then w (snd (coolify_server.run_module rt nw p check_mode w))
    (lookup_request (coolify_server.api_url p) (coolify_server.p_api_token p)
       (coolify_server.p_timeout p) (coolify_server.p_verify_ssl p)
       "/servers")
    (fun q =>
       check_mode = false /\
       ((coolify_server.state p = "present" /\ req_method q = "POST" /\
         req_url q
         = (rstrip "/" (coolify_server.api_url p) ++ "/servers")%string) \/
        (coolify_server.state p = "absent" /\ req_method q = "DELETE" /\
         exists u, req_url q
                   = (rstrip "/" (coolify_server.api_url p)
                      ++ "/servers/" ++ py_str rt u)%string) \/
        (coolify_server.state p = "validated" /\ req_method q = "GET" /\
         exists u, req_url q
                   = (rstrip "/" (coolify_server.api_url p)
                      ++ "/servers/" ++ py_str rt u ++ "/validate")%string))).
Proof.
  trace_goal.
  unfold coolify_server.run_module, coolify_server.run_module_body.
  cbv zeta.
  follow.
  all: cbv beta zeta delta
         [coolify_server.find_server coolify_server.list_servers
          coolify_server.create_server coolify_server.delete_server
          coolify_server.validate_server coolify_server._request] in *.
  all: trace_leaves.
Qed.

(** [coolify_application]: the listing of the applications, then at
    most one request, outside check mode only.  For [present] it is the
    POST to the endpoint of the application type; for [absent] the
    DELETE of the application found, with the query string of the two
    delete flags; for [started], [stopped] and [restarted] the POST to
    that action of the application found; for [deployed] the POST to
    [/deploy].  No state makes the module send two of them. *)
Theorem application_requests (rt : PyRuntime) {St : Type} (nw : Network St)
  (p : coolify_application.params) (check_mode : bool) (w : World St) :
  sends_lookup_then w
    (snd (coolify_application.run_module rt nw p check_mode w))
    (lookup_request (coolify_application.api_url p)
       (coolify_application.p_api_token p) (coolify_application.p_timeout p)
       (coolify_application.p_verify_ssl p) "/applications")
    (fun q =>
       check_mode = false /\
       ((coolify_application.state p = "present" /\ req_method q = "POST" /\
         exists endpoint,
           dget (fmt_opt (coolify_application.application_type p))
                coolify_application.type_endpoints = Some endpoint /\
           req_url q
           = (rstrip "/" (coolify_application.api_url p) ++ endpoint)%string)
        \/
        (coolify_application.state p = "absent" /\ req_method q = "DELETE" /\
         exists u,
           req_url q
           = (rstrip "/" (coolify_application.api_url p)
              ++ "/applications/" ++ py_str rt u
              ++ library_client.delete_query
                   (coolify_application.delete_configurations p)
                   (coolify_application.delete_volumes p))%string) \/
        (coolify_application.state p = "started" /\ req_method q = "POST" /\
         exists u,
           req_url q
           = (rstrip "/" (coolify_application.api_url p)
              ++ "/applications/" ++ py_str rt u ++ "/start")%string) \/
        (coolify_application.state p = "stopped" /\ req_method q = "POST" /\
         exists u,
           req_url q
           = (rstrip "/" (coolify_application.api_url p)
              ++ "/applications/" ++ py_str rt u ++ "/stop")%string) \/
        (coolify_application.state p = "restarted" /\ req_method q = "POST" /\
         exists u,
           req_url q
           = (rstrip "/" (coolify_application.api_url p)
              ++ "/applications/" ++ py_str rt u ++ "/restart")%string) \/
        (coolify_application.state p = "deployed" /\ req_method q = "POST" /\
         exists u,
           req_url q
           = (rstrip "/" (coolify_application.api_url p)
              ++ "/deploy?uuid=" ++ py_str rt u)%string))).
Proof.
  trace_goal.
  unfold coolify_application.run_module, coolify_application.run_module_body,
    coolify_application.require_existing.
  cbv zeta.
  follow.
  all: cbv beta zeta delta
         [coolify_application.find_application
          coolify_application.list_applications
          coolify_application.create_application
          coolify_application.delete_application
          coolify_application.start_application
          coolify_application.stop_application
          coolify_application.restart_application
          coolify_application.deploy_application
          coolify_application._request] in *.
  all: trace_leaves.
Qed.
(** [coolify_database]: the listing of the databases, then at most one
    request, outside check mode only: the POST to the endpoint of the
    database type for [present], the DELETE of the database found for
    [absent], the POST to the action for [started], [stopped] and
    [restarted]. *)
Theorem database_requests (rt : PyRuntime) {St : Type} (nw : Network St)
  (p : coolify_database.params) (check_mode : bool) (w : World St) :
  sends_lookup_then w
    (snd (coolify_database.run_module rt nw p check_mode w))
    (lookup_request (coolify_database.api_url p)
       (coolify_database.p_api_token p) (coolify_database.p_timeout p)
       (coolify_database.p_verify_ssl p) "/databases")
    (fun q =>
       check_mode = false /\
       ((coolify_database.state p = "present" /\ req_method q = "POST" /\
         exists endpoint,
           dget (fmt_opt (coolify_database.database_type p))
                coolify_database.type_endpoints = Some endpoint /\
           req_url q
           = (rstrip "/" (coolify_database.api_url p) ++ endpoint)%string)
        \/
        (coolify_database.state p = "absent" /\ req_method q = "DELETE" /\
         exists u,
           req_url q
           = (rstrip "/" (coolify_database.api_url p)
              ++ "/databases/" ++ py_str rt u
              ++ library_client.delete_query
                   (coolify_database.delete_configurations p)
                   (coolify_database.delete_volumes p))%string) \/
        (coolify_database.state p = "started" /\ req_method q = "POST" /\
         exists u,
           req_url q
           = (rstrip "/" (coolify_database.api_url p)
              ++ "/databases/" ++ py_str rt u ++ "/start")%string) \/
        (coolify_database.state p = "stopped" /\ req_method q = "POST" /\
         exists u,
           req_url q
           = (rstrip "/" (coolify_database.api_url p)
              ++ "/databases/" ++ py_str rt u ++ "/stop")%string) \/
        (coolify_database.state p = "restarted" /\ req_method q = "POST" /\
         exists u,
           req_url q
           = (rstrip "/" (coolify_database.api_url p)
              ++ "/databases/" ++ py_str rt u ++ "/restart")%string))).
Proof.
  trace_goal.
  unfold coolify_database.run_module, coolify_database.run_module_body,
    coolify_database.require_existing.
  cbv zeta.
  follow.
  all: cbv beta zeta delta
         [coolify_database.find_database
          coolify_database.list_databases
          coolify_database.create_database
          coolify_database.delete_database
          coolify_database.start_database
          coolify_database.stop_database
          coolify_database.restart_database
          coolify_database._request] in *.
  all: trace_leaves.
Qed.

(** [coolify_service]: the listing of the services, then at most one
    request, outside check mode only: the POST to [/services] for
    [present], the DELETE of the service found for [absent], the POST
    to the action for [started], [stopped] and [restarted]. *)
Theorem service_requests (rt : PyRuntime) {St : Type} (nw : Network St)
  (p : coolify_service.params) (check_mode : bool) (w : World St) :
  sends_lookup_then w
    (snd (coolify_service.run_module rt nw p check_mode w))
    (lookup_request (coolify_service.api_url p)
       (coolify_service.p_api_token p) (coolify_service.p_timeout p)
       (coolify_service.p_verify_ssl p) "/services")
    (fun q =>
       check_mode = false /\
       ((coolify_service.state p = "present" /\ req_method q = "POST" /\
         req_url q
         = (rstrip "/" (coolify_service.api_url p) ++ "/services")%string)
        \/
        (coolify_service.state p = "absent" /\ req_method q = "DELETE" /\
         exists u,
           req_url q
           = (rstrip "/" (coolify_service.api_url p)
              ++ "/services/" ++ py_str rt u
              ++ library_client.delete_query
                   (coolify_service.delete_configurations p)
                   (coolify_service.delete_volumes p))%string) \/
        (coolify_service.state p = "started" /\ req_method q = "POST" /\
         exists u,
           req_url q
           = (rstrip "/" (coolify_service.api_url p)
              ++ "/services/" ++ py_str rt u ++ "/start")%string) \/
        (coolify_service.state p = "stopped" /\ req_method q = "POST" /\
         exists u,
           req_url q
           = (rstrip "/" (coolify_service.api_url p)
              ++ "/services/" ++ py_str rt u ++ "/stop")%string) \/
        (coolify_service.state p = "restarted" /\ req_method q = "POST" /\
         exists u,
           req_url q
           = (rstrip "/" (coolify_service.api_url p)
              ++ "/services/" ++ py_str rt u ++ "/restart")%string))).
Proof.
  trace_goal.
  unfold coolify_service.run_module, coolify_service.run_module_body,
    coolify_service.require_existing.
  cbv zeta.
  follow.
  all: cbv beta zeta delta
         [coolify_service.find_service
          coolify_service.list_services
          coolify_service.create_service
          coolify_service.delete_service
          coolify_service.start_service
          coolify_service.stop_service
          coolify_service.restart_service
          coolify_service._request] in *.
  all: trace_leaves.
Qed.

(** [coolify_private_key]: nothing is sent when the key file cannot be
    read; otherwise the listing of the keys, then at most one request,
    outside check mode only: for [present] the creating POST or the
    PATCH of the key found, for [absent] the DELETE of the key found. *)
Theorem private_key_requests (rt : PyRuntime) {St : Type} (nw : Network St)
  (read_file : string -> string + string)
  (p : coolify_private_key.params) (check_mode : bool) (w : World St) :
  snd (coolify_private_key.run_module rt nw read_file p check_mode w) = w \/
  sends_lookup_then w
    (snd (coolify_private_key.run_module rt nw read_file p check_mode w))
    (lookup_request (coolify_private_key.api_url p)
       (coolify_private_key.p_api_token p) (coolify_private_key.p_timeout p)
       (coolify_private_key.p_verify_ssl p) "/security/keys")
    (fun q =>
       check_mode = false /\
       ((coolify_private_key.state p = "present" /\ req_method q = "POST" /\
         req_url q
         = (rstrip "/" (coolify_private_key.api_url p)
            ++ "/security/keys")%string) \/
        (coolify_private_key.state p = "present" /\ req_method q = "PATCH" /\
         exists u,
           req_url q
           = (rstrip "/" (coolify_private_key.api_url p)
              ++ "/security/keys/" ++ py_str rt u)%string) \/
        (coolify_private_key.state p = "absent" /\ req_method q = "DELETE" /\
         exists u,
           req_url q
           = (rstrip "/" (coolify_private_key.api_url p)
              ++ "/security/keys/" ++ py_str rt u)%string))).
Proof.
  match goal with
  | |- snd (?c ?w) = ?w \/ sends_lookup_then ?w _ ?l ?a =>
      change (ends_with c w
                (fun _ w' => w' = w \/ sends_lookup_then w w' l a))
  end.
  unfold coolify_private_key.run_module, coolify_private_key.run_module_body.
  cbv zeta.
  follow.
  all: cbv beta zeta delta
         [coolify_private_key.find_private_key
          coolify_private_key.list_private_keys
          coolify_private_key.create_private_key
          coolify_private_key.update_private_key
          coolify_private_key.delete_private_key
          coolify_private_key._request] in *.
  all: first [ left; reflexivity | right; trace_leaves ].
Qed.

(** [coolify_project] when no environments are asked for: the listing
    of the projects, then at most one request, outside check mode only:
    for [present] the creating POST or the PATCH of the project found,
    for [absent] the DELETE of the project found. *)
Theorem project_requests (rt : PyRuntime) {St : Type} (nw : Network St)
  (p : coolify_project.params) (check_mode : bool) (w : World St) :
  coolify_project.environments p = None \/
  coolify_project.environments p = Some [] ->
  sends_lookup_then w
    (snd (coolify_project.run_module rt nw p check_mode w))
    (lookup_request (coolify_project.api_url p)
       (coolify_project.p_api_token p) (coolify_project.p_timeout p)
       (coolify_project.p_verify_ssl p) "/projects")
    (fun q =>
       check_mode = false /\
       ((coolify_project.state p = "present" /\ req_method q = "POST" /\
         req_url q
         = (rstrip "/" (coolify_project.api_url p) ++ "/projects")%string) \/
        (coolify_project.state p = "present" /\ req_method q = "PATCH" /\
         exists u,
           req_url q
           = (rstrip "/" (coolify_project.api_url p)
              ++ "/projects/" ++ py_str rt u)%string) \/
        (coolify_project.state p = "absent" /\ req_method q = "DELETE" /\
         exists u,
           req_url q
           = (rstrip "/" (coolify_project.api_url p)
              ++ "/projects/" ++ py_str rt u)%string))).
Proof.
  intros Henv.
  trace_goal.
  unfold coolify_project.run_module, coolify_project.run_module_body.
  destruct Henv as [-> | ->]; cbv zeta.
  all: repeat first [ progress (rewrite andb_false_r; cbn [andb])
                    | follow_step ].
  all: cbv beta iota; cbn [fst snd].
  all: cbv beta zeta delta
         [coolify_project.find_project
          coolify_project.list_projects
          coolify_project.create_project
          coolify_project.update_project
          coolify_project.delete_project
          coolify_project._request] in *.
  all: trace_leaves.
Qed.

Lemma project_requests_witness :
  store_example.wire_log
    (log (snd (coolify_project.run_module python.runtime store_example.store
                 (store_example.project_present "web") false
                 store_example.empty_store)))
  = [("GET", "http://localhost:8000/api/v1/projects");
     ("POST", "http://localhost:8000/api/v1/projects")].
Proof.
  destruct (project_requests python.runtime store_example.store
              (store_example.project_present "web") false
              store_example.empty_store (or_introl eq_refl))
    as [H | (q & H & _)];
    vm_compute; reflexivity.
Defined.

(** ** Runs that have nothing to do *)

Ltac nothing_to_do :=
  cbn [String.eqb Ascii.eqb Bool.eqb];
  follow;
  repeat split; reflexivity.

(** [coolify_server], in check mode or not, with the search done: for
    [present] and a server found, and for [absent] and none found, the
    run ends after the listing and reports no change.  A server found
    is left as it is, whatever address, port, user or key the playbook
    asks for. *)
Theorem server_nothing_to_do (rt : PyRuntime) {St : Type} (nw : Network St)
  (p : coolify_server.params) (check_mode : bool) (x u : pyval)
  (w w' : World St) :
  coolify_server.find_server rt nw
    (library_client.__init__ (coolify_server.api_url p)
       (coolify_server.p_api_token p) (coolify_server.p_timeout p)
       (coolify_server.p_verify_ssl p))
    (Some (coolify_server.name p)) (coolify_server.ip p)
    (coolify_server.uuid p) w = (Ok x, w') ->
  (coolify_server.state p = "present" /\ truthy x = true /\
   py_getitem x "uuid" = Ok u) \/
  (coolify_server.state p = "absent" /\ truthy x = false) ->
  snd (coolify_server.run_module rt nw p check_mode w) = w' /\
  exited_ok (fst (coolify_server.run_module rt nw p check_mode w)) = true /\
  reported_changed (fst (coolify_server.run_module rt nw p check_mode w))
  = false.
Proof.
  intros Hfind Hcase.
  change (ends_with (coolify_server.run_module rt nw p check_mode) w
            (fun r w1 => w1 = w' /\ exited_ok r = true /\
                         reported_changed r = false)).
  unfold coolify_server.run_module, coolify_server.run_module_body.
  cbv zeta.
  destruct Hcase as [(Hs & Ht & Hu) | (Hs & Ht)]; rewrite Hs; nothing_to_do.
Qed.

Lemma server_nothing_to_do_witness :
  store_example.wire_log
    (log (snd (coolify_server.run_module python.runtime store_example.store
                 server_present false one_server)))
  = [("GET", "http://localhost:8000/api/v1/servers")] /\
  reported_changed
    (fst (coolify_server.run_module python.runtime store_example.store
            server_present false one_server)) = false.
Proof.
  destruct (server_nothing_to_do python.runtime store_example.store
              server_present false listed_server (PStr "s-1") one_server
              {| remote := [listed_server];
                 log := [Sent (lookup_request "http://localhost:8000/api/v1"
                                 "token" 30 true "/servers")] |})
    as (Hw & _ & Hc).
  - vm_compute. reflexivity.
  - left. repeat split; reflexivity.
  - rewrite Hw. split; [reflexivity | exact Hc].
Defined.
(** [coolify_application]: [present] with an application found, and
    [absent] with none found, end after the listing and report no
    change.  An application found is not compared with the parameters: its
    repository, branch, ports and the rest stay as they are. *)
Theorem application_nothing_to_do (rt : PyRuntime) {St : Type}
  (nw : Network St) (p : coolify_application.params) (check_mode : bool)
  (x u : pyval) (w w' : World St) :
  coolify_application.find_application rt nw
    (library_client.__init__ (coolify_application.api_url p)
       (coolify_application.p_api_token p) (coolify_application.p_timeout p)
       (coolify_application.p_verify_ssl p))
    (coolify_application.name p) (coolify_application.uuid p)
    (coolify_application.project_uuid p)
    (coolify_application.environment_name p) w = (Ok x, w') ->
  (coolify_application.state p = "present" /\ truthy x = true /\
   py_getitem x "uuid" = Ok u) \/
  (coolify_application.state p = "absent" /\ truthy x = false) ->
  snd (coolify_application.run_module rt nw p check_mode w) = w' /\
  exited_ok (fst (coolify_application.run_module rt nw p check_mode w))
  = true /\
  reported_changed (fst (coolify_application.run_module rt nw p check_mode w))
  = false.
Proof.
  intros Hfind Hcase.
  change (ends_with (coolify_application.run_module rt nw p check_mode) w
            (fun r w1 => w1 = w' /\ exited_ok r = true /\
                         reported_changed r = false)).
  unfold coolify_application.run_module, coolify_application.run_module_body.
  cbv zeta.
  destruct Hcase as [(Hs & Ht & Hu) | (Hs & Ht)]; rewrite Hs; nothing_to_do.
Qed.

Lemma application_nothing_to_do_witness :
  store_example.wire_log
    (log (snd (coolify_application.run_module python.runtime
                 store_example.store app_present false one_app)))
  = [("GET", "http://localhost:8000/api/v1/applications")] /\
  reported_changed
    (fst (coolify_application.run_module python.runtime store_example.store
            app_present false one_app)) = false.
Proof.
  destruct (application_nothing_to_do python.runtime store_example.store
              app_present false listed_app (PStr "a-1") one_app
              {| remote := [listed_app];
                 log := [Sent (lookup_request "http://localhost:8000/api/v1"
                                 "token" 30 true "/applications")] |})
    as (Hw & _ & Hc).
  - vm_compute. reflexivity.
  - left. repeat split; reflexivity.
  - rewrite Hw. split; [reflexivity | exact Hc].
Defined.

(** [coolify_database]: [present] with a database found, and [absent]
    with none found, end after the listing and report no change. *)
Theorem database_nothing_to_do (rt : PyRuntime) {St : Type}
  (nw : Network St) (p : coolify_database.params) (check_mode : bool)
  (x u : pyval) (w w' : World St) :
  coolify_database.find_database rt nw
    (library_client.__init__ (coolify_database.api_url p)
       (coolify_database.p_api_token p) (coolify_database.p_timeout p)
       (coolify_database.p_verify_ssl p))
    (coolify_database.name p) (coolify_database.uuid p) w = (Ok x, w') ->
  (coolify_database.state p = "present" /\ truthy x = true /\
   py_getitem x "uuid" = Ok u) \/
  (coolify_database.state p = "absent" /\ truthy x = false) ->
  snd (coolify_database.run_module rt nw p check_mode w) = w' /\
  exited_ok (fst (coolify_database.run_module rt nw p check_mode w))
  = true /\
  reported_changed (fst (coolify_database.run_module rt nw p check_mode w))
  = false.
Proof.
  intros Hfind Hcase.
  change (ends_with (coolify_database.run_module rt nw p check_mode) w
            (fun r w1 => w1 = w' /\ exited_ok r = true /\
                         reported_changed r = false)).
  unfold coolify_database.run_module, coolify_database.run_module_body.
  cbv zeta.
  destruct Hcase as [(Hs & Ht & Hu) | (Hs & Ht)]; rewrite Hs; nothing_to_do.
Qed.

Lemma database_nothing_to_do_witness :
  store_example.wire_log
    (log (snd (coolify_database.run_module python.runtime
                 store_example.store database_absent false
                 store_example.empty_store)))
  = [("GET", "http://localhost:8000/api/v1/databases")] /\
  reported_changed
    (fst (coolify_database.run_module python.runtime store_example.store
            database_absent false store_example.empty_store)) = false.
Proof.
  destruct (database_nothing_to_do python.runtime store_example.store
              database_absent false PNone PNone store_example.empty_store
              {| remote := [];
                 log := [Sent (lookup_request "http://localhost:8000/api/v1"
                                 "token" 30 true "/databases")] |})
    as (Hw & _ & Hc).
  - vm_compute. reflexivity.
  - right. split; reflexivity.
  - rewrite Hw. split; [reflexivity | exact Hc].
Defined.

(** [coolify_service]: [present] with a service found, and [absent]
    with none found, end after the listing and report no change. *)
Theorem service_nothing_to_do (rt : PyRuntime) {St : Type}
  (nw : Network St) (p : coolify_service.params) (check_mode : bool)
  (x u : pyval) (w w' : World St) :
  coolify_service.find_service rt nw
    (library_client.__init__ (coolify_service.api_url p)
       (coolify_service.p_api_token p) (coolify_service.p_timeout p)
       (coolify_service.p_verify_ssl p))
    (coolify_service.name p) (coolify_service.uuid p) w = (Ok x, w') ->
  (coolify_service.state p = "present" /\ truthy x = true /\
   py_getitem x "uuid" = Ok u) \/
  (coolify_service.state p = "absent" /\ truthy x = false) ->
  snd (coolify_service.run_module rt nw p check_mode w) = w' /\
  exited_ok (fst (coolify_service.run_module rt nw p check_mode w))
  = true /\
  reported_changed (fst (coolify_service.run_module rt nw p check_mode w))
  = false.
Proof.
  intros Hfind Hcase.
  change (ends_with (coolify_service.run_module rt nw p check_mode) w
            (fun r w1 => w1 = w' /\ exited_ok r = true /\
                         reported_changed r = false)).
  unfold coolify_service.run_module, coolify_service.run_module_body.
  cbv zeta.
  destruct Hcase as [(Hs & Ht & Hu) | (Hs & Ht)]; rewrite Hs; nothing_to_do.
Qed.

Lemma service_nothing_to_do_witness :
  store_example.wire_log
    (log (snd (coolify_service.run_module python.runtime
                 store_example.store service_present false one_service)))
  = [("GET", "http://localhost:8000/api/v1/services")] /\
  reported_changed
    (fst (coolify_service.run_module python.runtime store_example.store
            service_present false one_service)) = false.
Proof.
  destruct (service_nothing_to_do python.runtime store_example.store
              service_present false listed_service (PStr "v-1") one_service
              {| remote := [listed_service];
                 log := [Sent (lookup_request "http://localhost:8000/api/v1"
                                 "token" 30 true "/services")] |})
    as (Hw & _ & Hc).
  - vm_compute. reflexivity.
  - left. repeat split; reflexivity.
  - rewrite Hw. split; [reflexivity | exact Hc].
Defined.

(** [coolify_project] when no environments are asked for: [present]
    with a project found that [needs_update] finds up to date, and
    [absent] with none found, end after the listing and report no
    change. *)
Theorem project_nothing_to_do (rt : PyRuntime) {St : Type}
  (nw : Network St) (p : coolify_project.params) (check_mode : bool)
  (x u : pyval) (w w' : World St) :
  coolify_project.environments p = None \/
  coolify_project.environments p = Some [] ->
  coolify_project.find_project rt nw
    (library_client.__init__ (coolify_project.api_url p)
       (coolify_project.p_api_token p) (coolify_project.p_timeout p)
       (coolify_project.p_verify_ssl p))
    (Some (coolify_project.name p)) (coolify_project.uuid p) w
  = (Ok x, w') ->
  (coolify_project.state p = "present" /\ truthy x = true /\
   py_getitem x "uuid" = Ok u /\
   coolify_project.needs_update x p = Ok false) \/
  (coolify_project.state p = "absent" /\ truthy x = false) ->
  snd (coolify_project.run_module rt nw p check_mode w) = w' /\
  exited_ok (fst (coolify_project.run_module rt nw p check_mode w)) = true /\
  reported_changed (fst (coolify_project.run_module rt nw p check_mode w))
  = false.
Proof.
  intros Henv Hfind Hcase.
  change (ends_with (coolify_project.run_module rt nw p check_mode) w
            (fun r w1 => w1 = w' /\ exited_ok r = true /\
                         reported_changed r = false)).
  unfold coolify_project.run_module, coolify_project.run_module_body.
  destruct Henv as [-> | ->]; cbv zeta;
    (destruct Hcase as [(Hs & Ht & Hu & Hn) | (Hs & Ht)]; rewrite Hs;
     cbn [String.eqb Ascii.eqb Bool.eqb];
     repeat first [ progress (rewrite andb_false_r; cbn [andb])
                  | follow_step ];
     cbv beta iota; cbn [fst snd];
     repeat split; reflexivity).
Qed.

Lemma project_nothing_to_do_witness :
  store_example.wire_log
    (log (snd (coolify_project.run_module python.runtime store_example.store
                 project_described false one_project)))
  = [("GET", "http://localhost:8000/api/v1/projects")] /\
  reported_changed
    (fst (coolify_project.run_module python.runtime store_example.store
            project_described false one_project)) = false.
Proof.
  destruct (project_nothing_to_do python.runtime store_example.store
              project_described false listed_project (PStr "id-0")
              one_project
              {| remote := [listed_project];
                 log := [Sent (lookup_request "http://localhost:8000/api/v1"
                                 "token" 30 true "/projects")] |})
    as (Hw & _ & Hc).
  - left. reflexivity.
  - vm_compute. reflexivity.
  - left. repeat split; reflexivity.
  - rewrite Hw. split; [reflexivity | exact Hc].
Defined.

(** [coolify_private_key] with the key text at hand: [present] with a
    key found that [needs_update] finds up to date, and [absent] with
    none found, end after the listing and report no change.  The key
    text given is not compared with the key found. *)
Theorem private_key_nothing_to_do (rt : PyRuntime) {St : Type}
  (nw : Network St) (read_file : string -> string + string)
  (p : coolify_private_key.params) (check_mode : bool)
  (x u : pyval) (w w' : World St) :
  truthy_opt (coolify_private_key.private_key_file p) = false ->
  coolify_private_key.find_private_key rt nw
    (library_client.__init__ (coolify_private_key.api_url p)
       (coolify_private_key.p_api_token p) (coolify_private_key.p_timeout p)
       (coolify_private_key.p_verify_ssl p))
    (Some (coolify_private_key.name p)) (coolify_private_key.uuid p) w
  = (Ok x, w') ->
  (coolify_private_key.state p = "present" /\ truthy x = true /\
   py_getitem x "uuid" = Ok u /\
   coolify_private_key.needs_update x p = Ok false) \/
  (coolify_private_key.state p = "absent" /\ truthy x = false) ->
  snd (coolify_private_key.run_module rt nw read_file p check_mode w) = w' /\
  exited_ok (fst (coolify_private_key.run_module rt nw read_file p
                    check_mode w)) = true /\
  reported_changed (fst (coolify_private_key.run_module rt nw read_file p
                           check_mode w)) = false.
Proof.
  intros Hfile Hfind Hcase.
  change (ends_with (coolify_private_key.run_module rt nw read_file p
                       check_mode) w
            (fun r w1 => w1 = w' /\ exited_ok r = true /\
                         reported_changed r = false)).
  unfold coolify_private_key.run_module, coolify_private_key.run_module_body.
  rewrite Hfile. cbv zeta.
  destruct Hcase as [(Hs & Ht & Hu & Hn) | (Hs & Ht)]; rewrite Hs;
    nothing_to_do.
Qed.

Lemma private_key_nothing_to_do_witness :
  store_example.wire_log
    (log (snd (coolify_private_key.run_module python.runtime
                 store_example.store no_file key_present false one_key)))
  = [("GET", "http://localhost:8000/api/v1/security/keys")] /\
  reported_changed
    (fst (coolify_private_key.run_module python.runtime store_example.store
            no_file key_present false one_key)) = false.
Proof.
  destruct (private_key_nothing_to_do python.runtime store_example.store
              no_file key_present false deploy_key (PStr "id-0") one_key
              {| remote := [deploy_key];
                 log := [Sent (lookup_request "http://localhost:8000/api/v1"
                                 "token" 30 true "/security/keys")] |})
    as (Hw & _ & Hc).
  - reflexivity.
  - vm_compute. reflexivity.
  - left. repeat split; reflexivity.
  - rewrite Hw. split; [reflexivity | exact Hc].
Defined.

(** ** The [except] clause of [coolify_application] *)

Section ApplicationExcept.
  Variable rt : PyRuntime.
  Context {St : Type} (nw : Network St).

End ApplicationExcept.



(** ** The actions of [coolify_application] *)

(** [started], [stopped] and [restarted], outside check mode, for an
    application found: the action is posted whatever the application's
    listed status is, and when the request is answered the run reports
    a change.  Running the module again posts the action again. *)
Theorem application_action_always_changes (rt : PyRuntime) {St : Type}
  (nw : Network St) (p : coolify_application.params)
  (x u r : pyval) (w w1 w2 : World St) :
  let client :=
    library_client.__init__ (coolify_application.api_url p)
      (coolify_application.p_api_token p) (coolify_application.p_timeout p)
      (coolify_application.p_verify_ssl p) in
  coolify_application.find_application rt nw client
    (coolify_application.name p) (coolify_application.uuid p)
    (coolify_application.project_uuid p)
    (coolify_application.environment_name p) w = (Ok x, w1) ->
  truthy x = true ->
  py_getitem x "uuid" = Ok u ->
  (coolify_application.state p = "started" /\
   coolify_application.start_application rt nw client u w1 = (Ok r, w2)) \/
  (coolify_application.state p = "stopped" /\
   coolify_application.stop_application rt nw client u w1 = (Ok r, w2)) \/
  (coolify_application.state p = "restarted" /\
   coolify_application.restart_application rt nw client u w1 = (Ok r, w2)) ->
  snd (coolify_application.run_module rt nw p false w) = w2 /\
  exited_ok (fst (coolify_application.run_module rt nw p false w)) = true /\
  reported_changed (fst (coolify_application.run_module rt nw p false w))
  = true.
Proof.
  intros client Hfind Ht Hu Hcase. subst client.
  change (ends_with (coolify_application.run_module rt nw p false) w
            (fun r w' => w' = w2 /\ exited_ok r = true /\
                         reported_changed r = true)).
  unfold coolify_application.run_module, coolify_application.run_module_body,
    coolify_application.require_existing.
  cbv zeta.
  destruct Hcase as [(Hs & Hact) | [(Hs & Hact) | (Hs & Hact)]];
    rewrite Hs; cbn [String.eqb Ascii.eqb Bool.eqb negb];
    follow; repeat split; reflexivity.
Qed.

Lemma application_action_always_changes_witness :
  store_example.wire_log
    (log (snd (coolify_application.run_module python.runtime obliging
                 (app_in_state "started") false one_app)))
  = [("GET", "http://localhost:8000/api/v1/applications");
     ("POST", "http://localhost:8000/api/v1/applications/a-1/start")] /\
  reported_changed
    (fst (coolify_application.run_module python.runtime obliging
            (app_in_state "started") false one_app)) = true.
Proof.
  destruct (application_action_always_changes python.runtime obliging
              (app_in_state "started") listed_app (PStr "a-1") (PDict [])
              one_app
              {| remote := [listed_app];
                 log := [Sent (lookup_request "http://localhost:8000/api/v1"
                                 "token" 30 true "/applications")] |}
              (snd (coolify_application.run_module python.runtime obliging
                      (app_in_state "started") false one_app)))
    as (Hw & _ & Hc).
  - vm_compute. reflexivity.
  - reflexivity.
  - reflexivity.
  - left. split; [reflexivity |]. vm_compute. reflexivity.
  - split; [vm_compute; reflexivity | exact Hc].
Defined.

(** ** The base URL of a request *)

Section BaseUrl.
Lemma rstrip_app_char c s :
    rstrip c (s ++ String c EmptyString) = rstrip c s.
  Proof.
    induction s as [| a s IH]; cbn [String.append rstrip].
    - rewrite Ascii.eqb_refl. reflexivity.
    - rewrite IH. reflexivity.
  Qed.

Lemma rstrip_idempotent c s : rstrip c (rstrip c s) = rstrip c s.
  Proof.
    induction s as [| a s IH]; cbn [rstrip]; [reflexivity |].
    destruct (Ascii.eqb a c && (rstrip c s =? ""))%bool eqn:E;
      [reflexivity |].
    cbn [rstrip]. rewrite IH, E. reflexivity.
  Qed.
End BaseUrl.

(** [call_operation] uses the base URL with its trailing slashes
    stripped, and uses it for nothing else: two clients that differ in
    their base URLs only, by trailing slashes only, build the same
    request for every operation and every [params] -- or fail alike.
    In particular one more slash at the end, or stripping them
    beforehand as the facade does, changes nothing. *)
Theorem build_request_base_url (rt : PyRuntime) (self : SwaggerClient)
  (operation_id : string) (params : option (dict pyval)) :
  (forall url url',
      rstrip "/" url = rstrip "/" url' ->
      build_request rt (at_base_url self url) operation_id params
      = build_request rt (at_base_url self url') operation_id params) /\
  (forall url,
      build_request rt (at_base_url self (url ++ "/")) operation_id params
      = build_request rt (at_base_url self url) operation_id params) /\
  (forall url,
      build_request rt (at_base_url self (rstrip "/" url)) operation_id params
      = build_request rt (at_base_url self url) operation_id params).
Proof.
  assert (G : forall url url',
             rstrip "/" url = rstrip "/" url' ->
             build_request rt (at_base_url self url) operation_id params
             = build_request rt (at_base_url self url') operation_id params).
  { intros url url' H.
    unfold build_request, at_base_url, get_operation, _build_request_body,
      _resolve_ref.
    cbn [spec base_url auth_params auth_headers _operations].
    rewrite H. reflexivity. }
  split; [exact G |]. split; intros url; apply G.
  - apply rstrip_app_char.
  - apply rstrip_idempotent.
Qed.

(** ** A negative [retry_delay] *)

(** With a negative [retry_delay] and more than one attempt allowed,
    the first failed attempt ends the call: [time.sleep] refuses the
    negative length, and its [ValueError] is raised inside the handler
    of the [SwaggerClientError].  One request was sent, none is
    retried, and the error of the request is lost. *)
Theorem call_operation_negative_delay (rt : PyRuntime) {St : Type}
  (nw : Network St) (HAS_REQUESTS : bool) (self : SwaggerClient)
  (operation_id : string) (params : option (dict pyval)) (raw_response : bool)
  (rq : request) (m : string) (w w1 : World St) :
  (retry_delay self < 0)%Z ->
  (2 <= max_retries self)%Z ->
  build_request rt self operation_id params = Ok rq ->
  _make_request nw HAS_REQUESTS self rq w
  = (Raise (SwaggerClientError m), w1) ->
  call_operation rt nw HAS_REQUESTS self operation_id params raw_response w
  = (Raise (ValueError "sleep length must be non-negative"), w1).
Proof.
  intros Hd Hm Hb Hr.
  unfold call_operation, bind, lift. rewrite Hb.
  destruct (Z.to_nat (max_retries self)) as [| n] eqn:En; [lia |].
  cbn [seq retry_loop]. rewrite Hr.
  cbn [is_SwaggerClientError Z.of_nat].
  replace (0 <? max_retries self - 1)%Z with true
    by (symmetry; apply Z.ltb_lt; lia).
  unfold bind, time_sleep.
  replace (retry_delay self * 2 ^ 0 <? 0)%Z with true
    by (symmetry; apply Z.ltb_lt; lia).
  reflexivity.
Qed.

Lemma call_operation_negative_delay_witness :
  call_operation python.runtime two_failures_then_ok false
    negative_delay_client "list-projects" None false fresh_world
  = (Raise (ValueError "sleep length must be non-negative"),
     {| remote := 1%nat; log := [Sent list_projects_wire] |}).
Proof.
  apply (call_operation_negative_delay python.runtime two_failures_then_ok
           false negative_delay_client "list-projects" None false
           list_projects_request "Request failed: Connection refused"
           fresh_world
           {| remote := 1%nat; log := [Sent list_projects_wire] |}).
  - reflexivity.
  - discriminate.
  - vm_compute. reflexivity.
  - vm_compute. reflexivity.
Defined.

(** ** The operation index lists an identifier once *)

Section UniqueIds.
Lemma dkeys_dset_in {V} k (v : V) d x :
    In x (dkeys (dset k v d)) -> x = k \/ In x (dkeys d).
  Proof.
    induction d as [| [k' v'] d IH]; cbn [dset dkeys map fst In].
    - intros [<- | []]. left. reflexivity.
    - destruct (k' =? k)%string; cbn [map fst In].
      + intros [H | H]; auto.
      + intros [H | H]; [auto |].
        destruct (IH H); auto.
  Qed.

Lemma dkeys_dset_NoDup {V} k (v : V) d :
    NoDup (dkeys d) -> NoDup (dkeys (dset k v d)).
  Proof.
    induction d as [| [k' v'] d IH]; cbn [dset dkeys map fst]; intros H.
    - repeat constructor. intros [].
    - inversion H as [| ? ? Hnot Hrest]; subst.
      destruct (k' =? k)%string eqn:E; cbn [map fst].
      + constructor; assumption.
      + constructor; [| apply IH; exact Hrest].
        intros Hin. apply dkeys_dset_in in Hin. destruct Hin as [-> | Hin].
        * rewrite String.eqb_refl in E. discriminate.
        * apply Hnot. exact Hin.
  Qed.

Lemma index_method_keys path item ops m ops' :
    index_method path item ops m = Ok ops' ->
    NoDup (dkeys ops) -> NoDup (dkeys ops').
  Proof.
    unfold index_method, rbind. intros H Hn.
    repeat match type of H with
           | match ?c with Ok _ => _ | Raise _ => _ end = _ =>
               destruct c; [| discriminate]
           | (if ?b then _ else _) = _ => destruct b
           end;
      inversion H; subst; try assumption.
    apply dkeys_dset_NoDup. exact Hn.
  Qed.

Lemma for_each_keeps {A B} (body : B -> A -> Res B) (I : B -> Prop) :
    (forall acc x acc', body acc x = Ok acc' -> I acc -> I acc') ->
    forall l acc acc', for_each body l acc = Ok acc' -> I acc -> I acc'.
  Proof.
    intros Hbody. induction l as [| x l IH]; cbn [for_each]; intros acc acc' H.
    - inversion H; subst. auto.
    - destruct (body acc x) as [acc1 | e] eqn:E; [| discriminate].
      cbn [rbind] in H. intros Hacc. eapply IH; [exact H |].
      eapply Hbody; eassumption.
  Qed.
End UniqueIds.

(** Whatever the specification document declares -- the same
    [operationId] under two paths or two methods included -- the client
    that [__init__] builds lists every operation identifier once:
    [operations[operation_id] = ...] replaces an earlier entry. *)
Theorem operation_ids_listed_once (spec : pyval) (base_url : string)
  (auth_params : dict pyval) (auth_headers : dict string)
  (timeout : Z) (verify_ssl : bool) (max_retries retry_delay : Z) :
  match __init__ spec base_url auth_params auth_headers timeout verify_ssl
                 max_retries retry_delay with
  | Ok self => NoDup (list_operations self)
  | Raise _ => True
  end.
Proof.
  unfold __init__, rbind.
  destruct (_build_operation_map spec) as [ops | e] eqn:E; [| exact I].
  unfold list_operations. cbn [_operations].
  unfold _build_operation_map, rbind in E.
  destruct (py_get spec "paths" (PDict [])) as [paths | e]; [| discriminate].
  destruct (py_items paths) as [items | e]; [| discriminate].
  eapply (for_each_keeps index_path (fun ops => NoDup (dkeys ops)));
    [| exact E | constructor].
  intros acc [path item] acc' H Hacc. unfold index_path in H.
  eapply (for_each_keeps (index_method path item)
                         (fun ops => NoDup (dkeys ops)));
    [| exact H | exact Hacc].
  intros a m a'. apply index_method_keys.
Qed.

(** ** The searches of [find_server] and [find_application] *)

Ltac by_field :=
  first [ solve [split; [first [assumption | reflexivity]
                        | eapply get_has_field; eassumption]]
        | left; by_field
        | right; by_field ].

Ltac search_tests :=
  repeat match goal with
         | |- context [if ?b then _ else _] =>
             lazymatch b with
             | context [match _ with _ => _ end] => fail
             | _ => destruct b eqn:?
             end
         | |- context [match py_get ?a ?k ?d with _ => _ end] =>
             destruct (py_get a k d) eqn:?
         end.

Section SearchSoundMore.
Lemma find_server_loop_sound name ip uuid items :
    match coolify_server.find_server_loop name ip uuid items with
    | Ok x => x = PNone \/ (In x items /\ server_looked_up name ip uuid x)
    | Raise e => is_Exception e = true
    end.
  Proof.
    induction items as [| y items IH].
    - left. reflexivity.
    - cbn [coolify_server.find_server_loop]. unfold rbind.
      unfold server_looked_up, looked_up in *.
      search_tests;
        lazymatch goal with
        | |- is_Exception _ = true => eapply py_get_exception; eassumption
        | |- _ = PNone \/ (In ?y (?y :: _) /\ _) =>
            right; split; [left; reflexivity |]; by_field
        | |- match ?rest with _ => _ end =>
            destruct rest; [| exact IH];
            destruct IH as [-> | [Hin Hl]];
            [left; reflexivity | right; split; [right; exact Hin | exact Hl]]
        end.
  Qed.

Lemma find_application_loop_sound name uuid project_uuid env items :
    match coolify_application.find_application_loop name uuid project_uuid
            env items with
    | Ok x => x = PNone \/
              (In x items /\
               application_looked_up name uuid project_uuid env x)
    | Raise e => is_Exception e = true
    end.
  Proof.
    induction items as [| y items IH].
    - left. reflexivity.
    - cbn [coolify_application.find_application_loop]. unfold rbind.
      unfold application_looked_up in *.
      search_tests;
        repeat match goal with
               | H : negb _ = false |- _ => apply negb_false_iff in H
               end;
        lazymatch goal with
        | |- is_Exception _ = true => eapply py_get_exception; eassumption
        | |- _ = PNone \/ (In ?y (?y :: _) /\ _) =>
            right; split; [left; reflexivity |];
            first [ by_field
                  | right;
                    repeat split; try assumption; try reflexivity;
                    try (eapply get_has_field; eassumption);
                    try (intros; discriminate);
                    try (intros _; eapply get_has_field; eassumption);
                    try (intros _; eexists; split;
                         [eassumption | eapply get_has_field; eassumption]) ]
        | |- match ?rest with _ => _ end =>
            destruct rest; [| exact IH];
            destruct IH as [-> | [Hin Hl]];
            [left; reflexivity | right; split; [right; exact Hin | exact Hl]]
        end.
  Qed.
End SearchSoundMore.

(** The loop of [find_server] goes by the uuid, the name and the ip,
    each when given ([None] and the empty string are not).  What it
    returns is [None] or a listed server that carries one of them; when
    such a server is listed, it returns one (the first it meets), or
    stops on an entry that is no dictionary.  A server is found by its
    ip alone, under whatever name. *)
Theorem find_server_spec (name ip uuid : option string) (items : list pyval) :
  (truthy_opt name = false -> truthy_opt ip = false ->
   truthy_opt uuid = false ->
   coolify_server.find_server_loop name ip uuid items = Ok PNone) /\
  (forall x,
      coolify_server.find_server_loop name ip uuid items = Ok x ->
      x = PNone \/ (In x items /\ server_looked_up name ip uuid x)) /\
  ((exists x, In x items /\ server_looked_up name ip uuid x) ->
   match coolify_server.find_server_loop name ip uuid items with
   | Ok x => In x items /\ server_looked_up name ip uuid x
   | Raise e => is_Exception e = true
   end).
Proof.
  split; [| split].
  - intros Hn Hi Hu. induction items as [| y items IH]; [reflexivity |].
    cbn [coolify_server.find_server_loop]. rewrite Hn, Hi, Hu. exact IH.
  - intros x H. pose proof (find_server_loop_sound name ip uuid items) as S.
    rewrite H in S. exact S.
  - apply find_server_loop_finds.
Qed.

(** The loop of [find_application] returns an application whose uuid
    is the one given, or whose name is the one given and which, when a
    project or an environment is given, lies in that project and that
    environment: an application of that name elsewhere is passed over.
    What it returns is [None] or such a listed application; when one is
    listed, it returns one, or stops on an entry that is no
    dictionary. *)
Theorem find_application_spec (name uuid project_uuid environment_name
                               : option string) (items : list pyval) :
  (truthy_opt name = false -> truthy_opt uuid = false ->
   coolify_application.find_application_loop name uuid project_uuid
     environment_name items = Ok PNone) /\
  (forall x,
      coolify_application.find_application_loop name uuid project_uuid
        environment_name items = Ok x ->
      x = PNone \/
      (In x items /\
       application_looked_up name uuid project_uuid environment_name x)) /\
  ((exists x, In x items /\
              application_looked_up name uuid project_uuid environment_name x)
   ->
   match coolify_application.find_application_loop name uuid project_uuid
           environment_name items with
   | Ok x => In x items /\
             application_looked_up name uuid project_uuid environment_name x
   | Raise e => is_Exception e = true
   end).
Proof.
  split; [| split].
  - intros Hn Hu. induction items as [| y items IH]; [reflexivity |].
    cbn [coolify_application.find_application_loop]. rewrite Hn, Hu. exact IH.
  - intros x H.
    pose proof (find_application_loop_sound name uuid project_uuid
                  environment_name items) as S.
    rewrite H in S. exact S.
  - apply find_application_loop_finds.
Qed.

(** ** What [coolify_api] reports *)

(** The passthrough wrapper outside check mode, with a client at hand.
    It makes the one call.  An answer is not looked into
    ([check_response=False]): whatever it holds, the run exits with it
    as [response], and [changed] says whether the operation identifier
    begins with one of the nine mutating prefixes.  A
    [SwaggerClientError] is reported with [fail_json] under its own
    text, [changed] still [False]. *)
Theorem passthrough_report {St : Type} (IMPORT_ERROR : string)
  (CoolifyClient : string -> string -> Z -> bool ->
                   Res (swagger_coolify_api.Api St))
  (p : library_coolify_api.params) (client : swagger_coolify_api.Api St)
  (w : World St) :
  CoolifyClient (library_coolify_api.api_url p)
    (library_coolify_api.p_api_token p) (library_coolify_api.p_timeout p)
    (library_coolify_api.p_verify_ssl p) = Ok client ->
  let called s' :=
    {| remote := s';
       log := log w ++ [Called (library_coolify_api.operation p)
                               (Some (library_coolify_api.p_params p))] |} in
  match client (remote w) (library_coolify_api.operation p)
               (Some (library_coolify_api.p_params p)) with
  | (Ok response, s') =>
      library_coolify_api.run_module true IMPORT_ERROR CoolifyClient p false w
      = (Raise (SystemExit false
                  [("changed",
                    PBool (existsb
                             (fun prefix_ =>
                                prefix prefix_ (library_coolify_api.operation p))
                             library_coolify_api.mutating_ops));
                   ("response", response);
                   ("operation", PStr (library_coolify_api.operation p))]),
         called s')
  | (Raise (SwaggerClientError m), s') =>
      library_coolify_api.run_module true IMPORT_ERROR CoolifyClient p false w
      = (Raise (SystemExit true
                  [("msg", PStr m); ("changed", PBool false);
                   ("response", PNone);
                   ("operation", PStr (library_coolify_api.operation p))]),
         called s')
  | (Raise _, _) => True
  end.
Proof.
  intros Hc called.
  destruct (client (remote w) (library_coolify_api.operation p)
                   (Some (library_coolify_api.p_params p)))
    as [[response | e] s'] eqn:E.
  - unfold library_coolify_api.run_module, library_coolify_api.run_module_body,
      with_result, bind, try_except, lift, on_world,
      swagger_coolify_api._call, try_except, bind,
      swagger_coolify_api.call_operation.
    cbn [negb fst snd ret set_result]. rewrite Hc. cbn [fst snd].
    rewrite E. cbn [fst snd ret set_result].
    destruct (existsb _ library_coolify_api.mutating_ops); reflexivity.
  - destruct e; try exact I.
    unfold library_coolify_api.run_module, library_coolify_api.run_module_body,
      with_result, bind, try_except, lift, on_world,
      swagger_coolify_api._call, try_except, bind,
      swagger_coolify_api.call_operation.
    cbn [negb fst snd ret set_result]. rewrite Hc. cbn [fst snd].
    rewrite E. reflexivity.
Qed.

Lemma passthrough_report_witness :
  library_coolify_api.run_module true "" (answering not_found_answer)
    delete_task false quiet_world
  = (Raise (SystemExit false
              [("changed", PBool true); ("response", not_found_answer);
               ("operation", PStr "delete-project-by-uuid")]),
     {| remote := tt;
        log := [Called "delete-project-by-uuid"
                       (Some [("uuid", PStr "p-404")])] |}).
Proof.
  exact (passthrough_report "" (answering not_found_answer) delete_task
           (listing_api not_found_answer) quiet_world eq_refl).
Defined.

(** ** Two runs in a row *)

Section TwoRuns.

End TwoRuns.


Section FacadeCalls.
  Context {St : Type} (_client : swagger_coolify_api.Api St).


End FacadeCalls.


